(** * nova.conductor.manager: the compute-task orchestration entry points

    A shallow embedding of [ComputeTaskManager] (nova/conductor/manager.py):
    [migrate_server], [_cold_migrate], [_live_migrate], [build_instances],
    [unshelve_instance] and [rebuild_instance].

    The manager sequences calls to collaborators that live in other modules
    (scheduler client and scheduler utilities, compute RPC API, object
    persistence, image API, the two task classes).  Their answers are
    collected in a record [Env]; every call the manager makes to one of
    them is appended, in program order, to a list of [Event]s, with the
    arguments it was given.

    - Python exceptions are an explicit [Raise] outcome.  The calls whose
      exceptions the manager handles or lets through on purpose can raise:
      [task.execute()], group setup, retry population,
      [select_destinations], [instance.refresh()], the image lookup and
      [Flavor.get_by_id], and the save that names an expected task
      state.  The other writes, the casts and the notifications
      ([migration.create()], [save()], [set_vm_state_and_notify], the
      compute RPC casts, the log) are recorded and return.
    - The [filter_properties] dictionaries, which the code mutates in
      place and copies, live in a store of objects addressed by
      reference; what a cast sends is the contents at the time of the
      cast.
    - Objects that a function changes ([instance], [migration]) are
      recorded as they are at each call that receives them.
    - The request [context] is passed unchanged to every collaborator and
      is left out. *)

From Stdlib Require Import ZArith Bool.
From stdpp Require Import gmap strings list fin_maps.

Set Warnings "-register-all".
Open Scope Z_scope.
Open Scope string_scope.
Open Scope list_scope.

(** ** Values *)

(** [objects.Flavor]: the fields the manager reads. *)
Record Flavor := mkFlavor {
  flavor_id : Z;
  flavor_name : string;
  extra_specs : list (string * string)
}.

(** Untyped Python values that travel in dictionaries and legacy arguments. *)
Inductive PyVal :=
| VNone
| VBool (b : bool)
| VInt (z : Z)
| VStr (s : string)
| VList (l : list PyVal)
| VDict (d : list (string * PyVal))
| VFlavor (f : Flavor).

(** Python truth value: [None], [False], [0], [''], [[]] and [{}] are false;
    a [Flavor] object defines neither [__len__] nor [__nonzero__]. *)
Definition truthy (v : PyVal) : bool :=
  match v with
  | VNone => false
  | VBool b => b
  | VInt z => negb (Z.eqb z 0)
  | VStr s => negb (bool_decide (s = ""))
  | VList l => negb (bool_decide (length l = 0%nat))
  | VDict d => negb (bool_decide (length d = 0%nat))
  | VFlavor _ => true
  end.

(** [isinstance(v, objects.Flavor)] *)
Definition is_flavor_object (v : PyVal) : bool :=
  match v with VFlavor _ => true | _ => false end.

(** Truth value of an optional string ([None] and [''] are false). *)
Definition truthy_str (o : option string) : bool :=
  match o with
  | None => false
  | Some s => negb (bool_decide (s = ""))
  end.

Fixpoint assoc (k : string) (d : list (string * PyVal)) : option PyVal :=
  match d with
  | [] => None
  | (k', v) :: d' => if bool_decide (k = k') then Some v else assoc k d'
  end.

(** Modelled from the spec: nova.compute.vm_states and
    nova.compute.task_states are not among the sources. The spec names the
    states ([ACTIVE], [STOPPED], [RESIZED], [ERROR], [SHELVED],
    [SHELVED_OFFLOADED]); the task states are the ones the manager names.
    Each constant is the string of its name; vm_state and task_state
    values are strings or [None]. *)
Module vm_states.
Definition ACTIVE := "active".
Definition STOPPED := "stopped".
Definition RESIZED := "resized".
Definition ERROR := "error".
Definition SHELVED := "shelved".
Definition SHELVED_OFFLOADED := "shelved_offloaded".
End vm_states.

Module task_states.
Definition MIGRATING := "migrating".
Definition POWERING_ON := "powering-on".
Definition UNSHELVING := "unshelving".
End task_states.

(** [objects.Instance]; [flavor] is [None] when [obj_attr_is_set('flavor')]
    is false. *)
Record NovaInstance := mkInstance {
  uuid : string;
  vm_state : option string;
  task_state : option string;
  host : option string;
  instance_type_id : Z;
  flavor : option Flavor;
  system_metadata : gmap string string
}.

Definition instance_host (i : NovaInstance) : option string := host i.

(** The [instance] argument of [migrate_server]: an object, or the
    old-world dictionary still accepted by v1 of the RPC API. *)
Inductive InstanceArg :=
| InstObj (i : NovaInstance)
| InstLegacy (d : list (string * PyVal)).

Definition instance_truthy (a : InstanceArg) : bool :=
  match a with
  | InstObj _ => true
  | InstLegacy d => negb (bool_decide (length d = 0%nat))
  end.

(** [isinstance(instance, nova_object.NovaObject)] *)
Definition is_nova_object (a : InstanceArg) : bool :=
  match a with InstObj _ => true | InstLegacy _ => false end.

Definition pyval_of_str (o : option string) : PyVal :=
  match o with Some s => VStr s | None => VNone end.

(** [objects.Migration] as filled in by [_live_migrate]. *)
Record Migration := mkMigration {
  dest_compute : option string;
  status : string;
  instance_uuid : string;
  source_compute : option string;
  migration_type : string;
  old_instance_type_id : Z;
  new_instance_type_id : Z
}.

(** [instance.task_state = t] and [instance.vm_state = v] *)
Definition set_task_state (t : option string) (i : NovaInstance) : NovaInstance :=
  {| uuid := uuid i; vm_state := vm_state i; task_state := t; host := host i;
     instance_type_id := instance_type_id i; flavor := flavor i;
     system_metadata := system_metadata i |}.

Definition set_vm_state (v : option string) (i : NovaInstance) : NovaInstance :=
  {| uuid := uuid i; vm_state := v; task_state := task_state i; host := host i;
     instance_type_id := instance_type_id i; flavor := flavor i;
     system_metadata := system_metadata i |}.

(** [migration.status = s] *)
Definition set_status (s : string) (m : Migration) : Migration :=
  {| dest_compute := dest_compute m; status := s;
     instance_uuid := instance_uuid m; source_compute := source_compute m;
     migration_type := migration_type m;
     old_instance_type_id := old_instance_type_id m;
     new_instance_type_id := new_instance_type_id m |}.

(** The [scheduler_hint] dictionary: the API fills in ['host'] for a live
    migration and ['filter_properties'] for a resize. *)
Record SchedulerHint := mkHint {
  hint_host : option string;
  hint_filter_properties : option (gmap string PyVal)
}.

(** An entry of the list returned by [select_destinations]. *)
Record HostState := mkHostState {
  hs_host : string;
  hs_nodename : string;
  hs_limits : list (string * PyVal)
}.

(** The [updates] dictionary handed to [set_vm_state_and_notify];
    [upd_expected_task_state] is [None] when the key is not given. *)
Record Updates := mkUpdates {
  upd_vm_state : option string;
  upd_task_state : option string;
  upd_expected_task_state : option string
}.

(** [objects.NetworkRequest.from_tuple(t)] *)
Inductive NetworkRequest :=
| from_tuple (t : PyVal).

(** The [requested_networks] argument of [build_instances]: absent, a list
    of tuples (old callers) or an [objects.NetworkRequestList]. *)
Inductive RequestedNetworks :=
| NetworksNone
| NetworkTuples (tuples : list PyVal)
| NetworkRequestList (objects : list NetworkRequest).

Definition networks_truthy (n : RequestedNetworks) : bool :=
  match n with
  | NetworksNone => false
  | NetworkTuples l => negb (bool_decide (length l = 0%nat))
  | NetworkRequestList l => negb (bool_decide (length l = 0%nat))
  end.

(** [isinstance(requested_networks, objects.NetworkRequestList)] *)
Definition is_network_request_list (n : RequestedNetworks) : bool :=
  match n with NetworkRequestList _ => true | _ => false end.

(** ** Exceptions *)

(** The classes of nova.exception (and the builtins) that the manager
    raises or names in an [except] clause or in a decorator. A class that
    derives from another one is [Derived name base]: [InstanceIsLocked],
    say, is [Derived "InstanceIsLocked" InstanceInvalidState]. Any other
    class is [OtherException], by its name. A class has one base here,
    and no class named here derives from another named one as far as the
    handlers below can tell. *)
Inductive ExcClass :=
| NoValidHost
| ComputeServiceUnavailable
| InvalidHypervisorType
| InvalidCPUInfo
| UnableToMigrateToSelf
| DestinationHypervisorTooOld
| InvalidLocalStorage
| InvalidSharedStorage
| HypervisorUnavailable
| InstanceInvalidState
| MigrationPreCheckError
| LiveMigrationWithOldNovaNotSafe
| UnsupportedPolicyException
| MigrationError
| InstanceNotFound
| InstanceInfoCacheNotFound
| ImageNotFound
| UnshelveException
| NotImplementedError
| KeyError
| IndexError
| TypeError
| AttributeError
| OtherException (name : string)
| Derived (name : string) (base : ExcClass).

#[global] Instance ExcClass_eq_dec : EqDecision ExcClass.
Proof. solve_decision. Defined.

(** An exception value: its class and the keyword arguments it was built
    with ([reason=], [instance_id=], [image_id=]; the key of a [KeyError]). *)
Record Exn := mkExn {
  exc_type : ExcClass;
  exc_args : list (string * string)
}.

(** [issubclass(c, d)]: [c] is [d] or derives from it. *)
Fixpoint issubclass (c d : ExcClass) : bool :=
  bool_decide (c = d) ||
  match c with
  | Derived _ base => issubclass base d
  | _ => false
  end.

(** [isinstance(ex, (c1, ..., cn))], which is also the test an
    [except (c1, ..., cn)] clause makes: the class of [ex] is one of the
    classes or derives from one. *)
Definition isinstance (ex : Exn) (classes : list ExcClass) : bool :=
  existsb (issubclass (exc_type ex)) classes.

Inductive result (A : Type) :=
| Ok (a : A)
| Raise (e : Exn).
Arguments Ok {A} a.
Arguments Raise {A} e.

(** ** Collaborator calls *)

(** A remote call issued by one of the task objects. *)
Record RemoteCall := mkRemoteCall {
  rc_service : string;
  rc_method : string;
  rc_host : option string
}.

Record BuildAndRunArgs := mkBuildAndRun {
  bar_instance : NovaInstance;
  bar_host : string;
  bar_image : PyVal;
  bar_request_spec : gmap string PyVal;
  bar_filter_properties_ref : nat;
  bar_filter_properties : gmap string PyVal;
  bar_admin_password : PyVal;
  bar_injected_files : PyVal;
  bar_requested_networks : RequestedNetworks;
  bar_security_groups : PyVal;
  bar_block_device_mapping : list PyVal;
  bar_node : string;
  bar_limits : list (string * PyVal)
}.

Record RebuildArgs := mkRebuild {
  rb_instance : NovaInstance;
  rb_new_pass : PyVal;
  rb_injected_files : PyVal;
  rb_image_ref : PyVal;
  rb_orig_image_ref : PyVal;
  rb_orig_sys_metadata : PyVal;
  rb_bdms : PyVal;
  rb_recreate : bool;
  rb_on_shared_storage : bool;
  rb_preserve_ephemeral : bool;
  rb_host : option string
}.

Inductive Event :=
(* object layer *)
| EvFromDbObject (legacy : list (string * PyVal)) (expected_attrs : list string)
| EvFlavorGetById (flavor_id : PyVal)
| EvInstanceRefresh (instance : NovaInstance)
| EvInstanceSave (instance : NovaInstance) (expected_task_state : option string)
| EvBdmGetByInstanceUuid (instance_uuid : string)
| EvMigrationCreate (m : Migration)
| EvMigrationSave (m : Migration)
(* compute_utils.EventReporter *)
| EvEventStart (name instance_uuid : string)
| EvEventFinish (name instance_uuid : string) (exc : option Exn)
(* scheduler_utils *)
| EvSetVmStateAndNotify (instance_uuid service method : string)
    (updates : Updates) (ex : Exn) (request_spec : gmap string PyVal)
| EvSetupInstanceGroup (request_spec filter_properties : gmap string PyVal)
| EvPopulateRetry (filter_properties : gmap string PyVal) (instance_uuid : string)
| EvPopulateFilterProperties (filter_properties : gmap string PyVal)
    (host_state : HostState)
(* scheduler client *)
| EvSelectDestinations (request_spec filter_properties : gmap string PyVal)
(* task objects *)
| EvLiveMigrationTaskExecute (instance : NovaInstance)
    (destination : option string) (block_migration disk_over_commit : bool)
    (m : Migration)
| EvMigrationTaskExecute (instance : NovaInstance) (flavor : Flavor)
    (filter_properties request_spec : gmap string PyVal)
    (reservations : PyVal) (clean_shutdown : bool)
| EvRemote (c : RemoteCall)
(* image API *)
| EvImageGet (image_id : string)
(* compute RPC API *)
| EvBuildAndRunInstance (args : BuildAndRunArgs)
| EvStartInstance (instance : NovaInstance)
| EvUnshelveInstance (instance : NovaInstance) (host : string) (image : PyVal)
    (filter_properties : gmap string PyVal) (node : string)
| EvRebuildInstance (args : RebuildArgs)
(* notifier and log *)
| EvNotifyAboutInstanceUsage (instance : NovaInstance) (event_suffix : string)
| EvLog (level msg : string).

(** Calls that leave the conductor for a compute host or the scheduler. *)
Definition is_remote_dispatch (ev : Event) : bool :=
  match ev with
  | EvRemote _ | EvSelectDestinations _ _
  | EvBuildAndRunInstance _ | EvStartInstance _
  | EvUnshelveInstance _ _ _ _ _ | EvRebuildInstance _ => true
  | _ => false
  end.

(** What a task object did when [execute()] was called on it: the remote
    calls it issued, the migration object as it left it (the live task
    shares the object with the manager), and the exception it raised. *)
Record TaskRun := mkTaskRun {
  run_calls : list RemoteCall;
  run_migration : Migration;
  run_raises : option Exn
}.

Record ColdRun := mkColdRun {
  cold_calls : list RemoteCall;
  cold_raises : option Exn
}.

(** Responses of the collaborators. A function that mutates a dictionary
    it is given returns the dictionary as it left it, next to the
    exception it raised, if any. *)
Record Env := mkEnv {
  text_type : Exn → string;
  from_db_object : list (string * PyVal) → list string → NovaInstance;
  flavor_get_by_id : PyVal → result Flavor;
  get_image_from_system_metadata : gmap string string → PyVal;
  build_request_spec :
    PyVal → list NovaInstance → option Flavor → gmap string PyVal;
  live_migration_task :
    NovaInstance → option string → bool → bool → Migration → TaskRun;
  migration_task :
    NovaInstance → Flavor → gmap string PyVal → gmap string PyVal →
    PyVal → bool → ColdRun;
  setup_instance_group :
    gmap string PyVal → gmap string PyVal → gmap string PyVal * option Exn;
  populate_retry :
    gmap string PyVal → string → gmap string PyVal * option Exn;
  select_destinations :
    gmap string PyVal → gmap string PyVal → result (list HostState);
  populate_filter_properties :
    gmap string PyVal → HostState → gmap string PyVal;
  instance_refresh : NovaInstance → result NovaInstance;
  (* instance.save(expected_task_state=...): the exception, if the write
     is refused *)
  save_expected_task_state : NovaInstance → string → option Exn;
  bdm_get_by_instance_uuid : string → list PyVal;
  image_get : string → result PyVal
}.

(** ** The monad: object store, exceptions, call trace *)

Definition M (A : Type) : Type :=
  list (gmap string PyVal) → result A * list (gmap string PyVal) * list Event.

Definition ret {A} (a : A) : M A := λ h, (Ok a, h, []).

Definition bind {A B} (m : M A) (f : A → M B) : M B :=
  λ h,
    match m h with
    | (Ok a, h1, t1) =>
        match f a h1 with (r, h2, t2) => (r, h2, t1 ++ t2) end
    | (Raise e, h1, t1) => (Raise e, h1, t1)
    end.

Notation "'let!' x ':=' m 'in' k" := (bind m (λ x, k))
  (at level 10, x name, m at level 100, k at level 200,
   format "'[v' 'let!'  x  ':='  m  'in' '/' k ']'").
Notation "m ';;;' k" := (bind m (λ _, k))
  (at level 100, k at level 200, right associativity,
   format "'[v' m  ';;;' '/' k ']'").

Definition raise {A} (e : Exn) : M A := λ h, (Raise e, h, []).
Definition emit (ev : Event) : M unit := λ h, (Ok tt, h, [ev]).
Definition emit_all (evs : list Event) : M unit := λ h, (Ok tt, h, evs).

Definition lift {A} (r : result A) : M A :=
  match r with Ok a => ret a | Raise e => raise e end.

(** [try: body except Exception as ex: handler(ex)]; a handler that does
    not want the exception raises it again. *)
Definition try_except {A} (body : M A) (handler : Exn → M A) : M A :=
  λ h,
    match body h with
    | (Raise e, h1, t1) =>
        match handler e h1 with (r, h2, t2) => (r, h2, t1 ++ t2) end
    | ok => ok
    end.

(** [@messaging.expected_exceptions(c1, ..., cn)] of oslo.messaging around
    a method: an exception of one of the classes, or of a class derived
    from one, leaves the method as a [messaging.ExpectedException]; any
    other exception passes as it is. *)
Definition expected_exceptions {A} (classes : list ExcClass) (body : M A)
    : M A :=
  try_except body
    (λ ex,
      if isinstance ex classes then
        raise (mkExn (OtherException "ExpectedException") [])
      else raise ex).

(** [with excutils.save_and_reraise_exception(): body] inside a handler
    for [ex]: when [body] returns, [ex] is raised again; an exception out
    of [body] replaces it. *)
Definition save_and_reraise_exception {A} (ex : Exn) (body : M unit) : M A :=
  body ;;; raise ex.

(** Modelled from the spec: [compute_utils.EventReporter] is not among the
    sources. Like the notification sink of the spec it never fails the
    orchestration path: [with EventReporter(context, name, uuid): body]
    records the start of the action event and, on the way out, its end
    together with the exception that is passing through, which it does not
    stop. *)
Definition EventReporter {A} (name instance_uuid : string) (body : M A) : M A :=
  λ h,
    match body h with
    | (r, h1, t1) =>
        (r, h1,
         EvEventStart name instance_uuid :: t1 ++
         [EvEventFinish name instance_uuid
            match r with Ok _ => None | Raise e => Some e end])
    end.

(** Store of dictionaries. *)
Definition alloc (d : gmap string PyVal) : M nat :=
  λ h, (Ok (length h), h ++ [d], []).
Definition deref (r : nat) : M (gmap string PyVal) :=
  λ h, (Ok (h !!! r), h, []).
Definition assign (r : nat) (d : gmap string PyVal) : M unit :=
  λ h, (Ok tt, <[r := d]> h, []).
(** [copy.deepcopy(d)]: a new object with the same contents. *)
Definition deepcopy (r : nat) : M nat :=
  let! d := deref r in alloc d.

(** [for x in xs: body(x)] *)
Fixpoint for_each {A} (xs : list A) (body : A → M unit) : M unit :=
  match xs with
  | [] => ret tt
  | x :: xs' => body x ;;; for_each xs' body
  end.

(** [v[k]] on a Python value. *)
Definition getitem (v : PyVal) (k : string) : M PyVal :=
  match v with
  | VDict d =>
      match assoc k d with
      | Some x => ret x
      | None => raise (mkExn KeyError [("key", k)])
      end
  | _ => raise (mkExn TypeError [])
  end.

(** Attribute access on the [instance] argument: the old-world dictionary
    has no attributes. *)
Definition as_object (a : InstanceArg) : M NovaInstance :=
  match a with
  | InstObj i => ret i
  | InstLegacy _ => raise (mkExn AttributeError [])
  end.

Definition as_flavor (v : PyVal) : M Flavor :=
  match v with
  | VFlavor f => ret f
  | _ => raise (mkExn AttributeError [])
  end.

(** Modelled from the spec: [scheduler_utils.set_vm_state_and_notify] is
    not among the sources. It is the InstanceStateNotifier of the spec,
    which records the state transition given in [updates] and emits the
    failure reason; it is represented by the call and its arguments. *)
Definition set_vm_state_and_notify (instance_uuid service method : string)
    (updates : Updates) (ex : Exn) (request_spec : gmap string PyVal) : M unit :=
  emit (EvSetVmStateAndNotify instance_uuid service method updates ex
          request_spec).

(** ** ComputeTaskManager *)

Section ComputeTaskManager.

Variable env : Env.

(** [ComputeTaskManager._set_vm_state_and_notify] *)
Definition _set_vm_state_and_notify (instance_uuid method : string)
    (updates : Updates) (ex : Exn) (request_spec : gmap string PyVal) : M unit :=
  set_vm_state_and_notify instance_uuid "compute_task" method updates ex
    request_spec.

(** [instance.save(expected_task_state=t)]: the write is refused with an
    exception when the task state found is not [t]. *)
Definition save_expecting (instance : NovaInstance) (t : string) : M unit :=
  emit (EvInstanceSave instance (Some t)) ;;;
  match save_expected_task_state env instance t with
  | Some e => raise e
  | None => ret tt
  end.

(** [_build_cold_migrate_task(...)] followed by [task.execute()]. *)
Definition cold_migrate_task_execute (instance : NovaInstance) (flavor : Flavor)
    (filter_properties request_spec : gmap string PyVal)
    (reservations : PyVal) (clean_shutdown : bool) : M unit :=
  let run := migration_task env instance flavor filter_properties request_spec
               reservations clean_shutdown in
  emit (EvMigrationTaskExecute instance flavor filter_properties request_spec
          reservations clean_shutdown) ;;;
  emit_all (EvRemote <$> cold_calls run) ;;;
  match cold_raises run with
  | Some e => raise e
  | None => ret tt
  end.

Definition _cold_migrate (instance : NovaInstance) (flavor : Flavor)
    (filter_properties : gmap string PyVal) (reservations : PyVal)
    (clean_shutdown : bool) : M unit :=
  let image := get_image_from_system_metadata env (system_metadata instance) in
  let request_spec := build_request_spec env image [instance] (Some flavor) in
  try_except
    (cold_migrate_task_execute instance flavor filter_properties request_spec
       reservations clean_shutdown)
    (λ ex,
      if isinstance ex [NoValidHost] then
        let vm_state :=
          if truthy_str (vm_state instance) then vm_state instance
          else Some vm_states.ACTIVE in
        let updates := mkUpdates vm_state None None in
        _set_vm_state_and_notify (uuid instance) "migrate_server" updates ex
          request_spec ;;;
        (* if the flavor IDs match, it's migrate; otherwise resize *)
        let msg :=
          if bool_decide (flavor_id flavor = instance_type_id instance)
          then "No valid host found for cold migrate"
          else "No valid host found for resize" in
        raise (mkExn NoValidHost [("reason", msg)])
      else if isinstance ex [UnsupportedPolicyException] then
        save_and_reraise_exception ex
          (let vm_state :=
             if truthy_str (vm_state instance) then vm_state instance
             else Some vm_states.ACTIVE in
           let updates := mkUpdates vm_state None None in
           _set_vm_state_and_notify (uuid instance) "migrate_server" updates ex
             request_spec)
      else
        save_and_reraise_exception ex
          (let updates := mkUpdates (vm_state instance) None None in
           _set_vm_state_and_notify (uuid instance) "migrate_server" updates ex
             request_spec)).

(** The classes named by the first [except] clause of [_live_migrate]. *)
Definition live_migrate_precheck_classes : list ExcClass :=
  [ NoValidHost; ComputeServiceUnavailable; InvalidHypervisorType;
    InvalidCPUInfo; UnableToMigrateToSelf; DestinationHypervisorTooOld;
    InvalidLocalStorage; InvalidSharedStorage; HypervisorUnavailable;
    InstanceInvalidState; MigrationPreCheckError;
    LiveMigrationWithOldNovaNotSafe ].

(** The local helper [_set_vm_state] of [_live_migrate]. *)
Definition _set_vm_state (instance : NovaInstance) (ex : Exn)
    (vm_state task_state : option string) : M unit :=
  let request_spec : gmap string PyVal :=
    {[ "instance_properties" := VDict [("uuid", VStr (uuid instance))] ]} in
  set_vm_state_and_notify (uuid instance) "compute_task" "migrate_server"
    (mkUpdates vm_state task_state (Some task_states.MIGRATING))
    ex request_spec.

(** [_build_live_migrate_task(...)] followed by [task.execute()]. *)
Definition live_migrate_task_execute (instance : NovaInstance)
    (destination : option string) (block_migration disk_over_commit : bool)
    (migration : Migration) : M unit :=
  let run := live_migration_task env instance destination block_migration
               disk_over_commit migration in
  emit (EvLiveMigrationTaskExecute instance destination block_migration
          disk_over_commit migration) ;;;
  emit_all (EvRemote <$> run_calls run) ;;;
  match run_raises run with
  | Some e => raise e
  | None => ret tt
  end.

(** The [objects.Migration] that [_live_migrate] fills in and creates. *)
Definition new_live_migration (instance : NovaInstance)
    (destination : option string) : Migration :=
  let instance_type :=
    match flavor instance with
    | Some f => flavor_id f
    | None => instance_type_id instance
    end in
  {| dest_compute := destination;
     status := "pre-migrating";
     instance_uuid := uuid instance;
     source_compute := host instance;
     migration_type := "live-migration";
     old_instance_type_id := instance_type;
     new_instance_type_id := instance_type |}.

Definition _live_migrate (instance : NovaInstance)
    (scheduler_hint : SchedulerHint)
    (block_migration disk_over_commit : bool) : M unit :=
  let destination := hint_host scheduler_hint in
  let migration := new_live_migration instance destination in
  emit (EvMigrationCreate migration) ;;;
  (* the task keeps a reference to [migration]: the handlers below see the
     object as the task left it *)
  let migration' :=
    run_migration (live_migration_task env instance destination
                     block_migration disk_over_commit migration) in
  try_except
    (live_migrate_task_execute instance destination block_migration
       disk_over_commit migration)
    (λ ex,
      if isinstance ex live_migrate_precheck_classes then
        save_and_reraise_exception ex
          (_set_vm_state instance ex (vm_state instance) None ;;;
           emit (EvMigrationSave (set_status "error" migration')))
      else
        emit (EvLog "error"
                ("Migration of instance " +:+ uuid instance +:+
                 " to host " +:+ default "None" destination +:+
                 " unexpectedly failed.")) ;;;
        _set_vm_state instance ex (Some vm_states.ERROR) (task_state instance) ;;;
        emit (EvMigrationSave (set_status "failed" migration')) ;;;
        raise (mkExn MigrationError [("reason", text_type env ex)])).

(** [objects.Instance._from_db_object(context, objects.Instance(), instance,
    expected_attrs=attrs)] *)
Definition _from_db_object (instance : InstanceArg)
    (expected_attrs : list string) : M InstanceArg :=
  match instance with
  | InstLegacy d =>
      emit (EvFromDbObject d expected_attrs) ;;;
      ret (InstObj (from_db_object env d expected_attrs))
  | InstObj _ => ret instance
  end.

(** The classes named by the decorator of [migrate_server]. *)
Definition migrate_server_expected : list ExcClass :=
  [NoValidHost;
   ComputeServiceUnavailable;
   InvalidHypervisorType;
   InvalidCPUInfo;
   UnableToMigrateToSelf;
   DestinationHypervisorTooOld;
   InvalidLocalStorage;
   InvalidSharedStorage;
   HypervisorUnavailable;
   InstanceInvalidState;
   MigrationPreCheckError;
   LiveMigrationWithOldNovaNotSafe;
   UnsupportedPolicyException].

Definition migrate_server (instance : InstanceArg)
    (scheduler_hint : SchedulerHint) (live rebuild : bool) (flavor : PyVal)
    (block_migration disk_over_commit : bool) (reservations : PyVal)
    (clean_shutdown : bool) : M unit :=
  expected_exceptions migrate_server_expected
    (let! instance :=
       (if instance_truthy instance && negb (is_nova_object instance) then
          let attrs := ["metadata"; "system_metadata"; "info_cache";
                        "security_groups"] in
          _from_db_object instance attrs
        else ret instance) in
     let! flavor :=
       (if truthy flavor && negb (is_flavor_object flavor) then
          let! flavor_id := getitem flavor "id" in
          emit (EvFlavorGetById flavor_id) ;;;
          let! f := lift (flavor_get_by_id env flavor_id) in
          ret (VFlavor f)
        else ret flavor) in
     if live && negb rebuild && negb (truthy flavor) then
       let! instance := as_object instance in
       _live_migrate instance scheduler_hint block_migration disk_over_commit
     else if negb live && negb rebuild && truthy flavor then
       let! instance := as_object instance in
       let instance_uuid := uuid instance in
       EventReporter "cold_migrate" instance_uuid
         (let! filter_properties :=
            match hint_filter_properties scheduler_hint with
            | Some fp => ret fp
            | None => raise (mkExn KeyError [("key", "filter_properties")])
            end in
          (* a flavor that is true is a Flavor object by now *)
          let! flavor := as_flavor flavor in
          _cold_migrate instance flavor filter_properties reservations
            clean_shutdown)
     else raise (mkExn NotImplementedError [])).

(** Calls into nova.scheduler.utils and the scheduler client on a
    [filter_properties] dictionary of the store; the first three change
    the dictionary in place. *)
Definition setup_instance_group_at (request_spec : gmap string PyVal)
    (filter_properties : nat) : M unit :=
  let! fp := deref filter_properties in
  emit (EvSetupInstanceGroup request_spec fp) ;;;
  let '(fp', exc) := setup_instance_group env request_spec fp in
  assign filter_properties fp' ;;;
  match exc with Some e => raise e | None => ret tt end.

Definition populate_retry_at (filter_properties : nat)
    (instance_uuid : string) : M unit :=
  let! fp := deref filter_properties in
  emit (EvPopulateRetry fp instance_uuid) ;;;
  let '(fp', exc) := populate_retry env fp instance_uuid in
  assign filter_properties fp' ;;;
  match exc with Some e => raise e | None => ret tt end.

Definition populate_filter_properties_at (filter_properties : nat)
    (host_state : HostState) : M unit :=
  let! fp := deref filter_properties in
  emit (EvPopulateFilterProperties fp host_state) ;;;
  assign filter_properties (populate_filter_properties env fp host_state).

Definition select_destinations_at (request_spec : gmap string PyVal)
    (filter_properties : nat) : M (list HostState) :=
  let! fp := deref filter_properties in
  emit (EvSelectDestinations request_spec fp) ;;;
  lift (select_destinations env request_spec fp).

(** [instance.refresh()] *)
Definition refresh (instance : NovaInstance) : M NovaInstance :=
  emit (EvInstanceRefresh instance) ;;;
  lift (instance_refresh env instance).

(** The body of the dispatch loop of [build_instances]. *)
Definition build_one (image : PyVal) (request_spec : gmap string PyVal)
    (filter_properties : nat) (admin_password injected_files : PyVal)
    (requested_networks : RequestedNetworks) (security_groups : PyVal)
    (pair : NovaInstance * HostState) : M unit :=
  let '(instance, host) := pair in
  let! refreshed :=
    try_except
      (let! instance := refresh instance in ret (Some instance))
      (λ ex,
        if isinstance ex [InstanceNotFound; InstanceInfoCacheNotFound] then
          emit (EvLog "debug" "Instance deleted during build") ;;;
          ret None
        else raise ex) in
  match refreshed with
  | None => ret tt (* continue *)
  | Some instance =>
      let! local_filter_props := deepcopy filter_properties in
      populate_filter_properties_at local_filter_props host ;;;
      (* The block_device_mapping passed from the api doesn't contain
         instance specific information *)
      emit (EvBdmGetByInstanceUuid (uuid instance)) ;;;
      let bdms := bdm_get_by_instance_uuid env (uuid instance) in
      let! sent := deref local_filter_props in
      emit (EvBuildAndRunInstance
              {| bar_instance := instance;
                 bar_host := hs_host host;
                 bar_image := image;
                 bar_request_spec := request_spec;
                 bar_filter_properties_ref := local_filter_props;
                 bar_filter_properties := sent;
                 bar_admin_password := admin_password;
                 bar_injected_files := injected_files;
                 bar_requested_networks := requested_networks;
                 bar_security_groups := security_groups;
                 bar_block_device_mapping := bdms;
                 bar_node := hs_nodename host;
                 bar_limits := hs_limits host |})
  end.

(** The body of the [try] block of [build_instances]. *)
Definition build_instances_select (request_spec : gmap string PyVal)
    (filter_properties : nat) (instances : list NovaInstance)
    : M (list HostState) :=
  setup_instance_group_at request_spec filter_properties ;;;
  (* check retry policy. Rather ugly use of instances[0]...
     but if we've exceeded max retries... then we really only
     have a single instance. *)
  let! first :=
    match instances with
    | i :: _ => ret i
    | [] => raise (mkExn IndexError [])
    end in
  populate_retry_at filter_properties (uuid first) ;;;
  let! hosts := select_destinations_at request_spec filter_properties in
  ret hosts.

(** The flavor normalisation of [build_instances]: a legacy
    ['instance_type'] entry is looked up and a new dictionary, with the
    flavor object in its place, becomes [filter_properties]. The new
    dictionary is a shallow copy: it has its own entries, and the values
    under them are the objects of the dictionary received. Values are
    immutable trees here, so this sharing is not represented: what a
    collaborator changes inside a shared value is seen in the new
    dictionary only, and nothing is to be read off the store about the
    dictionary received once this copy has been made. *)
Definition build_instances_flavor (filter_properties : nat) : M nat :=
  let! fp := deref filter_properties in
  let flavor := default VNone (fp !! "instance_type") in
  if truthy flavor && negb (is_flavor_object flavor) then
    (* Code downstream may expect extra_specs to be populated since it
       is receiving an object, so lookup the flavor to ensure this. *)
    let! flavor_id := getitem flavor "id" in
    emit (EvFlavorGetById flavor_id) ;;;
    let! flavor := lift (flavor_get_by_id env flavor_id) in
    alloc (<[ "instance_type" := VFlavor flavor ]> fp)
  else ret filter_properties.

Definition build_instances (instances : list NovaInstance) (image : PyVal)
    (filter_properties : gmap string PyVal)
    (admin_password injected_files : PyVal)
    (requested_networks : RequestedNetworks) (security_groups : PyVal)
    : M unit :=
  (* the dictionary received with the request is an object of its own *)
  let! filter_properties := alloc filter_properties in
  let request_spec := build_request_spec env image instances None in
  let requested_networks :=
    if networks_truthy requested_networks &&
       negb (is_network_request_list requested_networks)
    then
      match requested_networks with
      | NetworkTuples l => NetworkRequestList (from_tuple <$> l)
      | _ => requested_networks
      end
    else requested_networks in
  let! filter_properties := build_instances_flavor filter_properties in
  let! scheduled :=
    try_except
      (let! hosts :=
         build_instances_select request_spec filter_properties instances in
       ret (Some hosts))
      (λ exc,
        let updates := mkUpdates (Some vm_states.ERROR) None None in
        for_each instances (λ instance,
          _set_vm_state_and_notify (uuid instance) "build_instances" updates
            exc request_spec) ;;;
        ret None (* return *)) in
  match scheduled with
  | None => ret tt
  | Some hosts =>
      for_each (zip instances hosts)
        (build_one image request_spec filter_properties admin_password
           injected_files requested_networks security_groups)
  end.

Definition _schedule_instances (image : PyVal) (filter_properties : nat)
    (instances : list NovaInstance) : M (list HostState) :=
  let request_spec := build_request_spec env image instances None in
  setup_instance_group_at request_spec filter_properties ;;;
  let! hosts := select_destinations_at request_spec filter_properties in
  ret hosts.

(** The local helper [safe_image_show] of [unshelve_instance]. *)
Definition safe_image_show (image_id : string) : M PyVal :=
  if truthy_str (Some image_id) then
    emit (EvImageGet image_id) ;;;
    lift (image_get env image_id)
  else raise (mkExn ImageNotFound [("image_id", "")]).

(** The image lookup of [unshelve_instance] for a recorded image id. *)
Definition unshelve_get_image (instance : NovaInstance) (image_id : string)
    : M PyVal :=
  EventReporter "get_image_info" (uuid instance)
    (try_except (safe_image_show image_id)
       (λ ex,
         if isinstance ex [ImageNotFound] then
           let instance := set_vm_state (Some vm_states.ERROR) instance in
           emit (EvInstanceSave instance None) ;;;
           let reason :=
             "Unshelve attempted but the image " +:+ image_id +:+
             " cannot be found." in
           emit (EvLog "error" reason) ;;;
           raise (mkExn UnshelveException
                    [("instance_id", uuid instance); ("reason", reason)])
         else raise ex)).

(** The body of the second [try] block of [unshelve_instance]. *)
Definition unshelve_schedule (instance : NovaInstance) (image : PyVal)
    : M unit :=
  EventReporter "schedule_instances" (uuid instance)
    (let! filter_properties := alloc ∅ in
     populate_retry_at filter_properties (uuid instance) ;;;
     let! hosts := _schedule_instances image filter_properties [instance] in
     let! host_state :=
       match hosts with
       | hs :: _ => ret hs
       | [] => raise (mkExn IndexError [])
       end in
     populate_filter_properties_at filter_properties host_state ;;;
     let '(host, node) := (hs_host host_state, hs_nodename host_state) in
     let! sent := deref filter_properties in
     emit (EvUnshelveInstance instance host image sent node)).

Definition unshelve_instance (instance : NovaInstance) : M unit :=
  let sys_meta := system_metadata instance in
  if bool_decide (vm_state instance = Some vm_states.SHELVED) then
    let instance := set_task_state (Some task_states.POWERING_ON) instance in
    save_expecting instance task_states.UNSHELVING ;;;
    emit (EvStartInstance instance)
  else if bool_decide (vm_state instance = Some vm_states.SHELVED_OFFLOADED) then
    let image_id := sys_meta !! "shelved_image_id" in
    (* No need to check for image if image_id is None as
       "shelved_image_id" key is not set for volume backed
       instance during the shelve process *)
    let! image :=
      (if truthy_str image_id then
         unshelve_get_image instance (default "" image_id)
       else ret VNone) in
    try_except (unshelve_schedule instance image)
      (λ ex,
        if isinstance ex [NoValidHost; UnsupportedPolicyException] then
          let instance := set_task_state None instance in
          emit (EvInstanceSave instance None) ;;;
          emit (EvLog "warning" "No valid host found for unshelve instance") ;;;
          ret tt (* return *)
        else
          save_and_reraise_exception ex
            (let instance := set_task_state None instance in
             emit (EvInstanceSave instance None) ;;;
             emit (EvLog "error"
                     "Unshelve attempted but an error has occurred")))
  else
    emit (EvLog "error"
            "Unshelve attempted but vm_state not SHELVED or SHELVED_OFFLOADED") ;;;
    let instance := set_vm_state (Some vm_states.ERROR) instance in
    emit (EvInstanceSave instance None) ;;;
    ret tt.

(** The body of the [try] block of [rebuild_instance]. *)
Definition rebuild_select_host (request_spec : gmap string PyVal)
    (filter_properties : nat) : M (option string) :=
  setup_instance_group_at request_spec filter_properties ;;;
  let! hosts := select_destinations_at request_spec filter_properties in
  (* host = hosts.pop(0)['host'] *)
  match hosts with
  | hs :: _ => ret (Some (hs_host hs))
  | [] => raise (mkExn IndexError [])
  end.

Definition rebuild_instance (instance : NovaInstance)
    (orig_image_ref image_ref injected_files new_pass orig_sys_metadata
       bdms : PyVal)
    (recreate on_shared_storage preserve_ephemeral : bool)
    (host : option string) : M unit :=
  EventReporter "rebuild_server" (uuid instance)
    (let! host :=
       (if negb (truthy_str host) then
          (* NOTE(lcostantino): Retrieve scheduler filters for the
             instance when the feature is available *)
          let! filter_properties :=
            alloc {[ "ignore_hosts" :=
                       VList [pyval_of_str (instance_host instance)] ]} in
          let request_spec :=
            build_request_spec env image_ref [instance] None in
          try_except (rebuild_select_host request_spec filter_properties)
            (λ ex,
              if isinstance ex [NoValidHost] then
                save_and_reraise_exception ex
                  (_set_vm_state_and_notify (uuid instance) "rebuild_server"
                     (mkUpdates (vm_state instance) None None) ex request_spec ;;;
                   emit (EvLog "warning" "No valid host found for rebuild"))
              else if isinstance ex [UnsupportedPolicyException] then
                save_and_reraise_exception ex
                  (_set_vm_state_and_notify (uuid instance) "rebuild_server"
                     (mkUpdates (vm_state instance) None None) ex request_spec ;;;
                   emit (EvLog "warning"
                           "Server with unsupported policy cannot be rebuilt"))
              else raise ex)
        else ret host) in
     emit (EvNotifyAboutInstanceUsage instance "rebuild.scheduled") ;;;
     emit (EvRebuildInstance
             {| rb_instance := instance;
                rb_new_pass := new_pass;
                rb_injected_files := injected_files;
                rb_image_ref := image_ref;
                rb_orig_image_ref := orig_image_ref;
                rb_orig_sys_metadata := orig_sys_metadata;
                rb_bdms := bdms;
                rb_recreate := recreate;
                rb_on_shared_storage := on_shared_storage;
                rb_preserve_ephemeral := preserve_ephemeral;
                rb_host := host |})).

End ComputeTaskManager.

(** * nova.conductor.manager: the database proxy, [ConductorManager]

    The methods of [ConductorManager] are run on behalf of compute nodes,
    which have no database access of their own. Each forwards to the
    database API, to an object method or to a utility of another module;
    the answers of those are collected in a record [Backend], and every
    call that reaches one of them is appended, in program order, to a list
    of [ProxyCall]s. No dictionary is shared between calls here, so a
    method is a value of [Proxy]: its outcome and the calls it made. *)

(** A value of the [updates] dictionary of [instance_update]: what came
    over the wire, or a [datetime] object. *)
Inductive Field :=
| Raw (v : PyVal)
| Datetime (stamp : Z).

(** [isinstance(value, six.string_types)] *)
Definition is_string (f : Field) : bool :=
  match f with Raw (VStr _) => true | _ => false end.

Definition string_of (f : Field) : string :=
  match f with Raw (VStr s) => s | _ => "" end.

(** [objects.NovaObject] as [object_action] sees it: the field names of
    its class, the attributes that are set, and the names
    [obj_what_changed()] reports. *)
Record NovaObject := mkNovaObject {
  obj_fields : list string;
  obj_attrs : gmap string PyVal;
  obj_changes : list string
}.

Inductive ProxyCall :=
| PcLogError (msg : string) (args : list (string * string))
| PcInstanceSave (instance_uuid : string) (updates : list (string * Field))
| PcServiceGetAll
| PcServiceGetByComputeHost (host : string)
| PcComputeNodeGetAllByHost (host : PyVal)
| PcServiceGetByHostAndTopic (host topic : string)
| PcServiceGetByHostAndBinary (host binary : string)
| PcServiceGetAllByTopic (topic : string)
| PcServiceGetAllByHost (host : string)
| PcBdmUpdateOrCreate (values : list (string * PyVal))
| PcBdmCreate (values : list (string * PyVal))
| PcBdmUpdate (bdm_id : PyVal) (values : list (string * PyVal))
| PcBdmUpdateOrCreateAtTop (bdm create : PyVal)
| PcIdToEc2InstId (instance_uuid : PyVal)
| PcGlanceIdToEc2Id (glance_id : PyVal) (image_type : option string)
| PcObjectMethod (target : NovaObject) (method : string) (args : list PyVal).

(** The collaborators of [ConductorManager]. *)
Record Backend := mkBackend {
  (* timeutils.parse_strtime *)
  parse_strtime : string → result Z;
  (* objects.Instance(context=context, uuid=instance_uuid, **updates),
     obj_reset_changes(['uuid']), save() and obj_to_primitive *)
  instance_save : string → list (string * Field) → result PyVal;
  (* self.db *)
  db_service_get_all : result PyVal;
  db_service_get_by_compute_host : string → result PyVal;
  db_service_get_by_host_and_topic : string → string → result PyVal;
  db_service_get_by_host_and_binary : string → string → result PyVal;
  db_service_get_all_by_topic : string → result PyVal;
  db_service_get_all_by_host : string → result PyVal;
  db_block_device_mapping_update_or_create :
    list (string * PyVal) → result PyVal;
  db_block_device_mapping_create : list (string * PyVal) → result PyVal;
  db_block_device_mapping_update :
    PyVal → list (string * PyVal) → result PyVal;
  (* objects.ComputeNodeList.get_all_by_host *)
  compute_node_get_all_by_host : PyVal → result PyVal;
  (* objects.BlockDeviceMapping._from_db_object *)
  bdm_from_db_object : PyVal → PyVal;
  (* jsonutils.to_primitive *)
  to_primitive : PyVal → PyVal;
  (* ec2utils *)
  id_to_ec2_inst_id : PyVal → result PyVal;
  glance_id_to_ec2_id : PyVal → option string → result PyVal;
  ec2_image_type : string → string;
  (* getattr(target, method) called with the arguments: [None] when the
     target has no such attribute; otherwise the target as the method
     leaves it and what the method returns, or the exception *)
  obj_method :
    NovaObject → string → list PyVal → option (result (NovaObject * PyVal));
  (* a != b on attribute values *)
  py_ne : PyVal → PyVal → bool;
  (* field.to_primitive(objinst, name, value) *)
  field_to_primitive : string → PyVal → PyVal
}.

(** ** Outcome and calls *)

Definition Proxy (A : Type) : Type := (result A * list ProxyCall)%type.

Definition proxy_ret {A} (a : A) : Proxy A := (Ok a, []).

Definition proxy_bind {A B} (m : Proxy A) (f : A → Proxy B) : Proxy B :=
  match m with
  | (Ok a, t1) => match f a with (r, t2) => (r, t1 ++ t2) end
  | (Raise e, t1) => (Raise e, t1)
  end.

Notation "'do!' x ':=' m 'in' k" := (proxy_bind m (λ x, k))
  (at level 10, x name, m at level 100, k at level 200,
   format "'[v' 'do!'  x  ':='  m  'in' '/' k ']'").
Notation "m '>>>' k" := (proxy_bind m (λ _, k))
  (at level 100, k at level 200, right associativity,
   format "'[v' m  '>>>' '/' k ']'").

Definition proxy_raise {A} (e : Exn) : Proxy A := (Raise e, []).

(** [@messaging.expected_exceptions(c1, ..., cn)] around a method of the
    proxy: an exception of one of the classes, or of a class derived from
    one, leaves the method as a [messaging.ExpectedException]. *)
Definition proxy_expected_exceptions {A} (classes : list ExcClass)
    (body : Proxy A) : Proxy A :=
  match body with
  | (Raise ex, t) =>
      if isinstance ex classes then
        (Raise (mkExn (OtherException "ExpectedException") []), t)
      else (Raise ex, t)
  | ok => ok
  end.

(** A call that returns nothing the manager looks at. *)
Definition tell (c : ProxyCall) : Proxy unit := (Ok tt, [c]).

(** A call and its answer. *)
Definition call {A} (c : ProxyCall) (answer : result A) : Proxy A :=
  (answer, [c]).

Definition proxy_outcome {A} (p : Proxy A) : result A := p.1.
Definition proxy_calls {A} (p : Proxy A) : list ProxyCall := p.2.

(** [d[k]] on a dictionary *)
Definition dict_getitem (d : list (string * PyVal)) (k : string)
  : Proxy PyVal :=
  match assoc k d with
  | Some x => proxy_ret x
  | None => proxy_raise (mkExn KeyError [("key", k)])
  end.

(** [d[k] = v] on a dictionary: the entry is replaced where it is, or
    added. *)
Fixpoint dict_setitem (k : string) (v : PyVal) (d : list (string * PyVal))
  : list (string * PyVal) :=
  match d with
  | [] => [(k, v)]
  | (k', v') :: d' =>
      if bool_decide (k = k') then (k, v) :: d'
      else (k', v') :: dict_setitem k v d'
  end.

(** [row[k]] and [row[k] = v] on what the database returned. *)
Definition row_getitem (row : PyVal) (k : string) : Proxy PyVal :=
  match row with
  | VDict d => dict_getitem d k
  | _ => proxy_raise (mkExn TypeError [])
  end.

Definition row_setitem (row : PyVal) (k : string) (v : PyVal) : Proxy PyVal :=
  match row with
  | VDict d => proxy_ret (VDict (dict_setitem k v d))
  | _ => proxy_raise (mkExn TypeError [])
  end.

(** ** The methods *)

Definition allowed_updates : list string :=
  ["task_state"; "vm_state"; "expected_task_state";
   "power_state"; "access_ip_v4"; "access_ip_v6";
   "launched_at"; "terminated_at"; "host"; "node";
   "memory_mb"; "vcpus"; "root_gb"; "ephemeral_gb";
   "instance_type_id"; "root_device_name"; "launched_on";
   "progress"; "vm_mode"; "default_ephemeral_device";
   "default_swap_device"; "root_device_name";
   "system_metadata"; "updated_at"].

(** Fields that we want to convert back into a datetime object. *)
Definition datetime_fields : list string :=
  ["launched_at"; "terminated_at"; "updated_at"].

Section ConductorManager.

Variable backend : Backend.

(** The loop of [instance_update] over the items of [updates], in the
    order the dictionary yields them; [updates[key] = ...] replaces the
    value of a key that is there, so the keys and their order stay. *)
Fixpoint instance_update_items (instance_uuid : string)
    (items : list (string * Field)) : Proxy (list (string * Field)) :=
  match items with
  | [] => proxy_ret []
  | (key, value) :: rest =>
      if negb (bool_decide (key ∈ allowed_updates)) then
        tell (PcLogError
                "Instance update attempted for '%(key)s' on %(instance_uuid)s"
                [("key", key); ("instance_uuid", instance_uuid)]) >>>
        proxy_raise
          (mkExn KeyError
             [("message", "unexpected update keyword '" +:+ key +:+ "'")])
      else
        do! value :=
          (if bool_decide (key ∈ datetime_fields) && is_string value then
             match parse_strtime backend (string_of value) with
             | Ok stamp => proxy_ret (Datetime stamp)
             | Raise e => proxy_raise e
             end
           else proxy_ret value) in
        do! rest := instance_update_items instance_uuid rest in
        proxy_ret ((key, value) :: rest)
  end.

(** The classes named by the decorator of [instance_update]. *)
Definition instance_update_expected : list ExcClass :=
  [KeyError; OtherException "ValueError";
   OtherException "InvalidUUID";
   InstanceNotFound;
   OtherException "UnexpectedTaskStateError"].

Definition instance_update (instance_uuid : string)
    (updates : list (string * Field)) : Proxy PyVal :=
  proxy_expected_exceptions instance_update_expected
    (do! updates := instance_update_items instance_uuid updates in
     call (PcInstanceSave instance_uuid updates)
       (instance_save backend instance_uuid updates)).

Definition block_device_mapping_update_or_create
    (values : list (string * PyVal)) (create : PyVal) : Proxy unit :=
  do! bdm :=
    match create with
    | VNone =>
        call (PcBdmUpdateOrCreate values)
          (db_block_device_mapping_update_or_create backend values)
    | VBool true =>
        call (PcBdmCreate values)
          (db_block_device_mapping_create backend values)
    | _ =>
        do! bdm_id := dict_getitem values "id" in
        call (PcBdmUpdate bdm_id values)
          (db_block_device_mapping_update backend bdm_id values)
    end in
  let bdm_obj := bdm_from_db_object backend bdm in
  tell (PcBdmUpdateOrCreateAtTop bdm_obj create).

(** The classes named by the decorator of [service_get_all_by]. *)
Definition service_get_all_by_expected : list ExcClass :=
  [OtherException "ComputeHostNotFound"; OtherException "HostBinaryNotFound"].

(** [topic], [host] and [binary] are strings or [None]. When no branch
    assigns [result], reading it at the [return] raises
    UnboundLocalError. *)
Definition service_get_all_by (topic host binary : option string)
    : Proxy PyVal :=
  proxy_expected_exceptions service_get_all_by_expected
    (let topic_name := default "" topic in
     let host_name := default "" host in
     let binary_name := default "" binary in
     do! result :=
       (if negb (truthy_str topic || truthy_str host || truthy_str binary) then
          call PcServiceGetAll (db_service_get_all backend)
        else if truthy_str topic && truthy_str host then
          if bool_decide (topic_name = "compute") then
            do! result :=
              call (PcServiceGetByComputeHost host_name)
                (db_service_get_by_compute_host backend host_name) in
            (* NOTE(sbauza): Only Juno computes are still calling this
               conductor method for getting service_get_by_compute_node,
               but expect a compute_node field so we can safely add it. *)
            do! row_host := row_getitem result "host" in
            do! nodes :=
              call (PcComputeNodeGetAllByHost row_host)
                (compute_node_get_all_by_host backend row_host) in
            do! result := row_setitem result "compute_node" nodes in
            proxy_ret (VList [result])
          else
            call (PcServiceGetByHostAndTopic host_name topic_name)
              (db_service_get_by_host_and_topic backend host_name topic_name)
        else if truthy_str host && truthy_str binary then
          call (PcServiceGetByHostAndBinary host_name binary_name)
            (db_service_get_by_host_and_binary backend host_name binary_name)
        else if truthy_str topic then
          call (PcServiceGetAllByTopic topic_name)
            (db_service_get_all_by_topic backend topic_name)
        else if truthy_str host then
          call (PcServiceGetAllByHost host_name)
            (db_service_get_all_by_host backend host_name)
        else
          proxy_raise (mkExn (OtherException "UnboundLocalError") [])) in
     proxy_ret (to_primitive backend result)).

(** The loop of [get_ec2_ids] over the image types. *)
Fixpoint get_ec2_image_ids (instance : list (string * PyVal))
    (image_types : list string) (ec2_ids : gmap string PyVal)
  : Proxy (gmap string PyVal) :=
  match image_types with
  | [] => proxy_ret ec2_ids
  | image_type :: rest =>
      (* instance.get('%s_id' % image_type) *)
      let image_id := default VNone (assoc (image_type +:+ "_id") instance) in
      do! ec2_ids :=
        match image_id with
        | VNone => proxy_ret ec2_ids
        | _ =>
            let ec2_type := ec2_image_type backend image_type in
            do! ec2_id :=
              call (PcGlanceIdToEc2Id image_id (Some ec2_type))
                (glance_id_to_ec2_id backend image_id (Some ec2_type)) in
            proxy_ret (<[ image_type +:+ "-id" := ec2_id ]> ec2_ids)
        end in
      get_ec2_image_ids instance rest ec2_ids
  end.

Definition get_ec2_ids (instance : list (string * PyVal))
    : Proxy (gmap string PyVal) :=
  let ec2_ids : gmap string PyVal := ∅ in
  do! instance_uuid := dict_getitem instance "uuid" in
  do! inst_id :=
    call (PcIdToEc2InstId instance_uuid)
      (id_to_ec2_inst_id backend instance_uuid) in
  let ec2_ids := <[ "instance-id" := inst_id ]> ec2_ids in
  do! image_ref := dict_getitem instance "image_ref" in
  do! ami_id :=
    call (PcGlanceIdToEc2Id image_ref None)
      (glance_id_to_ec2_id backend image_ref None) in
  let ec2_ids := <[ "ami-id" := ami_id ]> ec2_ids in
  get_ec2_image_ids instance ["kernel"; "ramdisk"] ec2_ids.

(** Dispatch a call to an object method. Any exception, a missing method
    included, comes out as [messaging.ExpectedException]. *)
Definition _object_dispatch (target : NovaObject) (method : string)
    (args : list PyVal) : Proxy (NovaObject * PyVal) :=
  match obj_method backend target method args with
  | Some (Ok r) => call (PcObjectMethod target method args) (Ok r)
  | Some (Raise _) =>
      tell (PcObjectMethod target method args) >>>
      proxy_raise (mkExn (OtherException "ExpectedException") [])
  | None => proxy_raise (mkExn (OtherException "ExpectedException") [])
  end.

(** The diff of [object_action]: one step of its loop over the fields. *)
Definition object_action_diff (oldobj objinst : NovaObject)
    (updates : gmap string PyVal) (name : string) : gmap string PyVal :=
  match obj_attrs objinst !! name with
  | None =>
      (* Avoid demand-loading anything *)
      updates
  | Some new =>
      if match obj_attrs oldobj !! name with
         | None => true
         | Some old => py_ne backend old new
         end
      then <[ name := field_to_primitive backend name new ]> updates
      else updates
  end.

(** Perform an action on an object. The method works on [objinst] itself;
    [oldobj] is the clone taken before. *)
Definition object_action (objinst : NovaObject) (objmethod : string)
    (args : list PyVal) : Proxy (gmap string PyVal * PyVal) :=
  let oldobj := objinst in
  do! r := _object_dispatch objinst objmethod args in
  let '(objinst, result) := r in
  let updates := ∅ in
  (* NOTE(danms): Diff the object with the one passed to us and
     generate a list of changes to forward back *)
  let updates :=
    foldl (object_action_diff oldobj objinst) updates (obj_fields objinst) in
  (* This is safe since a field named this would conflict with the
     method anyway *)
  let updates :=
    <[ "obj_what_changed" := VList (VStr <$> obj_changes objinst) ]> updates in
  proxy_ret (updates, result).

End ConductorManager.

(** ** Reading a run *)

Definition outcome {A} (x : result A * list (gmap string PyVal) * list Event)
  : result A := x.1.1.
Definition store {A} (x : result A * list (gmap string PyVal) * list Event)
  : list (gmap string PyVal) := x.1.2.
Definition trace {A} (x : result A * list (gmap string PyVal) * list Event)
  : list Event := x.2.

(** What leaves a method decorated with [expected_exceptions] when its
    body raises [ex], and the outcome of the method for the outcome of its
    body. *)
Definition as_expected (classes : list ExcClass) (ex : Exn) : Exn :=
  if isinstance ex classes then mkExn (OtherException "ExpectedException") []
  else ex.

Definition expected_outcome {A} (classes : list ExcClass) (r : result A)
  : result A :=
  match r with
  | Ok a => Ok a
  | Raise e => Raise (as_expected classes e)
  end.

(** A class that the model names, as opposed to one derived from it. *)
Definition is_named_class (c : ExcClass) : bool :=
  match c with Derived _ _ => false | _ => true end.

Definition is_live_task_execute (ev : Event) : bool :=
  match ev with EvLiveMigrationTaskExecute _ _ _ _ _ => true | _ => false end.

Definition is_cold_task_execute (ev : Event) : bool :=
  match ev with EvMigrationTaskExecute _ _ _ _ _ _ => true | _ => false end.

(** Conversions and by-id lookups of the input normalisation. *)
Definition is_normalization (ev : Event) : bool :=
  match ev with
  | EvFromDbObject _ _ | EvFlavorGetById _ => true
  | _ => false
  end.

Definition is_set_vm_state (ev : Event) : bool :=
  match ev with EvSetVmStateAndNotify _ _ _ _ _ _ => true | _ => false end.

(** The [build_and_run_instance], [unshelve_instance] and
    [rebuild_instance] casts of a trace, in order. *)
Definition build_dispatches (tr : list Event) : list BuildAndRunArgs :=
  omap (λ ev, match ev with EvBuildAndRunInstance a => Some a | _ => None end) tr.

Definition is_unshelve_dispatch (ev : Event) : bool :=
  match ev with EvUnshelveInstance _ _ _ _ _ => true | _ => false end.

Definition is_rebuild_dispatch (ev : Event) : bool :=
  match ev with EvRebuildInstance _ => true | _ => false end.

(** ** What the collaborators answer *)

(** The instance the request is routed with: the object itself, or the
    object made from the old-world dictionary. *)
Definition routed_instance (env : Env) (a : InstanceArg) : NovaInstance :=
  match a with
  | InstObj i => i
  | InstLegacy d =>
      from_db_object env d
        ["metadata"; "system_metadata"; "info_cache"; "security_groups"]
  end.

(** A legacy flavor argument names a flavor that the by-id lookup finds. *)
Definition flavor_resolves (env : Env) (flavor : PyVal) : Prop :=
  truthy flavor = true → is_flavor_object flavor = false →
  ∃ d fid f,
    flavor = VDict d ∧ assoc "id" d = Some fid ∧
    flavor_get_by_id env fid = Ok f.

(** The migration record handed to the live-migration task of a call, and
    the exception the task raises. *)
Definition live_task_raises (env : Env) (instance : NovaInstance)
    (hint : SchedulerHint) (bm doc : bool) : option Exn :=
  run_raises
    (live_migration_task env instance (hint_host hint) bm doc
       (new_live_migration instance (hint_host hint))).

(** The request spec [_cold_migrate] builds before it creates the task,
    and the exception the task raises. *)
Definition cold_request_spec (env : Env) (instance : NovaInstance)
    (flavor : Flavor) : gmap string PyVal :=
  build_request_spec env
    (get_image_from_system_metadata env (system_metadata instance))
    [instance] (Some flavor).

Definition cold_task_raises (env : Env) (instance : NovaInstance)
    (flavor : Flavor) (filter_properties : gmap string PyVal)
    (reservations : PyVal) (clean_shutdown : bool) : option Exn :=
  cold_raises
    (migration_task env instance flavor filter_properties
       (cold_request_spec env instance flavor) reservations clean_shutdown).

(** [build_instances]: the dictionary the batch is scheduled with, once a
    legacy ['instance_type'] entry has been replaced by the flavor object. *)
Definition batch_filter_properties (env : Env) (fp : gmap string PyVal)
  : result (gmap string PyVal) :=
  let flavor := default VNone (fp !! "instance_type") in
  if truthy flavor && negb (is_flavor_object flavor) then
    match flavor with
    | VDict d =>
        match assoc "id" d with
        | Some fid =>
            match flavor_get_by_id env fid with
            | Ok f => Ok (<[ "instance_type" := VFlavor f ]> fp)
            | Raise e => Raise e
            end
        | None => Raise (mkExn KeyError [("key", "id")])
        end
    | _ => Raise (mkExn TypeError [])
    end
  else Ok fp.

(** The reference of that dictionary in a store that had [n] objects when
    the call came in: the argument itself, or the copy made for the flavor
    object. *)
Definition batch_ref (fp : gmap string PyVal) (n : nat) : nat :=
  let flavor := default VNone (fp !! "instance_type") in
  if truthy flavor && negb (is_flavor_object flavor) then S n else n.

(** Host selection for the batch: group setup, retry population and
    [select_destinations], each on the dictionary as the one before left
    it. The dictionary at the end and the hosts, or the exception. *)
Definition batch_placement (env : Env) (request_spec fp : gmap string PyVal)
    (instances : list NovaInstance)
  : gmap string PyVal * result (list HostState) :=
  let '(fp1, e1) := setup_instance_group env request_spec fp in
  match e1 with
  | Some e => (fp1, Raise e)
  | None =>
      match instances with
      | [] => (fp1, Raise (mkExn IndexError []))
      | first :: _ =>
          let '(fp2, e2) := populate_retry env fp1 (uuid first) in
          match e2 with
          | Some e => (fp2, Raise e)
          | None => (fp2, select_destinations env request_spec fp2)
          end
      end
  end.

(** An instance of the batch is still there, or is reported gone. *)
Definition refreshes_or_gone (env : Env) (instance : NovaInstance) : Prop :=
  match instance_refresh env instance with
  | Ok _ => True
  | Raise e => exc_type e ∈ [InstanceNotFound; InstanceInfoCacheNotFound]
  end.

(** The pairs of the batch whose instance is still there, refreshed. *)
Definition survivors (env : Env) (pairs : list (NovaInstance * HostState))
  : list (NovaInstance * HostState) :=
  omap (λ p, match instance_refresh env p.1 with
             | Ok i => Some (i, p.2)
             | Raise _ => None
             end) pairs.

(** [unshelve_instance]: the image step and the scheduling step. *)
Definition shelved_image (env : Env) (instance : NovaInstance) : result PyVal :=
  match system_metadata instance !! "shelved_image_id" with
  | Some image_id =>
      if bool_decide (image_id = "") then Ok VNone else image_get env image_id
  | None => Ok VNone
  end.

Definition unshelve_placement (env : Env) (instance : NovaInstance)
    (image : PyVal) : gmap string PyVal * result (list HostState) :=
  let '(fp1, e1) := populate_retry env ∅ (uuid instance) in
  match e1 with
  | Some e => (fp1, Raise e)
  | None =>
      let request_spec := build_request_spec env image [instance] None in
      let '(fp2, e2) := setup_instance_group env request_spec fp1 in
      match e2 with
      | Some e => (fp2, Raise e)
      | None => (fp2, select_destinations env request_spec fp2)
      end
  end.

(** [rebuild_instance]: the scheduling step. *)
Definition rebuild_filter_properties (instance : NovaInstance)
  : gmap string PyVal :=
  {[ "ignore_hosts" := VList [pyval_of_str (host instance)] ]}.

Definition rebuild_request_spec (env : Env) (instance : NovaInstance)
    (image_ref : PyVal) : gmap string PyVal :=
  build_request_spec env image_ref [instance] None.

Definition rebuild_placement (env : Env) (instance : NovaInstance)
    (image_ref : PyVal) : gmap string PyVal * result (list HostState) :=
  let request_spec := rebuild_request_spec env instance image_ref in
  let '(fp1, e1) :=
    setup_instance_group env request_spec (rebuild_filter_properties instance) in
  match e1 with
  | Some e => (fp1, Raise e)
  | None => (fp1, select_destinations env request_spec fp1)
  end.

(** ** Failure policies, as the caller observes them *)

(** A live migration rejected by a pre-check: [ex] is raised again; the
    last two writes put vm_state back and mark the record ['error']. *)
Definition fails_as_precheck (env : Env) (instance : NovaInstance)
    (hint : SchedulerHint) (bm doc : bool) (ex : Exn)
    (h : list (gmap string PyVal)) : Prop :=
  let out := _live_migrate env instance hint bm doc h in
  outcome out = Raise ex ∧
  ∃ pre m rs,
    trace out =
      pre ++ [ EvSetVmStateAndNotify (uuid instance) "compute_task"
                 "migrate_server"
                 (mkUpdates (vm_state instance) None
                    (Some task_states.MIGRATING)) ex rs;
               EvMigrationSave m ] ∧
    status m = "error".

(** A live migration that broke: a [MigrationError] with the text of [ex]
    is raised; the last two writes set vm_state to ERROR and mark the
    record ['failed']. *)
Definition fails_as_unexpected (env : Env) (instance : NovaInstance)
    (hint : SchedulerHint) (bm doc : bool) (ex : Exn)
    (h : list (gmap string PyVal)) : Prop :=
  let out := _live_migrate env instance hint bm doc h in
  outcome out = Raise (mkExn MigrationError [("reason", text_type env ex)]) ∧
  ∃ pre m rs,
    trace out =
      pre ++ [ EvSetVmStateAndNotify (uuid instance) "compute_task"
                 "migrate_server"
                 (mkUpdates (Some vm_states.ERROR) (task_state instance)
                    (Some task_states.MIGRATING)) ex rs;
               EvMigrationSave m ] ∧
    status m = "failed".

(** The failure classes the specification counts as pre-check or placement
    failures of a live migration. *)
Definition claimed_precheck_classes : list ExcClass :=
  live_migrate_precheck_classes ++ [UnsupportedPolicyException].

(** The vm_state observed before the call, or ACTIVE when there is none. *)
Definition prior_or_active (v : option string) : string :=
  match v with
  | Some s => if bool_decide (s = "") then vm_states.ACTIVE else s
  | None => vm_states.ACTIVE
  end.

(** [requested_networks] as [build_instances] passes it on: a non-empty
    list of tuples becomes a [NetworkRequestList]. *)
Definition normalized_networks (n : RequestedNetworks) : RequestedNetworks :=
  match n with
  | NetworkTuples (t :: l) => NetworkRequestList (from_tuple <$> (t :: l))
  | _ => n
  end.

(** The cast [build_instances] is expected to make for a pair whose
    instance is still there: the dictionary it sends is a new object,
    [ref], holding the batch dictionary [fpb] with the annotations of this
    pair's host and of no other. *)
Definition build_and_run_for (env : Env) (image : PyVal)
    (request_spec fpb : gmap string PyVal)
    (admin_password injected_files : PyVal)
    (requested_networks : RequestedNetworks) (security_groups : PyVal)
    (ref : nat) (p : NovaInstance * HostState) : BuildAndRunArgs :=
  {| bar_instance := p.1;
     bar_host := hs_host p.2;
     bar_image := image;
     bar_request_spec := request_spec;
     bar_filter_properties_ref := ref;
     bar_filter_properties := populate_filter_properties env fpb p.2;
     bar_admin_password := admin_password;
     bar_injected_files := injected_files;
     bar_requested_networks := requested_networks;
     bar_security_groups := security_groups;
     bar_block_device_mapping := bdm_get_by_instance_uuid env (uuid p.1);
     bar_node := hs_nodename p.2;
     bar_limits := hs_limits p.2 |}.

Definition is_instance_save (ev : Event) : bool :=
  match ev with EvInstanceSave _ _ => true | _ => false end.

(** The message of the [UnshelveException] for an image that is gone. *)
Definition image_gone_reason (image_id : string) : string :=
  "Unshelve attempted but the image " +:+ image_id +:+ " cannot be found.".

(** The scheduler calls of a rebuild without a host: group setup on the
    new dictionary and, when that returns, [select_destinations] on the
    dictionary as group setup left it. *)
Definition rebuild_schedule_events (env : Env) (instance : NovaInstance)
    (image_ref : PyVal) : list Event :=
  let rs := rebuild_request_spec env instance image_ref in
  let fp0 := rebuild_filter_properties instance in
  EvSetupInstanceGroup rs fp0 ::
  match (setup_instance_group env rs fp0).2 with
  | Some _ => []
  | None => [EvSelectDestinations rs (setup_instance_group env rs fp0).1]
  end.

(** The [rebuild_instance] cast for the arguments of a rebuild and the
    host it goes to. *)
Definition rebuild_cast (instance : NovaInstance)
    (orig_image_ref image_ref injected_files new_pass orig_sys_metadata
       bdms : PyVal)
    (recreate on_shared_storage preserve_ephemeral : bool)
    (chosen : option string) : Event :=
  EvRebuildInstance
    {| rb_instance := instance;
       rb_new_pass := new_pass;
       rb_injected_files := injected_files;
       rb_image_ref := image_ref;
       rb_orig_image_ref := orig_image_ref;
       rb_orig_sys_metadata := orig_sys_metadata;
       rb_bdms := bdms;
       rb_recreate := recreate;
       rb_on_shared_storage := on_shared_storage;
       rb_preserve_ephemeral := preserve_ephemeral;
       rb_host := chosen |}.

(** ** Counting calls *)

(** How many calls of a kind a trace has. *)
Definition occurrences (p : Event → bool) (tr : list Event) : nat :=
  length (List.filter p tr).

Definition is_migration_create (ev : Event) : bool :=
  match ev with EvMigrationCreate _ => true | _ => false end.

Definition is_migration_save (ev : Event) : bool :=
  match ev with EvMigrationSave _ => true | _ => false end.

Definition is_scheduler_call (ev : Event) : bool :=
  match ev with
  | EvSetupInstanceGroup _ _ | EvPopulateRetry _ _
  | EvSelectDestinations _ _ | EvPopulateFilterProperties _ _ => true
  | _ => false
  end.

Definition is_image_get (ev : Event) : bool :=
  match ev with EvImageGet _ => true | _ => false end.

Definition is_usage_notification (ev : Event) : bool :=
  match ev with EvNotifyAboutInstanceUsage _ _ => true | _ => false end.

(** The migration object as the live-migration task of a call leaves it. *)
Definition live_task_migration (env : Env) (instance : NovaInstance)
    (hint : SchedulerHint) (bm doc : bool) : Migration :=
  run_migration
    (live_migration_task env instance (hint_host hint) bm doc
       (new_live_migration instance (hint_host hint))).

(** The [expected_attrs] of the instance conversion in [migrate_server]. *)
Definition migrate_server_attrs : list string :=
  ["metadata"; "system_metadata"; "info_cache"; "security_groups"].

(** [filter_properties] carries an ['instance_type'] that is not yet a
    [Flavor] object. *)
Definition has_legacy_instance_type (fp : gmap string PyVal) : bool :=
  let flavor := default VNone (fp !! "instance_type") in
  truthy flavor && negb (is_flavor_object flavor).

(** Flavor lookups by id. *)
Definition is_flavor_lookup (ev : Event) : bool :=
  match ev with EvFlavorGetById _ => true | _ => false end.

(** How the scheduling step of [unshelve_instance] fails, if it does: with
    the exception out of retry population, group setup or
    [select_destinations], or, when the scheduler returns no host, with the
    IndexError of [hosts[0]]. *)
Definition unshelve_schedule_failure (env : Env) (instance : NovaInstance)
    (image : PyVal) : option Exn :=
  match (unshelve_placement env instance image).2 with
  | Raise e => Some e
  | Ok [] => Some (mkExn IndexError [])
  | Ok (_ :: _) => None
  end.

(** How the scheduling step of [rebuild_instance] fails, if it does: as
    above, the IndexError being that of [hosts.pop(0)]. *)
Definition rebuild_schedule_failure (env : Env) (instance : NovaInstance)
    (image_ref : PyVal) : option Exn :=
  match (rebuild_placement env instance image_ref).2 with
  | Raise e => Some e
  | Ok [] => Some (mkExn IndexError [])
  | Ok (_ :: _) => None
  end.

(** ** Observations on the database proxy *)

(** The check [instance_update] makes on a key. *)
Definition update_allowed (key : string) : bool :=
  bool_decide (key ∈ allowed_updates).

(** The item is a datetime field that came as a string. *)
Definition is_timestamp_string (item : string * Field) : bool :=
  bool_decide (item.1 ∈ datetime_fields) && is_string item.2.

(** An item [instance_update] gets past: its key is allowed and, if it is
    a timestamp string, it parses. *)
Definition update_item_ok (backend : Backend) (item : string * Field) : bool :=
  update_allowed item.1 &&
  (if is_timestamp_string item then
     match parse_strtime backend (string_of item.2) with
     | Ok _ => true
     | Raise _ => false
     end
   else true).

(** An item as [instance_update] hands it to the instance: a timestamp
    string is replaced by the [datetime] it parses to. *)
Definition parsed_item (backend : Backend) (item : string * Field)
  : string * Field :=
  (item.1,
   if is_timestamp_string item then
     match parse_strtime backend (string_of item.2) with
     | Ok stamp => Datetime stamp
     | Raise _ => item.2
     end
   else item.2).

(** The log entry of [instance_update] for a key it does not allow, and
    the KeyError that follows it. *)
Definition update_rejected_log (instance_uuid key : string) : ProxyCall :=
  PcLogError "Instance update attempted for '%(key)s' on %(instance_uuid)s"
    [("key", key); ("instance_uuid", instance_uuid)].

Definition unexpected_keyword (key : string) : Exn :=
  mkExn KeyError [("message", "unexpected update keyword '" +:+ key +:+ "'")].

(** What the diff of [object_action] reports for a field: nothing when
    the attribute is not set afterwards; its primitive when it was not set
    before or compares unequal to what it was. *)
Definition reported_change (backend : Backend) (oldobj objinst : NovaObject)
    (name : string) : option PyVal :=
  match obj_attrs objinst !! name with
  | None => None
  | Some new =>
      if match obj_attrs oldobj !! name with
         | None => true
         | Some old => py_ne backend old new
         end
      then Some (field_to_primitive backend name new)
      else None
  end.

(** The conversion [migrate_server] makes of its [instance] argument: one
    call for an old-world dictionary that is not empty, none otherwise. *)
Definition instance_conversion (a : InstanceArg) : list Event :=
  match a with
  | InstLegacy (item :: d) =>
      [EvFromDbObject (item :: d) migrate_server_attrs]
  | _ => []
  end.

(** ** Fixtures *)

Module Fixtures.

Definition m1_small : Flavor := mkFlavor 5 "m1.small" [].
Definition m1_large : Flavor := mkFlavor 7 "m1.large" [].

Definition server_with (u : string) (vm : option string)
    (sys_meta : gmap string string) : NovaInstance :=
  {| uuid := u; vm_state := vm; task_state := Some task_states.MIGRATING;
     host := Some "compute1"; instance_type_id := 5;
     flavor := Some m1_small; system_metadata := sys_meta |}.

Definition server (u : string) (vm : option string) : NovaInstance :=
  server_with u vm ∅.

Definition host_state (h : string) : HostState :=
  mkHostState h (h +:+ "-node") [("memory_mb", VInt 2048)].

Definition three_hosts : list HostState :=
  [host_state "compute2"; host_state "compute3"; host_state "compute4"].

(** A cloud: the tasks issue the calls in [calls] and raise [failure];
    the scheduler answers [placement]; the instances in [vanished] are
    gone when refreshed; the images in [missing] do not resolve. *)
Definition cloud_with (calls : list RemoteCall) (failure : option Exn)
    (placement : result (list HostState)) (vanished missing : list string)
  : Env :=
  {| text_type := λ ex, default "" (snd <$> head (exc_args ex));
     from_db_object := λ d _,
       server (match assoc "uuid" d with Some (VStr u) => u | _ => "" end)
              (Some vm_states.ACTIVE);
     flavor_get_by_id := λ v,
       match v with
       | VInt 5 => Ok m1_small
       | VInt 7 => Ok m1_large
       | _ => Raise (mkExn (OtherException "FlavorNotFound") [])
       end;
     get_image_from_system_metadata := λ _, VDict [];
     build_request_spec := λ image instances instance_type,
       {[ "image" := image;
          "num_instances" := VInt (Z.of_nat (length instances)) ]};
     live_migration_task := λ _ dest _ _ m,
       mkTaskRun calls
         (if bool_decide (dest_compute m = None)
          then {| dest_compute := Some "compute2"; status := status m;
                  instance_uuid := instance_uuid m;
                  source_compute := source_compute m;
                  migration_type := migration_type m;
                  old_instance_type_id := old_instance_type_id m;
                  new_instance_type_id := new_instance_type_id m |}
          else m)
         failure;
     migration_task := λ _ _ _ _ _ _, mkColdRun calls failure;
     setup_instance_group := λ _ fp, (fp, None);
     populate_retry := λ fp u,
       (<[ "retry" := VDict [("num_attempts", VInt 1); ("hosts", VList [])] ]> fp,
        None);
     select_destinations := λ _ _, placement;
     populate_filter_properties := λ fp hs,
       <[ "limits" := VDict (hs_limits hs) ]>
         (<[ "retry" := VDict [("num_attempts", VInt 1);
                               ("hosts", VList [VList [VStr (hs_host hs);
                                                       VStr (hs_nodename hs)]])] ]> fp);
     instance_refresh := λ i,
       if bool_decide (uuid i ∈ vanished)
       then Raise (mkExn InstanceNotFound [("instance_id", uuid i)])
       else Ok i;
     save_expected_task_state := λ _ _, None;
     bdm_get_by_instance_uuid := λ _, [];
     image_get := λ image_id,
       if bool_decide (image_id ∈ missing)
       then Raise (mkExn ImageNotFound [("image_id", image_id)])
       else Ok (VDict [("id", VStr image_id)]) |}.

Definition cloud (calls : list RemoteCall) (failure : option Exn) : Env :=
  cloud_with calls failure (Ok three_hosts) [] [].

(** A cloud in which another operation holds the instances: a save that
    names an expected task state is refused. *)
Definition task_state_conflict : Exn :=
  mkExn (OtherException "UnexpectedTaskStateError") [].

Definition cloud_busy : Env :=
  let base := cloud [] None in
  {| text_type := text_type base;
     from_db_object := from_db_object base;
     flavor_get_by_id := flavor_get_by_id base;
     get_image_from_system_metadata := get_image_from_system_metadata base;
     build_request_spec := build_request_spec base;
     live_migration_task := live_migration_task base;
     migration_task := migration_task base;
     setup_instance_group := setup_instance_group base;
     populate_retry := populate_retry base;
     select_destinations := select_destinations base;
     populate_filter_properties := populate_filter_properties base;
     instance_refresh := instance_refresh base;
     save_expected_task_state := λ _ _, Some task_state_conflict;
     bdm_get_by_instance_uuid := bdm_get_by_instance_uuid base;
     image_get := image_get base |}.

Definition select : RemoteCall :=
  mkRemoteCall "scheduler" "select_destinations" None.
Definition prep_resize : RemoteCall :=
  mkRemoteCall "compute" "prep_resize" (Some "compute2").

Definition policy_failure : Exn :=
  mkExn UnsupportedPolicyException
    [("reason", "ServerGroup policy is not supported")].

(** The instance is locked: a class derived from InstanceInvalidState. *)
Definition locked_failure : Exn :=
  mkExn (Derived "InstanceIsLocked" InstanceInvalidState)
    [("instance_uuid", "u1")].

Definition no_host_failure : Exn :=
  mkExn NoValidHost [("reason", "There are not enough hosts available.")].

End Fixtures.

(** ** Further fixtures *)

Module MoreFixtures.

(** A cloud as [Fixtures.cloud_with], where refreshing one of the
    instances in [unreachable] fails with a database error. *)
Definition cloud_db_down (placement : result (list HostState))
    (unreachable : list string) : Env :=
  let base := Fixtures.cloud_with [] None placement [] [] in
  {| text_type := text_type base;
     from_db_object := from_db_object base;
     flavor_get_by_id := flavor_get_by_id base;
     get_image_from_system_metadata := get_image_from_system_metadata base;
     build_request_spec := build_request_spec base;
     live_migration_task := live_migration_task base;
     migration_task := migration_task base;
     setup_instance_group := setup_instance_group base;
     populate_retry := populate_retry base;
     select_destinations := select_destinations base;
     populate_filter_properties := populate_filter_properties base;
     instance_refresh := λ i,
       if bool_decide (uuid i ∈ unreachable)
       then Raise (mkExn (OtherException "DBConnectionError") [])
       else Ok i;
     save_expected_task_state := save_expected_task_state base;
     bdm_get_by_instance_uuid := bdm_get_by_instance_uuid base;
     image_get := image_get base |}.

(** A cloud as [Fixtures.cloud_with], where the image service cannot be
    reached. *)
Definition cloud_images_down (placement : result (list HostState)) : Env :=
  let base := Fixtures.cloud_with [] None placement [] [] in
  {| text_type := text_type base;
     from_db_object := from_db_object base;
     flavor_get_by_id := flavor_get_by_id base;
     get_image_from_system_metadata := get_image_from_system_metadata base;
     build_request_spec := build_request_spec base;
     live_migration_task := live_migration_task base;
     migration_task := migration_task base;
     setup_instance_group := setup_instance_group base;
     populate_retry := populate_retry base;
     select_destinations := select_destinations base;
     populate_filter_properties := populate_filter_properties base;
     instance_refresh := instance_refresh base;
     save_expected_task_state := save_expected_task_state base;
     bdm_get_by_instance_uuid := bdm_get_by_instance_uuid base;
     image_get := λ _,
       Raise (mkExn (OtherException "GlanceConnectionFailed") []) |}.

Definition db_failure : Exn := mkExn (OtherException "DBConnectionError") [].

Definition two_hosts : list HostState :=
  [Fixtures.host_state "compute2"; Fixtures.host_state "compute3"].

(** Filter properties as an old client sends them: the flavor as a
    dictionary. *)
Definition legacy_properties (flavor_id : Z) : gmap string PyVal :=
  {[ "instance_type" := VDict [("id", VInt flavor_id)] ]}.

(** A database behind the proxy: one compute service per host, timestamps
    in one format, and an object with a [save] method that fills in the
    host and a [destroy] method that fails. *)
Definition timestamp : string := "2015-06-01T12:00:00.000000".

Definition service_row (host : string) : list (string * PyVal) :=
  [("id", VInt 1); ("host", VStr host); ("binary", VStr "nova-compute")].

Definition backend : Backend :=
  {| parse_strtime := λ s,
       if bool_decide (s = timestamp) then Ok 1433160000
       else Raise (mkExn (OtherException "ValueError") []);
     instance_save := λ instance_uuid updates,
       Ok (VDict [("uuid", VStr instance_uuid)]);
     db_service_get_all := Ok (VList []);
     db_service_get_by_compute_host := λ host, Ok (VDict (service_row host));
     db_service_get_by_host_and_topic := λ host topic,
       Ok (VDict (service_row host));
     db_service_get_by_host_and_binary := λ host binary,
       Ok (VDict (service_row host));
     db_service_get_all_by_topic := λ topic, Ok (VList []);
     db_service_get_all_by_host := λ host, Ok (VList [VDict (service_row host)]);
     db_block_device_mapping_update_or_create := λ values, Ok (VDict values);
     db_block_device_mapping_create := λ values, Ok (VDict values);
     db_block_device_mapping_update := λ bdm_id values, Ok (VDict values);
     compute_node_get_all_by_host := λ host,
       Ok (VList [VDict [("hypervisor_hostname", host)]]);
     bdm_from_db_object := λ row, row;
     to_primitive := λ v, v;
     id_to_ec2_inst_id := λ _, Ok (VStr "i-00000001");
     glance_id_to_ec2_id := λ _ image_type,
       Ok (VStr (default "ami" image_type +:+ "-00000001"));
     ec2_image_type := λ t,
       if bool_decide (t = "kernel") then "aki"
       else if bool_decide (t = "ramdisk") then "ari" else t;
     obj_method := λ target method args,
       if bool_decide (method = "save") then
         Some (Ok ({| obj_fields := obj_fields target;
                      obj_attrs := <[ "host" := VStr "compute9" ]>
                                     (obj_attrs target);
                      obj_changes := [] |}, VNone))
       else if bool_decide (method = "destroy") then
         Some (Raise (mkExn InstanceNotFound []))
       else None;
     py_ne := λ a b,
       match a, b with
       | VNone, VNone => false
       | VInt x, VInt y => negb (Z.eqb x y)
       | VStr x, VStr y => negb (bool_decide (x = y))
       | _, _ => true
       end;
     field_to_primitive := λ _ v, v |}.

(** An object with three fields, two of them set. *)
Definition building_instance : NovaObject :=
  {| obj_fields := ["uuid"; "host"; "node"];
     obj_attrs := {[ "uuid" := VStr "u1"; "host" := VStr "compute1" ]};
     obj_changes := ["host"] |}.

End MoreFixtures.

(** ** Proof support *)

Ltac unfold_monad :=
  unfold outcome, store, trace, save_and_reraise_exception, try_except,
    EventReporter, bind, ret, raise, emit, emit_all, lift in *.

#[global] Arguments isinstance : simpl never.

Lemma issubclass_refl c : issubclass c c = true.
Proof.
  destruct c; simpl; rewrite ?bool_decide_eq_true_2 by reflexivity;
    reflexivity.
Qed.

(** An exception of a class named in the clause is caught by it. *)
Lemma isinstance_elem ex classes :
  exc_type ex ∈ classes → isinstance ex classes = true.
Proof.
  unfold isinstance. intros Hin.
  induction classes as [|c classes IH]; [inversion Hin|].
  simpl. apply elem_of_cons in Hin as [->|Hin].
  - rewrite issubclass_refl. reflexivity.
  - rewrite (IH Hin). apply orb_true_r.
Qed.

Lemma isinstance_cons ex c classes :
  isinstance ex (c :: classes) =
    issubclass (exc_type ex) c || isinstance ex classes.
Proof. reflexivity. Qed.

Lemma isinstance_app ex l1 l2 :
  isinstance ex (l1 ++ l2) = isinstance ex l1 || isinstance ex l2.
Proof. unfold isinstance. apply existsb_app. Qed.

(** Two named classes have no subclass in common. *)
Lemma issubclass_named c a b :
  is_named_class a = true → is_named_class b = true → a ≠ b →
  issubclass c a = true → issubclass c b = false.
Proof.
  intros Ha Hb Hab. induction c; simpl; intros Hc;
    try solve [ rewrite orb_false_r in *; apply bool_decide_eq_true in Hc;
                subst a; apply bool_decide_eq_false_2; exact Hab ].
  apply orb_true_iff in Hc as [Hc|Hc].
  { apply bool_decide_eq_true in Hc. subst a. discriminate Ha. }
  rewrite (IHc Hc), orb_false_r. apply bool_decide_eq_false_2.
  intros <-. discriminate Hb.
Qed.

(** An exception of a class under [a] is caught by no clause that names
    other classes only. *)
Lemma isinstance_other ex a classes :
  is_named_class a = true →
  Forall (λ b, is_named_class b = true ∧ a ≠ b) classes →
  issubclass (exc_type ex) a = true →
  isinstance ex classes = false.
Proof.
  intros Ha Hall Hsub. unfold isinstance.
  induction Hall as [|b classes [Hb Hab] _ IH]; [reflexivity|].
  simpl. rewrite (issubclass_named _ a b Ha Hb Hab Hsub). exact IH.
Qed.

Lemma run_expected_exceptions {A} classes (body : M A) h :
  expected_exceptions classes body h =
    let '(r, h', t) := body h in (expected_outcome classes r, h', t).
Proof.
  unfold expected_exceptions, try_except, expected_outcome, as_expected.
  destruct (body h) as [[[a|e] h'] t]; [reflexivity|].
  destruct (isinstance e classes); unfold raise; rewrite app_nil_r;
    reflexivity.
Qed.

Lemma existsb_remote (p : Event → bool) (calls : list RemoteCall) :
  (∀ c, p (EvRemote c) = false) →
  existsb p (EvRemote <$> calls) = false.
Proof.
  intros Hp. induction calls as [|c calls IH]; simpl; [reflexivity|].
  rewrite Hp. exact IH.
Qed.

Lemma bind_ret_l {A B} (a : A) (f : A → M B) h : bind (ret a) f h = f a h.
Proof. unfold bind, ret. destruct (f a h) as [[? ?] ?]. reflexivity. Qed.

Lemma run_bind {A B} (m : M A) (f : A → M B) h a h1 t1 :
  m h = (Ok a, h1, t1) →
  bind m f h = let '(r, h2, t2) := f a h1 in (r, h2, t1 ++ t2).
Proof. intros H. unfold bind. rewrite H. reflexivity. Qed.

Lemma run_bind_raise {A B} (m : M A) (f : A → M B) h e h1 t1 :
  m h = (Raise e, h1, t1) → bind m f h = (Raise e, h1, t1).
Proof. intros H. unfold bind. rewrite H. reflexivity. Qed.

Lemma run_try_ok {A} (body : M A) handler h a h1 t1 :
  body h = (Ok a, h1, t1) → try_except body handler h = (Ok a, h1, t1).
Proof. intros H. unfold try_except. rewrite H. reflexivity. Qed.

Lemma run_try_raise {A} (body : M A) handler h e h1 t1 :
  body h = (Raise e, h1, t1) →
  try_except body handler h =
    let '(r, h2, t2) := handler e h1 in (r, h2, t1 ++ t2).
Proof. intros H. unfold try_except. rewrite H. reflexivity. Qed.

Lemma build_dispatches_app t1 t2 :
  build_dispatches (t1 ++ t2) = build_dispatches t1 ++ build_dispatches t2.
Proof. apply omap_app. Qed.

(** Runs of the store operations and of the scheduler calls. *)
Section Runs.

Variable env : Env.

Lemma run_deref r h fp : h !! r = Some fp → deref r h = (Ok fp, h, []).
Proof.
  intros H. unfold deref. rewrite (list_lookup_total_correct _ _ _ H).
  reflexivity.
Qed.

Lemma run_alloc d h :
  alloc d h = (Ok (length h), h ++ [d], []) ∧
  (h ++ [d]) !! length h = Some d.
Proof. split; [reflexivity|]. apply list_lookup_middle. reflexivity. Qed.

Lemma run_setup_instance_group_at rs r h fp :
  h !! r = Some fp →
  setup_instance_group_at env rs r h =
    (match (setup_instance_group env rs fp).2 with
     | Some e => Raise e
     | None => Ok tt
     end,
     <[r := (setup_instance_group env rs fp).1]> h,
     [EvSetupInstanceGroup rs fp]).
Proof.
  intros H. unfold setup_instance_group_at, bind.
  rewrite (run_deref _ _ _ H). unfold emit, assign.
  destruct (setup_instance_group env rs fp) as [fp' [e|]]; reflexivity.
Qed.

Lemma run_populate_retry_at r u h fp :
  h !! r = Some fp →
  populate_retry_at env r u h =
    (match (populate_retry env fp u).2 with
     | Some e => Raise e
     | None => Ok tt
     end,
     <[r := (populate_retry env fp u).1]> h,
     [EvPopulateRetry fp u]).
Proof.
  intros H. unfold populate_retry_at, bind.
  rewrite (run_deref _ _ _ H). unfold emit, assign.
  destruct (populate_retry env fp u) as [fp' [e|]]; reflexivity.
Qed.

Lemma run_populate_filter_properties_at r hs h fp :
  h !! r = Some fp →
  populate_filter_properties_at env r hs h =
    (Ok tt, <[r := populate_filter_properties env fp hs]> h,
     [EvPopulateFilterProperties fp hs]).
Proof.
  intros H. unfold populate_filter_properties_at, bind.
  rewrite (run_deref _ _ _ H). reflexivity.
Qed.

Lemma run_select_destinations_at rs r h fp :
  h !! r = Some fp →
  select_destinations_at env rs r h =
    (select_destinations env rs fp, h, [EvSelectDestinations rs fp]).
Proof.
  intros H. unfold select_destinations_at, bind.
  rewrite (run_deref _ _ _ H). unfold emit, lift.
  destruct (select_destinations env rs fp); reflexivity.
Qed.

Lemma lookup_insert_same (h : list (gmap string PyVal)) r fp fp' :
  h !! r = Some fp → <[r := fp']> h !! r = Some fp'.
Proof. intros H. apply list_lookup_insert_eq. eapply lookup_lt_Some, H. Qed.

End Runs.

Lemma for_each_emit {A} (f : A → Event) (xs : list A) h :
  for_each xs (λ x, emit (f x)) h = (Ok tt, h, f <$> xs).
Proof.
  induction xs as [|x xs IH]; simpl; [reflexivity|].
  unfold bind. change (emit (f x) h) with (Ok tt, h, [f x]).
  cbv beta iota. rewrite IH. reflexivity.
Qed.

Lemma build_dispatches_set_vm_state {A} (f : A → Event) (xs : list A) :
  (∀ x, is_set_vm_state (f x) = true) → build_dispatches (f <$> xs) = [].
Proof.
  intros Hf. unfold build_dispatches.
  induction xs as [|x xs IH]; [reflexivity|]. simpl.
  specialize (Hf x). destruct (f x); try discriminate. exact IH.
Qed.

(** ** Live migration *)

Section LiveMigration.

Variable env : Env.

(** The trace of [_live_migrate] starts with the creation of the record,
    followed by the call of the task. *)
Lemma live_migrate_trace_head instance hint bm doc h :
  ∃ rest,
    trace (_live_migrate env instance hint bm doc h) =
      EvMigrationCreate (new_live_migration instance (hint_host hint)) ::
      EvLiveMigrationTaskExecute instance (hint_host hint) bm doc
        (new_live_migration instance (hint_host hint)) :: rest.
Proof.
  unfold _live_migrate, live_migrate_task_execute, _set_vm_state, set_vm_state_and_notify.
  unfold_monad. simpl.
  destruct (run_raises _) as [ex|]; simpl; [|eauto].
  destruct (isinstance ex _); simpl; eauto.
Qed.

(** C1. Every live migration creates (persists) a MigrationRecord in status
    ['pre-migrating'] before any remote dispatch: the creation is the first
    call [_live_migrate] makes, the task is only executed after it, and so
    every remote call in the trace comes later. The record's source host is
    the instance's current host, and its old and new flavor ids are the
    same id, the one of the instance's flavor. *)
Theorem live_migrate_creates_record_before_dispatch
    (instance : NovaInstance) (hint : SchedulerHint) (bm doc : bool)
    (h : list (gmap string PyVal)) :
  let tr := trace (_live_migrate env instance hint bm doc h) in
  ∃ (m : Migration) (rest : list Event),
    tr = EvMigrationCreate m ::
         EvLiveMigrationTaskExecute instance (hint_host hint) bm doc m :: rest ∧
    status m = "pre-migrating" ∧
    source_compute m = host instance ∧
    instance_uuid m = uuid instance ∧
    migration_type m = "live-migration" ∧
    old_instance_type_id m = new_instance_type_id m ∧
    new_instance_type_id m =
      match flavor instance with
      | Some f => flavor_id f
      | None => instance_type_id instance
      end ∧
    ∀ (i : nat) (ev : Event),
      tr !! i = Some ev → is_remote_dispatch ev = true →
      ∃ j : nat, (j < i)%nat ∧ tr !! j = Some (EvMigrationCreate m).
Proof.
  intros tr. subst tr.
  destruct (live_migrate_trace_head instance hint bm doc h) as [rest ->].
  eexists _, _. split; [reflexivity|].
  repeat split.
  intros [|i] ev Hi Hremote; simpl in Hi.
  - injection Hi as <-. discriminate.
  - exists 0%nat. split; [lia|reflexivity].
Qed.

(** C2, amended. When the task fails with an exception that the first
    handler catches, that is one of the twelve classes it names or of a
    class derived from one (which do not include
    [UnsupportedPolicyException]), the instance's vm_state is written back
    as it was with task_state cleared, the record is saved with status
    ['error'] and the same exception is raised again. For every other
    exception, the policy-unsupported ones among them, vm_state is set to
    ERROR with task_state kept, the record is saved with status ['failed']
    and a [MigrationError] carrying the text of the cause is raised. *)
Theorem live_migrate_failure_policy
    (instance : NovaInstance) (hint : SchedulerHint) (bm doc : bool)
    (ex : Exn) (h : list (gmap string PyVal)) :
  live_task_raises env instance hint bm doc = Some ex →
  (isinstance ex live_migrate_precheck_classes = true →
     fails_as_precheck env instance hint bm doc ex h) ∧
  (isinstance ex live_migrate_precheck_classes = false →
     fails_as_unexpected env instance hint bm doc ex h) ∧
  (isinstance ex [UnsupportedPolicyException] = true →
     fails_as_unexpected env instance hint bm doc ex h).
Proof.
  intros Hraise. unfold live_task_raises in Hraise.
  assert (Hpre : isinstance ex live_migrate_precheck_classes = true →
                 fails_as_precheck env instance hint bm doc ex h).
  { intros Hin.
    unfold fails_as_precheck, _live_migrate, live_migrate_task_execute,
      _set_vm_state, set_vm_state_and_notify.
    unfold_monad. simpl. rewrite Hraise. simpl. rewrite Hin. simpl.
    split; [reflexivity|]. rewrite app_nil_r.
    eexists (_ :: _ :: (EvRemote <$> _)), _, _.
    split; [reflexivity|reflexivity]. }
  assert (Hunexp : isinstance ex live_migrate_precheck_classes = false →
                   fails_as_unexpected env instance hint bm doc ex h).
  { intros Hin.
    unfold fails_as_unexpected, _live_migrate, live_migrate_task_execute,
      _set_vm_state, set_vm_state_and_notify.
    unfold_monad. simpl. rewrite Hraise. simpl. rewrite Hin. simpl.
    split; [reflexivity|]. rewrite app_nil_r.
    eexists (_ :: _ :: (EvRemote <$> _) ++ [_]), _, _.
    split; [simpl; rewrite <- app_assoc; reflexivity|reflexivity]. }
  split; [exact Hpre|]. split; [exact Hunexp|].
  intros Hpolicy. apply Hunexp.
  apply (isinstance_other ex UnsupportedPolicyException); [reflexivity| |].
  - repeat constructor; discriminate.
  - rewrite isinstance_cons, orb_false_r in Hpolicy. exact Hpolicy.
Qed.

End LiveMigration.

Lemma live_migrate_failure_policy_witness :
  let instance := Fixtures.server "u1" (Some vm_states.ACTIVE) in
  fails_as_precheck (Fixtures.cloud [Fixtures.select] (Some Fixtures.no_host_failure))
    instance (mkHint None None) false false Fixtures.no_host_failure [] ∧
  fails_as_precheck (Fixtures.cloud [Fixtures.select] (Some Fixtures.locked_failure))
    instance (mkHint None None) false false Fixtures.locked_failure [] ∧
  fails_as_unexpected (Fixtures.cloud [Fixtures.select] (Some Fixtures.policy_failure))
    instance (mkHint None None) false false Fixtures.policy_failure [].
Proof.
  intros instance. split; [|split].
  - apply (live_migrate_failure_policy
             (Fixtures.cloud [Fixtures.select] (Some Fixtures.no_host_failure))
             instance (mkHint None None) false false Fixtures.no_host_failure []).
    + reflexivity.
    + reflexivity.
  - apply (live_migrate_failure_policy
             (Fixtures.cloud [Fixtures.select] (Some Fixtures.locked_failure))
             instance (mkHint None None) false false Fixtures.locked_failure []).
    + reflexivity.
    + reflexivity.
  - apply (live_migrate_failure_policy
             (Fixtures.cloud [Fixtures.select] (Some Fixtures.policy_failure))
             instance (mkHint None None) false false Fixtures.policy_failure []).
    + reflexivity.
    + reflexivity.
Defined.

(** C2 as stated fails on [UnsupportedPolicyException]: it is in the claimed
    list, the task raises it, and the call neither raises it again nor
    leaves the record in status ['error']: what is raised is a
    [MigrationError], and the record saved last has status ['failed']. *)
Lemma live_migrate_unsupported_policy_is_unexpected :
  let env := Fixtures.cloud [Fixtures.select] (Some Fixtures.policy_failure) in
  let instance := Fixtures.server "u1" (Some vm_states.ACTIVE) in
  let hint := mkHint None None in
  let out := _live_migrate env instance hint false false [] in
  exc_type Fixtures.policy_failure ∈ claimed_precheck_classes ∧
  live_task_raises env instance hint false false = Some Fixtures.policy_failure ∧
  ¬ fails_as_precheck env instance hint false false Fixtures.policy_failure [] ∧
  outcome out ≠ Raise Fixtures.policy_failure ∧
  (∃ e, outcome out = Raise e ∧ exc_type e = MigrationError) ∧
  (∃ m, last (trace out) = Some (EvMigrationSave m) ∧ status m = "failed").
Proof.
  intros env instance hint out.
  split; [|split; [|split; [|split; [|split]]]].
  - apply (bool_decide_unpack _). vm_compute. exact I.
  - reflexivity.
  - intros [Hout _]. vm_compute in Hout. discriminate.
  - vm_compute. discriminate.
  - eexists. split; [vm_compute; reflexivity|reflexivity].
  - eexists. split; [vm_compute; reflexivity|reflexivity].
Qed.

(** ** Cold migration *)

Section ColdMigration.

Variable env : Env.

(** C3. When the cold-migration task fails with NoValidHost, the last call
    before the error leaves is the state update and notification: vm_state
    is written back as observed before the call (ACTIVE if there was none)
    and task_state is cleared. The NoValidHost raised to the caller has the
    reason "No valid host found for cold migrate" when the target flavor id
    is the instance's flavor id and "No valid host found for resize" when
    it is not. Nothing depends on which state the instance was in. *)
Theorem cold_migrate_no_valid_host
    (instance : NovaInstance) (flavor : Flavor)
    (filter_properties : gmap string PyVal) (reservations : PyVal)
    (clean_shutdown : bool) (ex : Exn) (h : list (gmap string PyVal)) :
  cold_task_raises env instance flavor filter_properties reservations
    clean_shutdown = Some ex →
  exc_type ex = NoValidHost →
  let out := _cold_migrate env instance flavor filter_properties reservations
               clean_shutdown h in
  (∃ pre,
     trace out =
       pre ++ [ EvSetVmStateAndNotify (uuid instance) "compute_task"
                  "migrate_server"
                  (mkUpdates (Some (prior_or_active (vm_state instance)))
                     None None)
                  ex (cold_request_spec env instance flavor) ] ∧
     existsb is_set_vm_state pre = false) ∧
  (∃ reason, outcome out = Raise (mkExn NoValidHost [("reason", reason)]) ∧
     (flavor_id flavor = instance_type_id instance →
        reason = "No valid host found for cold migrate") ∧
     (flavor_id flavor ≠ instance_type_id instance →
        reason = "No valid host found for resize")) ∧
  (∀ s, s ∈ [vm_states.ACTIVE; vm_states.STOPPED; vm_states.RESIZED] →
        vm_state instance = Some s →
        prior_or_active (vm_state instance) = s) ∧
  (vm_state instance = None ∨ vm_state instance = Some "" →
   prior_or_active (vm_state instance) = vm_states.ACTIVE).
Proof.
  intros Hraise Hty out. subst out.
  unfold cold_task_raises, cold_request_spec in *.
  assert (Hin : isinstance ex [NoValidHost] = true).
  { apply isinstance_elem. rewrite Hty. apply list_elem_of_here. }
  unfold _cold_migrate, cold_migrate_task_execute, _set_vm_state_and_notify,
    set_vm_state_and_notify.
  unfold_monad. simpl. rewrite Hraise. simpl. rewrite Hin. simpl.
  rewrite app_nil_r.
  split; [|split; [|split]].
  - eexists (_ :: (EvRemote <$> _)). split.
    + simpl. do 6 f_equal. unfold prior_or_active, truthy_str.
      destruct (vm_state instance) as [s|]; [|reflexivity].
      destruct (bool_decide (s = "")); reflexivity.
    + simpl. apply existsb_remote. reflexivity.
  - eexists. split; [reflexivity|].
    split; intros Hid.
    + rewrite bool_decide_eq_true_2; [reflexivity|exact Hid].
    + rewrite bool_decide_eq_false_2; [reflexivity|exact Hid].
  - intros s Hs Heq. rewrite Heq. unfold prior_or_active.
    rewrite bool_decide_eq_false_2; [reflexivity|].
    intros ->. revert Hs. apply (bool_decide_unpack _). vm_compute. exact I.
  - intros [->| ->]; reflexivity.
Qed.

End ColdMigration.

Lemma cold_migrate_no_valid_host_witness :
  let env := Fixtures.cloud [Fixtures.select] (Some Fixtures.no_host_failure) in
  let stopped := Fixtures.server "u1" (Some vm_states.STOPPED) in
  (∃ reason,
     outcome (_cold_migrate env stopped Fixtures.m1_small ∅ VNone true []) =
       Raise (mkExn NoValidHost [("reason", reason)]) ∧
     reason = "No valid host found for cold migrate") ∧
  (∃ reason,
     outcome (_cold_migrate env stopped Fixtures.m1_large ∅ VNone true []) =
       Raise (mkExn NoValidHost [("reason", reason)]) ∧
     reason = "No valid host found for resize").
Proof.
  intros env stopped. split.
  - destruct (cold_migrate_no_valid_host env stopped Fixtures.m1_small ∅ VNone
                true Fixtures.no_host_failure [] eq_refl eq_refl)
      as (_ & (reason & Hout & Hsame & _) & _ & _).
    exists reason. split; [exact Hout|]. apply Hsame. reflexivity.
  - destruct (cold_migrate_no_valid_host env stopped Fixtures.m1_large ∅ VNone
                true Fixtures.no_host_failure [] eq_refl eq_refl)
      as (_ & (reason & Hout & _ & Hdiff) & _ & _).
    exists reason. split; [exact Hout|]. apply Hdiff. discriminate.
Defined.

(** ** Routing in migrate_server *)

Section Routing.

Variable env : Env.

Lemma live_migrate_dispatch instance hint bm doc h :
  existsb is_live_task_execute
    (trace (_live_migrate env instance hint bm doc h)) = true ∧
  existsb is_cold_task_execute
    (trace (_live_migrate env instance hint bm doc h)) = false ∧
  existsb is_normalization
    (trace (_live_migrate env instance hint bm doc h)) = false.
Proof.
  unfold _live_migrate, live_migrate_task_execute, _set_vm_state, set_vm_state_and_notify.
  unfold_monad. simpl.
  destruct (run_raises _) as [ex|]; simpl;
    [destruct (isinstance ex _); simpl|];
    rewrite ?existsb_app, ?existsb_remote by reflexivity;
    repeat split; reflexivity.
Qed.

Lemma cold_migrate_dispatch instance flavor fp res cs h :
  existsb is_cold_task_execute
    (trace (_cold_migrate env instance flavor fp res cs h)) = true ∧
  existsb is_live_task_execute
    (trace (_cold_migrate env instance flavor fp res cs h)) = false ∧
  existsb is_normalization
    (trace (_cold_migrate env instance flavor fp res cs h)) = false ∧
  store (_cold_migrate env instance flavor fp res cs h) = h.
Proof.
  unfold _cold_migrate, cold_migrate_task_execute, _set_vm_state_and_notify,
    set_vm_state_and_notify.
  unfold_monad. simpl.
  destruct (cold_raises _) as [ex|]; simpl;
    [destruct (isinstance ex [NoValidHost]); simpl;
       [|destruct (isinstance ex [UnsupportedPolicyException]); simpl]|];
    rewrite ?existsb_app, ?existsb_remote by reflexivity;
    repeat split; reflexivity.
Qed.

(** [migrate_server] is the normalisation of its inputs followed by the
    choice of a route on the normalised values. *)
Lemma migrate_server_normalized a hint live rebuild flavor bm doc res cs h :
  instance_truthy a = true →
  flavor_resolves env flavor →
  ∃ pre fl,
    existsb is_live_task_execute pre = false ∧
    existsb is_cold_task_execute pre = false ∧
    truthy fl = truthy flavor ∧
    (truthy fl = true → ∃ f, fl = VFlavor f) ∧
    migrate_server env a hint live rebuild flavor bm doc res cs h =
      let '(r, h', t) :=
        (if live && negb rebuild && negb (truthy fl) then
           _live_migrate env (routed_instance env a) hint bm doc
         else if negb live && negb rebuild && truthy fl then
           EventReporter "cold_migrate" (uuid (routed_instance env a))
             (let! filter_properties :=
                match hint_filter_properties hint with
                | Some fp => ret fp
                | None => raise (mkExn KeyError [("key", "filter_properties")])
                end in
              let! flavor := as_flavor fl in
              _cold_migrate env (routed_instance env a) flavor filter_properties
                res cs)
         else raise (mkExn NotImplementedError [])) h in
      (expected_outcome migrate_server_expected r, h', pre ++ t).
Proof.
  intros Ha Hres.
  assert (Hfl : ∃ pre fl,
    existsb is_live_task_execute pre = false ∧
    existsb is_cold_task_execute pre = false ∧
    truthy fl = truthy flavor ∧
    (truthy fl = true → ∃ f, fl = VFlavor f) ∧
    (if truthy flavor && negb (is_flavor_object flavor) then
       let! flavor_id := getitem flavor "id" in
       emit (EvFlavorGetById flavor_id) ;;;
       let! f := lift (flavor_get_by_id env flavor_id) in
       ret (VFlavor f)
     else ret flavor) h = (Ok fl, h, pre)).
  { destruct (truthy flavor) eqn:Ht; simpl.
    - destruct (is_flavor_object flavor) eqn:Ho; simpl.
      + exists [], flavor. repeat split; try assumption.
        intros _. destruct flavor; try discriminate. eauto.
      + destruct (Hres Ht Ho) as (d & fid & f & -> & Hid & Hlookup).
        exists [EvFlavorGetById fid], (VFlavor f).
        unfold getitem. rewrite Hid. unfold_monad. simpl.
        rewrite Hlookup. simpl. repeat split; eauto.
    - exists [], flavor. repeat split; try assumption.
      rewrite Ht. discriminate. }
  destruct Hfl as (pre2 & fl & Hl2 & Hc2 & Htr & Hobj & Hnorm).
  assert (Hin : ∃ pre1,
    existsb is_live_task_execute pre1 = false ∧
    existsb is_cold_task_execute pre1 = false ∧
    (if instance_truthy a && negb (is_nova_object a) then
       _from_db_object env a
         ["metadata"; "system_metadata"; "info_cache"; "security_groups"]
     else ret a) h = (Ok (InstObj (routed_instance env a)), h, pre1)).
  { destruct a as [i|d]; simpl in *.
    - exists []. repeat split.
    - rewrite Ha. simpl.
      exists [EvFromDbObject d ["metadata"; "system_metadata"; "info_cache";
                                "security_groups"]].
      repeat split. }
  destruct Hin as (pre1 & Hl1 & Hc1 & Hinst).
  exists (pre1 ++ pre2), fl.
  rewrite !existsb_app, Hl1, Hl2, Hc1, Hc2. repeat split; try assumption.
  unfold migrate_server. rewrite run_expected_exceptions.
  unfold bind at 1. rewrite Hinst.
  unfold bind at 1. rewrite Hnorm.
  unfold as_object.
  match goal with
  | |- (let (_, _) := (let (_, _) := (let (_, _) := ?X in _) in _) in _) =
       (let (_, _) := ?Y in _) =>
      replace X with Y; [destruct Y as [[r h'] t]|]
  end.
  - rewrite app_assoc. reflexivity.
  - destruct (live && negb rebuild && negb (truthy fl)).
    + rewrite bind_ret_l. reflexivity.
    + destruct (negb live && negb rebuild && truthy fl); [|reflexivity].
      rewrite bind_ret_l. reflexivity.
Qed.

(** C6, amended. For a well-formed request, [migrate_server] executes the
    live-migration task exactly when [live] is true, [rebuild] is false
    and no flavor is given, and the cold-migration task exactly when
    [live] is false, [rebuild] is false and a flavor is given; for every
    other combination it raises [NotImplementedError], and (by the two
    equations) no task is executed. Well formed means: the instance is
    there, a flavor given as a dictionary names an existing flavor, and a
    cold-migration request carries its ['filter_properties']. *)
Theorem migrate_server_routing
    (a : InstanceArg) (hint : SchedulerHint) (live rebuild : bool)
    (flavor : PyVal) (bm doc : bool) (res : PyVal) (cs : bool)
    (h : list (gmap string PyVal)) :
  instance_truthy a = true →
  flavor_resolves env flavor →
  (live = false → rebuild = false → truthy flavor = true →
   is_Some (hint_filter_properties hint)) →
  let out := migrate_server env a hint live rebuild flavor bm doc res cs h in
  existsb is_live_task_execute (trace out) =
    live && negb rebuild && negb (truthy flavor) ∧
  existsb is_cold_task_execute (trace out) =
    negb live && negb rebuild && truthy flavor ∧
  (live && negb rebuild && negb (truthy flavor) = false →
   negb live && negb rebuild && truthy flavor = false →
   outcome out = Raise (mkExn NotImplementedError [])).
Proof.
  intros Ha Hres Hhint out. subst out.
  destruct (migrate_server_normalized a hint live rebuild flavor bm doc res cs h
              Ha Hres) as (pre & fl & Hl & Hc & Htr & Hobj & ->).
  rewrite <- Htr in *. clear Htr.
  destruct (live && negb rebuild && negb (truthy fl)) eqn:Hlive.
  - (* live migration *)
    apply andb_true_iff in Hlive as [Hlr Hf].
    apply andb_true_iff in Hlr as [-> Hr].
    apply negb_true_iff in Hr as ->. apply negb_true_iff in Hf.
    rewrite Hf. simpl.
    destruct (live_migrate_dispatch (routed_instance env a) hint bm doc h)
      as (Hlive & Hcold & _).
    destruct (_live_migrate env _ hint bm doc h) as [[r h'] t].
    unfold trace in *. simpl in *.
    rewrite !existsb_app, Hl, Hc, Hlive, Hcold.
    repeat split. discriminate.
  - destruct (negb live && negb rebuild && truthy fl) eqn:Hcold.
    + (* cold migration *)
      apply andb_true_iff in Hcold as [Hlr Hf].
      apply andb_true_iff in Hlr as [Hlv Hr].
      apply negb_true_iff in Hlv as ->. apply negb_true_iff in Hr as ->.
      destruct (Hobj Hf) as [f ->].
      destruct (Hhint eq_refl eq_refl Hf) as [fp ->].
      unfold EventReporter. rewrite bind_ret_l. unfold as_flavor.
      rewrite bind_ret_l.
      destruct (cold_migrate_dispatch (routed_instance env a) f fp res cs h)
        as (Hcold & Hlive' & _).
      destruct (_cold_migrate env _ f fp res cs h) as [[r h'] t].
      unfold trace in *. simpl in *.
      rewrite !existsb_app, Hl, Hc. simpl.
      rewrite !existsb_app, Hlive', Hcold. simpl.
      repeat split. discriminate.
    + (* not implemented *)
      unfold raise, trace, outcome. simpl.
      rewrite !existsb_app, Hl, Hc. simpl. repeat split.
Qed.

(** C9. A canonical instance object and a canonical [Flavor] object pass
    through the normalisation untouched: the call neither converts nor looks
    anything up, the store is as it was, and the request is routed with
    these very objects: to the cold-migration task when [live] and
    [rebuild] are false, and to [NotImplementedError] otherwise. The calls
    made are those of the cold migration of this instance to this flavor,
    and what leaves is what leaves that, seen through the decorator. *)
Theorem migrate_server_canonical_passthrough
    (i : NovaInstance) (f : Flavor) (hint : SchedulerHint)
    (live rebuild : bool) (bm doc : bool) (res : PyVal) (cs : bool)
    (h : list (gmap string PyVal)) :
  let out :=
    migrate_server env (InstObj i) hint live rebuild (VFlavor f) bm doc res cs h
  in
  existsb is_normalization (trace out) = false ∧
  store out = h ∧
  (∀ fp, live = false → rebuild = false →
         hint_filter_properties hint = Some fp →
         let routed :=
           EventReporter "cold_migrate" (uuid i)
             (_cold_migrate env i f fp res cs) h in
         trace out = trace routed ∧
         outcome out =
           expected_outcome migrate_server_expected (outcome routed) ∧
         EvMigrationTaskExecute i f fp (cold_request_spec env i f) res cs
           ∈ trace out) ∧
  (negb live && negb rebuild = false →
   out = (Raise (mkExn NotImplementedError []), h, [])).
Proof.
  intros out. subst out. unfold migrate_server.
  rewrite run_expected_exceptions. simpl.
  rewrite !bind_ret_l. simpl. rewrite andb_false_r. simpl.
  destruct (negb live && negb rebuild) eqn:Hroute; simpl.
  - apply andb_true_iff in Hroute as [Hlv Hr].
    apply negb_true_iff in Hlv as ->. apply negb_true_iff in Hr as ->.
    simpl. unfold as_object. rewrite ?bind_ret_l.
    destruct (hint_filter_properties hint) as [fp|] eqn:Hfp.
    + unfold EventReporter. rewrite !bind_ret_l.
      destruct (cold_migrate_dispatch i f fp res cs h)
        as (_ & _ & Hnorm & Hstore).
      assert (Hexec : EvMigrationTaskExecute i f fp (cold_request_spec env i f)
                        res cs
                      ∈ trace (_cold_migrate env i f fp res cs h)).
      { unfold _cold_migrate, cold_migrate_task_execute, cold_request_spec.
        unfold_monad. simpl.
        destruct (cold_raises _) as [ex|]; simpl;
          [destruct (isinstance ex [NoValidHost]); simpl;
             [|destruct (isinstance ex [UnsupportedPolicyException]); simpl]|];
          apply list_elem_of_here. }
      destruct (_cold_migrate env i f fp res cs h) as [[r h'] t] eqn:Hrun.
      unfold trace, store, outcome in *. simpl in *.
      rewrite existsb_app, Hnorm. simpl.
      split; [reflexivity|]. split; [exact Hstore|].
      split; [|discriminate].
      intros fp' _ _ [= <-]. rewrite Hrun. simpl.
      split; [reflexivity|]. split; [reflexivity|].
      apply list_elem_of_further, elem_of_app. left. exact Hexec.
    + unfold EventReporter, bind, raise, trace, store. simpl.
      repeat split; try discriminate.
  - unfold raise, trace, store. simpl.
    split; [reflexivity|]. split; [reflexivity|]. split; [|reflexivity].
    intros fp -> ->. discriminate.
Qed.

End Routing.

(** C6 as stated fails on requests that are not well formed. With [live]
    and [rebuild] both true and a flavor dictionary that names no flavor,
    the combination is neither of the two that are routed, and the call
    raises the error of the lookup, not [NotImplementedError]. With [live]
    and [rebuild] false and a flavor, but no ['filter_properties'] in the
    scheduler hint, the combination is the one of a cold migration, and no
    cold-migration task is executed. *)
Lemma migrate_server_routing_needs_well_formed_request :
  let env := Fixtures.cloud [] None in
  let i := Fixtures.server "u1" (Some vm_states.ACTIVE) in
  let unknown := VDict [("id", VInt 99)] in
  let rejected :=
    migrate_server env (InstObj i) (mkHint None None) true true unknown
      false false VNone true [] in
  let resize :=
    migrate_server env (InstObj i) (mkHint None None) false false
      (VFlavor Fixtures.m1_large) false false VNone true [] in
  (true && negb true && negb (truthy unknown) = false ∧
   negb true && negb true && truthy unknown = false ∧
   outcome rejected = Raise (mkExn (OtherException "FlavorNotFound") []) ∧
   outcome rejected ≠ Raise (mkExn NotImplementedError [])) ∧
  (negb false && negb false && truthy (VFlavor Fixtures.m1_large) = true ∧
   existsb is_cold_task_execute (trace resize) = false ∧
   outcome resize = Raise (mkExn KeyError [("key", "filter_properties")])).
Proof.
  intros env i unknown rejected resize.
  split; [split; [|split; [|split]]|split; [|split]];
    try (vm_compute; reflexivity).
  vm_compute. discriminate.
Qed.

(** ** build_instances *)

Section BuildInstances.

Variable env : Env.

Lemma run_build_instances_select rs r h fp instances :
  h !! r = Some fp →
  ∃ tr,
    build_instances_select env rs r instances h =
      ((batch_placement env rs fp instances).2,
       <[r := (batch_placement env rs fp instances).1]> h, tr) ∧
    build_dispatches tr = [] ∧
    existsb is_set_vm_state tr = false.
Proof.
  intros H. unfold build_instances_select, batch_placement.
  unfold bind at 1. rewrite (run_setup_instance_group_at env rs r h fp H).
  pose proof (lookup_insert_same h r fp (setup_instance_group env rs fp).1 H)
    as H1.
  destruct (setup_instance_group env rs fp) as [fp1 [e1|]]; simpl in *.
  { eexists. repeat split. }
  destruct instances as [|first instances]; simpl.
  { unfold bind, raise. simpl. eexists. repeat split. }
  rewrite bind_ret_l. unfold bind at 1.
  rewrite (run_populate_retry_at env r (uuid first) _ fp1 H1).
  rewrite list_insert_insert_eq.
  pose proof (lookup_insert_same h r fp (populate_retry env fp1 (uuid first)).1 H)
    as H2.
  destruct (populate_retry env fp1 (uuid first)) as [fp2 [e2|]]; simpl in *.
  { eexists. repeat split. }
  unfold bind at 1. rewrite (run_select_destinations_at env rs r _ fp2 H2).
  destruct (select_destinations env rs fp2) as [hosts|e3]; simpl.
  - eexists. repeat split.
  - eexists. repeat split.
Qed.

Lemma run_build_instances_flavor fp fp0 h :
  batch_filter_properties env fp = Ok fp0 →
  ∃ h1 pre,
    build_instances_flavor env (length h) (h ++ [fp]) =
      (Ok (batch_ref fp (length h)), h1, pre) ∧
    h1 !! batch_ref fp (length h) = Some fp0 ∧
    length h1 = S (batch_ref fp (length h)) ∧
    build_dispatches pre = [] ∧
    existsb is_set_vm_state pre = false.
Proof.
  intros Hfp. unfold build_instances_flavor, batch_filter_properties, batch_ref in *.
  unfold bind at 1.
  rewrite (run_deref (length h) (h ++ [fp]) fp) by (apply list_lookup_middle; reflexivity).
  destruct (truthy (default VNone (fp !! "instance_type")) &&
            negb (is_flavor_object (default VNone (fp !! "instance_type")))).
  - destruct (default VNone (fp !! "instance_type")) as [| | | | |d|]; try discriminate.
    unfold getitem.
    destruct (assoc "id" d) as [fid|]; [|discriminate].
    destruct (flavor_get_by_id env fid) as [f|e] eqn:Hlookup; [|discriminate].
    injection Hfp as <-.
    unfold_monad. simpl. rewrite Hlookup. simpl.
    unfold alloc. simpl.
    replace (length (h ++ [fp])) with (S (length h))
      by (rewrite length_app; simpl; lia).
    eexists _, _. split; [reflexivity|].
    rewrite !length_app. simpl. repeat split; try lia.
    apply list_lookup_middle. rewrite length_app. simpl. lia.
  - injection Hfp as <-. unfold ret. eexists _, _. split; [reflexivity|].
    rewrite !length_app. simpl. repeat split; try lia.
    apply list_lookup_middle. reflexivity.
Qed.

Lemma run_build_one_gone image rs r ap inj rn sg i hs h e :
  instance_refresh env i = Raise e →
  exc_type e ∈ [InstanceNotFound; InstanceInfoCacheNotFound] →
  build_one env image rs r ap inj rn sg (i, hs) h =
    (Ok tt, h,
     [EvInstanceRefresh i; EvLog "debug" "Instance deleted during build"]).
Proof.
  intros Href Hgone. apply isinstance_elem in Hgone.
  unfold build_one, refresh.
  erewrite run_bind.
  2:{ erewrite run_try_raise.
      2:{ erewrite run_bind_raise; [reflexivity|].
          erewrite run_bind by reflexivity.
          rewrite Href. reflexivity. }
      rewrite Hgone. reflexivity. }
  reflexivity.
Qed.

Lemma run_build_one_there image rs r ap inj rn sg i i' hs h fpb :
  instance_refresh env i = Ok i' →
  h !! r = Some fpb →
  ∃ tr,
    build_one env image rs r ap inj rn sg (i, hs) h =
      (Ok tt, h ++ [populate_filter_properties env fpb hs], tr) ∧
    build_dispatches tr =
      [build_and_run_for env image rs fpb ap inj rn sg (length h) (i', hs)] ∧
    existsb is_set_vm_state tr = false.
Proof.
  intros Href Hr. unfold build_one, refresh, deepcopy.
  erewrite run_bind.
  2:{ erewrite run_try_ok; [reflexivity|].
      erewrite run_bind.
      2:{ erewrite run_bind by reflexivity. rewrite Href. reflexivity. }
      reflexivity. }
  cbv beta iota.
  erewrite run_bind.
  2:{ erewrite run_bind by (apply run_deref; exact Hr). reflexivity. }
  erewrite run_bind.
  2:{ apply run_populate_filter_properties_at.
      apply list_lookup_middle. reflexivity. }
  erewrite run_bind by reflexivity.
  erewrite run_bind.
  2:{ apply run_deref. apply list_lookup_insert_eq.
      rewrite length_app. simpl. lia. }
  unfold emit. simpl.
  rewrite insert_app_r_alt by lia. rewrite Nat.sub_diag. simpl.
  eexists. split; [reflexivity|]. split; reflexivity.
Qed.

(** The dispatch loop: every pair whose instance is still there gets a
    new dictionary at the end of the store and a cast; the others are
    skipped. *)
Lemma run_build_loop image rs r ap inj rn sg fpb pairs :
  ∀ h,
    h !! r = Some fpb →
    Forall (λ p, refreshes_or_gone env p.1) pairs →
    ∃ tr,
      for_each pairs (build_one env image rs r ap inj rn sg) h =
        (Ok tt,
         h ++ ((λ p, populate_filter_properties env fpb p.2)
                 <$> survivors env pairs), tr) ∧
      build_dispatches tr =
        imap (λ k p, build_and_run_for env image rs fpb ap inj rn sg
                       (length h + k) p)
          (survivors env pairs) ∧
      existsb is_set_vm_state tr = false.
Proof.
  induction pairs as [|[i hs] pairs IH]; intros h Hr Hall.
  { exists []. simpl. rewrite app_nil_r. repeat split. }
  apply Forall_cons in Hall as [Hi Hall].
  unfold refreshes_or_gone in Hi. simpl in Hi. simpl.
  unfold survivors. simpl. fold (survivors env pairs).
  destruct (instance_refresh env i) as [i'|e] eqn:Href.
  - destruct (run_build_one_there image rs r ap inj rn sg i i' hs h fpb
                Href Hr) as (t1 & Hrun1 & Hd1 & Hs1).
    destruct (IH (h ++ [populate_filter_properties env fpb hs])
                (lookup_app_l_Some _ _ _ _ Hr) Hall)
      as (t2 & Hrun2 & Hd2 & Hs2).
    erewrite run_bind by (exact Hrun1). rewrite Hrun2.
    exists (t1 ++ t2). rewrite <- app_assoc. simpl.
    split; [reflexivity|].
    rewrite build_dispatches_app, existsb_app, Hd1, Hd2, Hs1, Hs2. simpl.
    split; [|reflexivity]. rewrite Nat.add_0_r. f_equal.
    apply imap_ext. intros k p _. simpl. rewrite length_app. simpl.
    f_equal. lia.
  - destruct (IH h Hr Hall) as (t2 & Hrun2 & Hd2 & Hs2).
    erewrite run_bind
      by (exact (run_build_one_gone image rs r ap inj rn sg i hs h e Href Hi)).
    rewrite Hrun2. simpl.
    eexists. split; [reflexivity|]. simpl. split; assumption.
Qed.

(** C5. When host selection for the batch fails, whatever the exception
    and whichever of group setup, retry population and
    [select_destinations] raised it, [build_instances] returns normally.
    The calls it ends with are one state update and notification per
    instance of the batch, in order, each with vm_state ERROR, task_state
    None and the exception; there is no [build_and_run_instance] cast. *)
Theorem build_instances_selection_failure
    (instances : list NovaInstance) (image : PyVal)
    (fp fp0 : gmap string PyVal) (ap inj : PyVal) (rn : RequestedNetworks)
    (sg : PyVal) (exc : Exn) (h : list (gmap string PyVal)) :
  let rs := build_request_spec env image instances None in
  batch_filter_properties env fp = Ok fp0 →
  (batch_placement env rs fp0 instances).2 = Raise exc →
  let out := build_instances env instances image fp ap inj rn sg h in
  outcome out = Ok tt ∧
  build_dispatches (trace out) = [] ∧
  ∃ pre,
    trace out =
      pre ++
      ((λ i, EvSetVmStateAndNotify (uuid i) "compute_task" "build_instances"
               (mkUpdates (Some vm_states.ERROR) None None) exc rs)
         <$> instances) ∧
    existsb is_set_vm_state pre = false.
Proof.
  intros rs Hfp Hfail out.
  assert (Hrun : ∃ h' pre,
    out = (Ok tt, h',
           pre ++ ((λ i, EvSetVmStateAndNotify (uuid i) "compute_task"
                           "build_instances"
                           (mkUpdates (Some vm_states.ERROR) None None) exc rs)
                     <$> instances)) ∧
    existsb is_set_vm_state pre = false ∧ build_dispatches pre = []).
  { subst out. unfold build_instances. fold rs.
    destruct (run_build_instances_flavor fp fp0 h Hfp)
      as (h1 & pre1 & Hrun1 & Hr & Hlen & Hd1 & Hs1).
    destruct (run_build_instances_select rs _ h1 fp0 instances Hr)
      as (tr2 & Hrun2 & Hd2 & Hs2).
    rewrite Hfail in Hrun2.
    erewrite run_bind by (apply run_alloc).
    erewrite run_bind by (exact Hrun1).
    erewrite run_bind.
    2:{ erewrite run_try_raise.
        2:{ erewrite run_bind_raise by (exact Hrun2). reflexivity. }
        unfold _set_vm_state_and_notify, set_vm_state_and_notify.
        erewrite run_bind by (apply for_each_emit). reflexivity. }
    unfold ret. simpl. rewrite !app_nil_r.
    eexists _, (pre1 ++ tr2). rewrite <- app_assoc.
    split; [reflexivity|].
    rewrite existsb_app, Hs1, Hs2, build_dispatches_app, Hd1, Hd2.
    split; reflexivity. }
  destruct Hrun as (h' & pre & -> & Hs & Hd).
  unfold outcome, trace. simpl.
  split; [reflexivity|]. split; [|eauto].
  rewrite build_dispatches_app, Hd. simpl.
  apply build_dispatches_set_vm_state. reflexivity.
Qed.

Lemma networks_normalized rn :
  (if networks_truthy rn && negb (is_network_request_list rn)
   then match rn with
        | NetworkTuples l => NetworkRequestList (from_tuple <$> l)
        | _ => rn
        end
   else rn) = normalized_networks rn.
Proof. destruct rn as [|[|t l]|l]; try reflexivity. destruct l; reflexivity. Qed.

Lemma dispatch_refs image rs fpb ap inj rn sg l :
  ∀ n,
    bar_filter_properties_ref <$>
      imap (λ k p, build_and_run_for env image rs fpb ap inj rn sg (n + k) p) l
    = seq n (length l).
Proof.
  induction l as [|p l IH]; intros n; simpl; [reflexivity|].
  f_equal; [lia|]. rewrite <- (IH (S n)). f_equal.
  apply imap_ext. intros k q _. simpl. f_equal. lia.
Qed.

(** C4. After a successful batch placement, [build_instances] goes through
    the (instance, host) pairs one by one. A pair whose instance is
    reported gone by [refresh] is skipped and the call still returns
    normally. For the others there is exactly one [build_and_run_instance]
    cast each, in order, with the refreshed instance and the host, node and
    limits of its own host. The filter properties of a cast are a new
    object of the store, different from the batch dictionary and from the
    object of every other cast; it holds the batch dictionary with the
    annotations of its own host only, and the batch dictionary is at the
    end as host selection left it. *)
Theorem build_instances_dispatches_survivors
    (instances : list NovaInstance) (image : PyVal)
    (fp fp0 fpb : gmap string PyVal) (ap inj : PyVal)
    (rn : RequestedNetworks) (sg : PyVal) (hosts : list HostState)
    (h : list (gmap string PyVal)) :
  let rs := build_request_spec env image instances None in
  batch_filter_properties env fp = Ok fp0 →
  batch_placement env rs fp0 instances = (fpb, Ok hosts) →
  Forall (λ p, refreshes_or_gone env p.1) (zip instances hosts) →
  let out := build_instances env instances image fp ap inj rn sg h in
  let r := batch_ref fp (length h) in
  let alive := survivors env (zip instances hosts) in
  outcome out = Ok tt ∧
  build_dispatches (trace out) =
    imap (λ k p, build_and_run_for env image rs fpb ap inj
                   (normalized_networks rn) sg (S r + k) p) alive ∧
  store out !! r = Some fpb ∧
  (∀ k p, alive !! k = Some p →
          store out !! (S r + k)%nat =
            Some (populate_filter_properties env fpb p.2)) ∧
  NoDup (bar_filter_properties_ref <$> build_dispatches (trace out)) ∧
  r ∉ bar_filter_properties_ref <$> build_dispatches (trace out).
Proof.
  intros rs Hfp Hplace Hall out r alive.
  assert (Hrun : ∃ h2 tr,
    out = (Ok tt,
           h2 ++ ((λ p, populate_filter_properties env fpb p.2) <$> alive),
           tr) ∧
    h2 !! r = Some fpb ∧ length h2 = S r ∧
    build_dispatches tr =
      imap (λ k p, build_and_run_for env image rs fpb ap inj
                     (normalized_networks rn) sg (S r + k) p) alive).
  { subst out. unfold build_instances. fold rs.
    rewrite networks_normalized.
    destruct (run_build_instances_flavor fp fp0 h Hfp)
      as (h1 & pre1 & Hrun1 & Hr & Hlen & Hd1 & Hs1).
    fold r in Hrun1, Hr, Hlen.
    destruct (run_build_instances_select rs r h1 fp0 instances Hr)
      as (tr2 & Hrun2 & Hd2 & Hs2).
    rewrite Hplace in Hrun2. simpl in Hrun2.
    pose proof (lookup_insert_same h1 r fp0 fpb Hr) as Hr2.
    destruct (run_build_loop image rs r ap inj (normalized_networks rn) sg fpb
                (zip instances hosts) (<[r := fpb]> h1) Hr2 Hall)
      as (tr3 & Hrun3 & Hd3 & Hs3).
    fold alive in Hrun3, Hd3.
    erewrite run_bind by (apply run_alloc).
    erewrite run_bind by (exact Hrun1).
    erewrite run_bind.
    2:{ erewrite run_try_ok; [reflexivity|].
        erewrite run_bind by (exact Hrun2). reflexivity. }
    cbv beta iota. rewrite Hrun3. simpl.
    eexists _, _. split; [reflexivity|].
    rewrite length_insert. split; [exact Hr2|]. split; [exact Hlen|].
    rewrite !build_dispatches_app, Hd1, Hd2, Hd3. simpl.
    rewrite length_insert, Hlen. reflexivity. }
  destruct Hrun as (h2 & tr & -> & Hr & Hlen & Hd).
  unfold outcome, trace, store. cbn [fst snd].
  rewrite Hd, dispatch_refs.
  split; [reflexivity|]. split; [reflexivity|].
  split; [apply lookup_app_l_Some; exact Hr|].
  split; [|split].
  - intros k p Hk. rewrite lookup_app_r by lia.
    replace (S r + k - length h2)%nat with k by lia.
    rewrite list_lookup_fmap, Hk. reflexivity.
  - apply NoDup_seq.
  - rewrite elem_of_seq. lia.
Qed.

End BuildInstances.

(** ** unshelve_instance *)

Section Unshelve.

Variable env : Env.

Lemma run_schedule_instances image r instance h fp1 :
  h !! r = Some fp1 →
  let rs := build_request_spec env image [instance] None in
  _schedule_instances env image r [instance] h =
    (match (setup_instance_group env rs fp1).2 with
     | Some e => Raise e
     | None => select_destinations env rs (setup_instance_group env rs fp1).1
     end,
     <[r := (setup_instance_group env rs fp1).1]> h,
     EvSetupInstanceGroup rs fp1 ::
     match (setup_instance_group env rs fp1).2 with
     | Some _ => []
     | None => [EvSelectDestinations rs (setup_instance_group env rs fp1).1]
     end).
Proof.
  intros Hr rs. unfold _schedule_instances. fold rs.
  pose proof (lookup_insert_same h r fp1 (setup_instance_group env rs fp1).1 Hr)
    as Hr2.
  pose proof (run_setup_instance_group_at env rs r h fp1 Hr) as Hrun.
  destruct (setup_instance_group env rs fp1) as [fp2 [e|]]; simpl in *.
  - erewrite run_bind_raise by (exact Hrun). reflexivity.
  - erewrite run_bind by (exact Hrun).
    unfold bind, ret.
    erewrite run_select_destinations_at by (exact Hr2).
    destruct (select_destinations env rs fp2); reflexivity.
Qed.

Lemma run_unshelve_schedule_ok instance image h fp hs rest :
  unshelve_placement env instance image = (fp, Ok (hs :: rest)) →
  unshelve_schedule env instance image h =
    (Ok tt, h ++ [populate_filter_properties env fp hs],
     [ EvEventStart "schedule_instances" (uuid instance);
       EvPopulateRetry ∅ (uuid instance);
       EvSetupInstanceGroup (build_request_spec env image [instance] None)
         (populate_retry env ∅ (uuid instance)).1;
       EvSelectDestinations (build_request_spec env image [instance] None) fp;
       EvPopulateFilterProperties fp hs;
       EvUnshelveInstance instance (hs_host hs) image
         (populate_filter_properties env fp hs) (hs_nodename hs);
       EvEventFinish "schedule_instances" (uuid instance) None ]).
Proof.
  unfold unshelve_placement, unshelve_schedule, EventReporter.
  intros Hplace.
  erewrite run_bind by (apply run_alloc).
  pose proof (run_populate_retry_at env (length h) (uuid instance) (h ++ [∅]) ∅
                (list_lookup_middle _ _ _ _ eq_refl)) as Hretry.
  destruct (populate_retry env ∅ (uuid instance)) as [fp1 [e1|]];
    [discriminate|]. simpl in Hretry.
  erewrite run_bind by (exact Hretry).
  rewrite insert_app_r_alt, Nat.sub_diag by lia. simpl.
  pose proof (run_schedule_instances image (length h) instance (h ++ [fp1]) fp1
                (list_lookup_middle _ _ _ _ eq_refl)) as Hsched.
  simpl in Hsched.
  destruct (setup_instance_group env _ fp1) as [fp2 [e2|]];
    [discriminate|]. simpl in Hsched.
  injection Hplace as -> Hsel. rewrite Hsel in Hsched.
  rewrite insert_app_r_alt, Nat.sub_diag in Hsched by lia. simpl in Hsched.
  erewrite run_bind by (exact Hsched). cbv beta iota. rewrite bind_ret_l.
  erewrite run_bind.
  2:{ apply run_populate_filter_properties_at.
      apply list_lookup_middle. reflexivity. }
  rewrite insert_app_r_alt, Nat.sub_diag by lia. simpl.
  rewrite list_lookup_total_middle by reflexivity. reflexivity.
Qed.

Lemma run_unshelve_schedule_raise instance image h fp ex :
  unshelve_placement env instance image = (fp, Raise ex) →
  ∃ h' tr,
    unshelve_schedule env instance image h = (Raise ex, h', tr) ∧
    existsb (λ ev, is_instance_save ev || is_unshelve_dispatch ev) tr = false.
Proof.
  unfold unshelve_placement, unshelve_schedule, EventReporter.
  intros Hplace.
  erewrite run_bind by (apply run_alloc).
  pose proof (run_populate_retry_at env (length h) (uuid instance) (h ++ [∅]) ∅
                (list_lookup_middle _ _ _ _ eq_refl)) as Hretry.
  destruct (populate_retry env ∅ (uuid instance)) as [fp1 [e1|]];
    simpl in Hretry.
  { injection Hplace as -> ->.
    erewrite run_bind_raise by (exact Hretry). simpl.
    eexists _, _. split; reflexivity. }
  erewrite run_bind by (exact Hretry).
  rewrite insert_app_r_alt, Nat.sub_diag by lia. simpl.
  pose proof (run_schedule_instances image (length h) instance (h ++ [fp1]) fp1
                (list_lookup_middle _ _ _ _ eq_refl)) as Hsched.
  simpl in Hsched.
  destruct (setup_instance_group env _ fp1) as [fp2 [e2|]]; simpl in Hsched.
  { injection Hplace as -> ->.
    erewrite run_bind_raise by (exact Hsched). simpl.
    eexists _, _. split; reflexivity. }
  injection Hplace as -> Hsel. rewrite Hsel in Hsched.
  erewrite run_bind_raise by (exact Hsched). simpl.
  eexists _, _. split; reflexivity.
Qed.

Lemma run_unshelve_image instance image h :
  shelved_image env instance = Ok image →
  ∃ tr,
    (if truthy_str (system_metadata instance !! "shelved_image_id") then
       unshelve_get_image env instance
         (default "" (system_metadata instance !! "shelved_image_id"))
     else ret VNone) h = (Ok image, h, tr) ∧
    existsb (λ ev, is_instance_save ev || is_unshelve_dispatch ev) tr = false.
Proof.
  unfold shelved_image. intros Himg.
  destruct (system_metadata instance !! "shelved_image_id") as [image_id|];
    simpl.
  - destruct (bool_decide (image_id = "")) eqn:Hid; simpl.
    + injection Himg as <-. exists []. split; reflexivity.
    + unfold unshelve_get_image, EventReporter, safe_image_show. simpl.
      rewrite Hid. simpl.
      erewrite run_try_ok.
      2:{ erewrite run_bind by reflexivity. rewrite Himg. reflexivity. }
      eexists. split; reflexivity.
  - injection Himg as <-. exists []. split; reflexivity.
Qed.

(** C7, amended. [unshelve_instance] is gated on the vm_state it finds.
    - SHELVED: task_state becomes POWERING_ON and the instance is saved,
      expecting task state UNSHELVING. When the save goes through,
      [start_instance] is cast; nothing else is called, so nothing is
      scheduled. When the save is refused, its exception leaves the call
      and nothing is cast.
    - SHELVED_OFFLOADED with a recorded image id that the image service no
      longer finds: vm_state becomes ERROR, the instance is saved, and an
      [UnshelveException] naming the image is raised.
    - SHELVED_OFFLOADED otherwise, when the scheduler answers with hosts:
      a retry context is populated for the instance, one
      [select_destinations] call is made for the single instance, and
      [unshelve_instance] is cast to the first host it returned.
    - any other vm_state: the condition is logged as an error, vm_state
      becomes ERROR, the instance is saved, and nothing is dispatched. *)
Theorem unshelve_instance_by_vm_state
    (instance : NovaInstance) (h : list (gmap string PyVal)) :
  let out := unshelve_instance env instance h in
  (vm_state instance = Some vm_states.SHELVED →
   let saved := set_task_state (Some task_states.POWERING_ON) instance in
   task_state saved = Some task_states.POWERING_ON ∧
   vm_state saved = Some vm_states.SHELVED ∧
   uuid saved = uuid instance ∧
   match save_expected_task_state env saved task_states.UNSHELVING with
   | None =>
       out =
         (Ok tt, h,
          [ EvInstanceSave saved (Some task_states.UNSHELVING);
            EvStartInstance saved ])
   | Some e =>
       out =
         (Raise e, h, [ EvInstanceSave saved (Some task_states.UNSHELVING) ])
   end) ∧
  (vm_state instance = Some vm_states.SHELVED_OFFLOADED →
   ∀ image_id e,
     system_metadata instance !! "shelved_image_id" = Some image_id →
     image_id ≠ "" →
     image_get env image_id = Raise e →
     isinstance e [ImageNotFound] = true →
     let saved := set_vm_state (Some vm_states.ERROR) instance in
     let failure :=
       mkExn UnshelveException
         [("instance_id", uuid instance);
          ("reason", image_gone_reason image_id)] in
     vm_state saved = Some vm_states.ERROR ∧
     task_state saved = task_state instance ∧
     uuid saved = uuid instance ∧
     out =
       (Raise failure, h,
        [ EvEventStart "get_image_info" (uuid instance);
          EvImageGet image_id;
          EvInstanceSave saved None;
          EvLog "error" (image_gone_reason image_id);
          EvEventFinish "get_image_info" (uuid instance) (Some failure) ])) ∧
  (vm_state instance = Some vm_states.SHELVED_OFFLOADED →
   ∀ image fp hs rest,
     shelved_image env instance = Ok image →
     unshelve_placement env instance image = (fp, Ok (hs :: rest)) →
     outcome out = Ok tt ∧
     ∃ pre,
       existsb is_remote_dispatch pre = false ∧
       trace out =
         pre ++
         [ EvEventStart "schedule_instances" (uuid instance);
           EvPopulateRetry ∅ (uuid instance);
           EvSetupInstanceGroup
             (build_request_spec env image [instance] None)
             (populate_retry env ∅ (uuid instance)).1;
           EvSelectDestinations
             (build_request_spec env image [instance] None) fp;
           EvPopulateFilterProperties fp hs;
           EvUnshelveInstance instance (hs_host hs) image
             (populate_filter_properties env fp hs) (hs_nodename hs);
           EvEventFinish "schedule_instances" (uuid instance) None ]) ∧
  (vm_state instance ≠ Some vm_states.SHELVED →
   vm_state instance ≠ Some vm_states.SHELVED_OFFLOADED →
   let saved := set_vm_state (Some vm_states.ERROR) instance in
   vm_state saved = Some vm_states.ERROR ∧
   task_state saved = task_state instance ∧
   uuid saved = uuid instance ∧
   out =
     (Ok tt, h,
      [ EvLog "error"
          "Unshelve attempted but vm_state not SHELVED or SHELVED_OFFLOADED";
        EvInstanceSave saved None ])).
Proof.
  intros out. subst out. unfold unshelve_instance.
  split; [|split; [|split]].
  - intros Hvm. rewrite bool_decide_eq_true_2 by exact Hvm.
    split; [reflexivity|]. split; [exact Hvm|]. split; [reflexivity|].
    unfold save_expecting. unfold_monad.
    destruct (save_expected_task_state env _ task_states.UNSHELVING);
      reflexivity.
  - intros Hvm image_id e Hmeta Hid Hget Hin.
    split; [reflexivity|]. split; [reflexivity|]. split; [reflexivity|].
    rewrite bool_decide_eq_false_2 by (rewrite Hvm; discriminate).
    rewrite bool_decide_eq_true_2 by exact Hvm.
    rewrite Hmeta. simpl.
    rewrite bool_decide_eq_false_2 by exact Hid. simpl.
    erewrite run_bind_raise; [reflexivity|].
    unfold unshelve_get_image, EventReporter, safe_image_show. simpl.
    rewrite bool_decide_eq_false_2 by exact Hid. simpl.
    erewrite run_try_raise.
    2:{ erewrite run_bind by reflexivity. rewrite Hget. reflexivity. }
    rewrite Hin. reflexivity.
  - intros Hvm image fp hs rest Himg Hplace.
    rewrite bool_decide_eq_false_2 by (rewrite Hvm; discriminate).
    rewrite bool_decide_eq_true_2 by exact Hvm.
    destruct (run_unshelve_image instance image h Himg) as (pre & Hrun & Hpre).
    erewrite run_bind by (exact Hrun).
    erewrite run_try_ok
      by (exact (run_unshelve_schedule_ok instance image h fp hs rest Hplace)).
    unfold outcome, trace. cbn [fst snd]. split; [reflexivity|].
    exists pre. split; [|reflexivity].
    clear -Hrun. unfold shelved_image in *.
    destruct (system_metadata instance !! "shelved_image_id") as [image_id|];
      simpl in Hrun; [|injection Hrun as _ <-; reflexivity].
    destruct (bool_decide (image_id = "")) eqn:Hid; simpl in Hrun;
      [injection Hrun as _ <-; reflexivity|].
    unfold unshelve_get_image, EventReporter, safe_image_show in Hrun.
    simpl in Hrun. rewrite Hid in Hrun. unfold_monad. simpl in Hrun.
    destruct (image_get env image_id) as [img|e]; simpl in Hrun.
    + injection Hrun as _ <-. reflexivity.
    + destruct (isinstance e [ImageNotFound]); simpl in Hrun; discriminate.
  - intros Hs Ho.
    split; [reflexivity|]. split; [reflexivity|]. split; [reflexivity|].
    rewrite bool_decide_eq_false_2 by exact Hs.
    rewrite bool_decide_eq_false_2 by exact Ho. reflexivity.
Qed.

(** C10. For an instance in SHELVED_OFFLOADED whose image step went
    through, a NoValidHost or UnsupportedPolicyException out of the
    scheduling step does not leave [unshelve_instance]: the call returns
    normally. Its last two calls save the instance with task_state cleared
    and log a warning; that save is the only one, the instance it saves
    still has vm_state SHELVED_OFFLOADED, and no [unshelve_instance] cast
    is made. *)
Theorem unshelve_instance_no_valid_host
    (instance : NovaInstance) (image : PyVal) (fp : gmap string PyVal)
    (ex : Exn) (h : list (gmap string PyVal)) :
  vm_state instance = Some vm_states.SHELVED_OFFLOADED →
  shelved_image env instance = Ok image →
  unshelve_placement env instance image = (fp, Raise ex) →
  exc_type ex ∈ [NoValidHost; UnsupportedPolicyException] →
  let out := unshelve_instance env instance h in
  let saved := set_task_state None instance in
  outcome out = Ok tt ∧
  (∃ pre,
     trace out =
       pre ++ [ EvInstanceSave saved None;
                EvLog "warning" "No valid host found for unshelve instance" ] ∧
     existsb (λ ev, is_instance_save ev || is_unshelve_dispatch ev) pre
       = false) ∧
  vm_state saved = Some vm_states.SHELVED_OFFLOADED ∧
  task_state saved = None ∧
  existsb is_unshelve_dispatch (trace out) = false.
Proof.
  intros Hvm Himg Hplace Hex out saved. subst out.
  apply isinstance_elem in Hex.
  unfold unshelve_instance.
  rewrite bool_decide_eq_false_2 by (rewrite Hvm; discriminate).
  rewrite bool_decide_eq_true_2 by exact Hvm.
  destruct (run_unshelve_image instance image h Himg) as (pre & Hrun & Hpre).
  destruct (run_unshelve_schedule_raise instance image h fp ex Hplace)
    as (h' & tr & Hsched & Htr).
  erewrite run_bind by (exact Hrun).
  erewrite run_try_raise by (exact Hsched).
  rewrite Hex. unfold_monad. cbn [fst snd]. simpl.
  split; [reflexivity|]. split; [|split; [exact Hvm|split; [reflexivity|]]].
  - exists (pre ++ tr). rewrite <- app_assoc. split; [reflexivity|].
    rewrite existsb_app, Hpre, Htr. reflexivity.
  - rewrite !existsb_app. simpl. rewrite !orb_false_r.
    apply orb_false_iff. split.
    + clear -Hpre. induction pre as [|ev pre IH]; [reflexivity|].
      simpl in *. apply orb_false_iff in Hpre as [Hev Hpre].
      apply orb_false_iff in Hev as [_ ->]. simpl. auto.
    + clear -Htr. induction tr as [|ev tr IH]; [reflexivity|].
      simpl in *. apply orb_false_iff in Htr as [Hev Htr].
      apply orb_false_iff in Hev as [_ ->]. simpl. auto.
Qed.

End Unshelve.

(** C7 as stated fails for an instance in SHELVED whose save is refused
    because another operation changed its task state in the meantime: the
    call raises the error of the save and casts nothing, so no power-on is
    dispatched. *)
Lemma unshelve_instance_refused_save_starts_nothing :
  let env := Fixtures.cloud_busy in
  let shelved := Fixtures.server "u1" (Some vm_states.SHELVED) in
  let out := unshelve_instance env shelved [] in
  vm_state shelved = Some vm_states.SHELVED ∧
  outcome out = Raise Fixtures.task_state_conflict ∧
  existsb is_remote_dispatch (trace out) = false ∧
  trace out =
    [ EvInstanceSave (set_task_state (Some task_states.POWERING_ON) shelved)
        (Some task_states.UNSHELVING) ].
Proof.
  intros env shelved out.
  split; [reflexivity|]. split; [|split]; vm_compute; reflexivity.
Qed.


(** ** rebuild_instance *)

Section Rebuild.

Variable env : Env.

Lemma run_rebuild_select_host instance image_ref h :
  rebuild_select_host env (rebuild_request_spec env instance image_ref)
    (length h) (h ++ [rebuild_filter_properties instance]) =
    (match (rebuild_placement env instance image_ref).2 with
     | Ok (hs :: _) => Ok (Some (hs_host hs))
     | Ok [] => Raise (mkExn IndexError [])
     | Raise e => Raise e
     end,
     h ++ [(rebuild_placement env instance image_ref).1],
     rebuild_schedule_events env instance image_ref).
Proof.
  unfold rebuild_select_host, rebuild_placement, rebuild_schedule_events.
  set (rs := rebuild_request_spec env instance image_ref).
  set (fp0 := rebuild_filter_properties instance).
  pose proof (run_setup_instance_group_at env rs (length h) (h ++ [fp0]) fp0
                (list_lookup_middle _ _ _ _ eq_refl)) as Hsetup.
  rewrite insert_app_r_alt, Nat.sub_diag in Hsetup by lia. simpl in Hsetup.
  destruct (setup_instance_group env rs fp0) as [fp1 [e|]]; simpl in *.
  - erewrite run_bind_raise by (exact Hsetup). reflexivity.
  - erewrite run_bind by (exact Hsetup).
    unfold bind.
    erewrite run_select_destinations_at
      by (apply list_lookup_middle; reflexivity).
    destruct (select_destinations env rs fp1) as [[|hs rest]|e]; reflexivity.
Qed.

Lemma rebuild_schedule_events_quiet instance image_ref :
  existsb is_set_vm_state (rebuild_schedule_events env instance image_ref)
    = false ∧
  existsb is_rebuild_dispatch (rebuild_schedule_events env instance image_ref)
    = false.
Proof.
  unfold rebuild_schedule_events.
  destruct (setup_instance_group env _ _) as [fp1 [e|]]; split; reflexivity.
Qed.

(** C8. A rebuild without a host schedules one on a new dictionary
    [{'ignore_hosts': [instance.host]}]: group setup gets that dictionary,
    and [select_destinations] gets it as group setup left it, so with the
    current host still excluded if group setup keeps the entry. When
    placement fails with NoValidHost or UnsupportedPolicyException, the
    state update (vm_state as it is, task_state None) and the notification
    come before the error leaves, the error is the same exception, and
    there is no rebuild cast. When placement succeeds, or a host is given,
    the usage notification is followed by the rebuild cast to that host,
    with the original and new image references and the block device
    mappings it was called with. *)
Theorem rebuild_instance_placement
    (instance : NovaInstance)
    (orig_image_ref image_ref injected_files new_pass orig_sys_metadata
       bdms : PyVal)
    (recreate on_shared_storage preserve_ephemeral : bool)
    (to_host : option string) (h : list (gmap string PyVal)) :
  let out :=
    rebuild_instance env instance orig_image_ref image_ref injected_files
      new_pass orig_sys_metadata bdms recreate on_shared_storage
      preserve_ephemeral to_host h in
  let rs := rebuild_request_spec env instance image_ref in
  let fp0 := rebuild_filter_properties instance in
  let placed := rebuild_placement env instance image_ref in
  (truthy_str to_host = false →
   fp0 = {[ "ignore_hosts" := VList [pyval_of_str (host instance)] ]} ∧
   (∃ rest,
      trace out =
        EvEventStart "rebuild_server" (uuid instance) ::
        EvSetupInstanceGroup rs fp0 :: rest) ∧
   (∀ rs' fp', EvSelectDestinations rs' fp' ∈ trace out →
               rs' = rs ∧ fp' = placed.1 ∧
               (placed.1 !! "ignore_hosts" = fp0 !! "ignore_hosts" →
                fp' !! "ignore_hosts" =
                  Some (VList [pyval_of_str (host instance)])))) ∧
  (truthy_str to_host = false →
   ∀ ex,
     placed.2 = Raise ex →
     exc_type ex ∈ [NoValidHost; UnsupportedPolicyException] →
     outcome out = Raise ex ∧
     (∃ pre msg,
        trace out =
          pre ++
          [ EvSetVmStateAndNotify (uuid instance) "compute_task"
              "rebuild_server"
              (mkUpdates (vm_state instance) None None) ex rs;
            EvLog "warning" msg;
            EvEventFinish "rebuild_server" (uuid instance) (Some ex) ] ∧
        existsb is_set_vm_state pre = false) ∧
     existsb is_rebuild_dispatch (trace out) = false) ∧
  (∀ chosen,
     (truthy_str to_host = true ∧ chosen = to_host) ∨
     (truthy_str to_host = false ∧
      ∃ hs rest, placed.2 = Ok (hs :: rest) ∧ chosen = Some (hs_host hs)) →
     outcome out = Ok tt ∧
     ∃ pre,
       trace out =
         pre ++
         [ EvNotifyAboutInstanceUsage instance "rebuild.scheduled";
           rebuild_cast instance orig_image_ref image_ref injected_files
             new_pass orig_sys_metadata bdms recreate on_shared_storage
             preserve_ephemeral chosen;
           EvEventFinish "rebuild_server" (uuid instance) None ] ∧
       existsb is_rebuild_dispatch pre = false).
Proof.
  intros out rs fp0 placed.
  pose proof (run_rebuild_select_host instance image_ref h) as Hsel.
  pose proof (rebuild_schedule_events_quiet instance image_ref)
    as [Hquiet1 Hquiet2].
  fold rs fp0 placed in Hsel.
  split; [|split].
  - (* the scheduling request *)
    intros Hno. split; [reflexivity|].
    assert (Hshape : ∃ r h' tail,
      out = (r, h',
             EvEventStart "rebuild_server" (uuid instance) ::
             (rebuild_schedule_events env instance image_ref ++ tail)) ∧
      ∀ rs' fp', ¬ EvSelectDestinations rs' fp' ∈ tail).
    { subst out. unfold rebuild_instance, EventReporter.
      rewrite Hno. simpl negb. cbv iota.
      unfold instance_host. fold fp0. fold (rebuild_request_spec env instance image_ref).
      fold rs.
      destruct (placed.2) as [[|hs rest]|ex] eqn:Hplaced.
      + erewrite run_bind_raise.
        2:{ erewrite run_bind by (apply run_alloc).
            erewrite run_try_raise by (exact Hsel). simpl.
            rewrite app_nil_r. reflexivity. }
        eexists _, _, [_]. split; [reflexivity|].
        intros rs' fp' Hin. apply list_elem_of_singleton in Hin. discriminate.
      + erewrite run_bind.
        2:{ erewrite run_bind by (apply run_alloc).
            erewrite run_try_ok by (exact Hsel). reflexivity. }
        unfold_monad. simpl.
        eexists _, _, [_; _; _]. split.
        { rewrite <- app_assoc. reflexivity. }
        intros rs' fp' Hin.
        repeat (apply elem_of_cons in Hin as [Hin|Hin]; [discriminate|]).
        inversion Hin.
      + destruct (isinstance ex [NoValidHost]) eqn:Hi1;
          [|destruct (isinstance ex [UnsupportedPolicyException]) eqn:Hi2].
        * erewrite run_bind_raise.
          2:{ erewrite run_bind by (apply run_alloc).
              erewrite run_try_raise by (exact Hsel).
              rewrite Hi1. unfold _set_vm_state_and_notify, set_vm_state_and_notify.
              unfold save_and_reraise_exception.
              erewrite run_bind by reflexivity. reflexivity. }
          eexists _, _, [_; _; _]. split.
          { cbn [app]. rewrite <- !app_assoc. reflexivity. }
          intros rs' fp' Hin.
          repeat (apply elem_of_cons in Hin as [Hin|Hin]; [discriminate|]).
          inversion Hin.
        * erewrite run_bind_raise.
          2:{ erewrite run_bind by (apply run_alloc).
              erewrite run_try_raise by (exact Hsel).
              rewrite Hi1, Hi2. unfold _set_vm_state_and_notify, set_vm_state_and_notify.
              unfold save_and_reraise_exception.
              erewrite run_bind by reflexivity. reflexivity. }
          eexists _, _, [_; _; _]. split.
          { cbn [app]. rewrite <- !app_assoc. reflexivity. }
          intros rs' fp' Hin.
          repeat (apply elem_of_cons in Hin as [Hin|Hin]; [discriminate|]).
          inversion Hin.
        * erewrite run_bind_raise.
          2:{ erewrite run_bind by (apply run_alloc).
              erewrite run_try_raise by (exact Hsel).
              rewrite Hi1, Hi2. reflexivity. }
          eexists _, _, [_]. split.
          { cbn [app]. rewrite app_nil_r. reflexivity. }
          intros rs' fp' Hin.
          repeat (apply elem_of_cons in Hin as [Hin|Hin]; [discriminate|]).
          inversion Hin. }
    destruct Hshape as (r & h' & tail & -> & Htail).
    unfold trace. cbn [snd]. split.
    + unfold rebuild_schedule_events. fold rs fp0. simpl. eauto.
    + intros rs' fp' Hin.
      apply elem_of_cons in Hin as [Hin|Hin]; [discriminate|].
      apply elem_of_app in Hin as [Hin|Hin]; [|destruct (Htail _ _ Hin)].
      unfold rebuild_schedule_events in Hin. fold rs fp0 in Hin.
      apply elem_of_cons in Hin as [Hin|Hin]; [discriminate|].
      assert (Hfp : fp' = placed.1 ∧ rs' = rs).
      { subst placed. unfold rebuild_placement. fold rs fp0.
        destruct (setup_instance_group env rs fp0) as [fp1 [e|]];
          simpl in *; [inversion Hin|].
        apply list_elem_of_singleton in Hin. injection Hin as -> ->.
        split; reflexivity. }
      destruct Hfp as [-> ->]. split; [reflexivity|]. split; [reflexivity|].
      intros ->. reflexivity.
  - (* placement failure *)
    intros Hno ex Hplaced Hex.
    rewrite Hplaced in Hsel.
    assert (Hcase :
      isinstance ex [NoValidHost] = true ∨
      (isinstance ex [NoValidHost] = false ∧
       isinstance ex [UnsupportedPolicyException] = true)).
    { apply elem_of_cons in Hex as [Hex|Hex].
      - left. apply isinstance_elem. rewrite Hex. apply list_elem_of_here.
      - apply list_elem_of_singleton in Hex. right. split.
        + unfold isinstance. rewrite Hex. reflexivity.
        + apply isinstance_elem. rewrite Hex. apply list_elem_of_here. }
    assert (Hrun : ∃ h' msg,
      out = (Raise ex, h',
             (EvEventStart "rebuild_server" (uuid instance) ::
              rebuild_schedule_events env instance image_ref) ++
             [ EvSetVmStateAndNotify (uuid instance) "compute_task"
                 "rebuild_server"
                 (mkUpdates (vm_state instance) None None) ex rs;
               EvLog "warning" msg;
               EvEventFinish "rebuild_server" (uuid instance) (Some ex) ])).
    { subst out. unfold rebuild_instance, EventReporter.
      rewrite Hno. simpl negb. cbv iota.
      unfold instance_host. fold fp0.
      fold (rebuild_request_spec env instance image_ref). fold rs.
      destruct Hcase as [Hi|[Hi1 Hi2]].
      - erewrite run_bind_raise.
        2:{ erewrite run_bind by (apply run_alloc).
            erewrite run_try_raise by (exact Hsel).
            rewrite Hi. unfold _set_vm_state_and_notify, set_vm_state_and_notify.
            unfold save_and_reraise_exception.
            erewrite run_bind by reflexivity. reflexivity. }
        eexists _, _. cbn [app]. rewrite <- !app_assoc. reflexivity.
      - erewrite run_bind_raise.
        2:{ erewrite run_bind by (apply run_alloc).
            erewrite run_try_raise by (exact Hsel).
            rewrite Hi1, Hi2. unfold _set_vm_state_and_notify, set_vm_state_and_notify.
            unfold save_and_reraise_exception.
            erewrite run_bind by reflexivity. reflexivity. }
        eexists _, _. cbn [app]. rewrite <- !app_assoc. reflexivity. }
    destruct Hrun as (h' & msg & ->).
    unfold outcome, trace. cbn [fst snd].
    split; [reflexivity|]. split.
    + eexists _, msg. split; [reflexivity|].
      cbn [existsb is_set_vm_state orb]. exact Hquiet1.
    + rewrite existsb_app. cbn [existsb is_rebuild_dispatch orb].
      rewrite Hquiet2. reflexivity.
  - (* success, or a host was given *)
    intros chosen Hchosen.
    assert (Hrun : ∃ h' pre,
      out = (Ok tt, h',
             EvEventStart "rebuild_server" (uuid instance) ::
             (pre ++
              [ EvNotifyAboutInstanceUsage instance "rebuild.scheduled";
                rebuild_cast instance orig_image_ref image_ref injected_files
                  new_pass orig_sys_metadata bdms recreate on_shared_storage
                  preserve_ephemeral chosen ]) ++
             [EvEventFinish "rebuild_server" (uuid instance) None]) ∧
      existsb is_rebuild_dispatch pre = false).
    { subst out. unfold rebuild_instance, EventReporter.
      destruct Hchosen as [[Hyes ->]|(Hno & hs & rest & Hplaced & ->)].
      - rewrite Hyes. simpl negb. cbv iota. rewrite bind_ret_l.
        unfold_monad. simpl. eexists _, []. split; reflexivity.
      - rewrite Hno. simpl negb. cbv iota.
        unfold instance_host. fold fp0.
        fold (rebuild_request_spec env instance image_ref). fold rs.
        rewrite Hplaced in Hsel.
        erewrite run_bind.
        2:{ erewrite run_bind by (apply run_alloc).
            erewrite run_try_ok by (exact Hsel). reflexivity. }
        unfold_monad. simpl.
        eexists _, (rebuild_schedule_events env instance image_ref).
        split; [reflexivity|exact Hquiet2]. }
    destruct Hrun as (h' & pre & -> & Hpre).
    unfold outcome, trace. cbn [fst snd]. split; [reflexivity|].
    exists (EvEventStart "rebuild_server" (uuid instance) :: pre).
    split; [simpl; rewrite <- !app_assoc; reflexivity|].
    simpl. exact Hpre.
Qed.

End Rebuild.

(** ** The theorems at work on the fixtures *)

Lemma migrate_server_routing_witness :
  let env := Fixtures.cloud [Fixtures.select; Fixtures.prep_resize] None in
  let out :=
    migrate_server env (InstLegacy [("uuid", VStr "u1")])
      (mkHint None (Some ∅)) false false (VDict [("id", VInt 7)])
      false false VNone true [] in
  existsb is_live_task_execute (trace out) = false ∧
  existsb is_cold_task_execute (trace out) = true ∧
  (false = false → true = false →
   outcome out = Raise (mkExn NotImplementedError [])).
Proof.
  intros env out.
  apply (migrate_server_routing env (InstLegacy [("uuid", VStr "u1")])
           (mkHint None (Some ∅)) false false (VDict [("id", VInt 7)])
           false false VNone true []).
  - reflexivity.
  - intros _ _. exists [("id", VInt 7)], (VInt 7), Fixtures.m1_large.
    repeat split.
  - intros _ _ _. exists ∅. reflexivity.
Defined.

Lemma migrate_server_canonical_passthrough_witness :
  let env := Fixtures.cloud [Fixtures.select; Fixtures.prep_resize] None in
  let i := Fixtures.server "u1" (Some vm_states.ACTIVE) in
  let out :=
    migrate_server env (InstObj i) (mkHint None (Some ∅)) false false
      (VFlavor Fixtures.m1_large) false false VNone true [] in
  existsb is_normalization (trace out) = false ∧
  EvMigrationTaskExecute i Fixtures.m1_large ∅
    (cold_request_spec env i Fixtures.m1_large) VNone true ∈ trace out.
Proof.
  intros env i out.
  destruct (migrate_server_canonical_passthrough env i Fixtures.m1_large
              (mkHint None (Some ∅)) false false false false VNone true [])
    as (Hnorm & _ & Hcold & _).
  split; [exact Hnorm|].
  exact (proj2 (proj2 (Hcold ∅ eq_refl eq_refl eq_refl))).
Defined.

Lemma build_instances_selection_failure_witness :
  let env :=
    Fixtures.cloud_with [] None (Raise Fixtures.no_host_failure) [] [] in
  let batch := [Fixtures.server "u1" None; Fixtures.server "u2" None] in
  let out := build_instances env batch VNone ∅ VNone VNone NetworksNone VNone [] in
  outcome out = Ok tt ∧
  build_dispatches (trace out) = [] ∧
  ∃ pre,
    trace out =
      pre ++
      ((λ i, EvSetVmStateAndNotify (uuid i) "compute_task" "build_instances"
               (mkUpdates (Some vm_states.ERROR) None None)
               Fixtures.no_host_failure
               (build_request_spec env VNone batch None))
         <$> batch) ∧
    existsb is_set_vm_state pre = false.
Proof.
  intros env batch out.
  apply (build_instances_selection_failure env batch VNone ∅ ∅ VNone VNone
           NetworksNone VNone Fixtures.no_host_failure []).
  - reflexivity.
  - reflexivity.
Defined.

Lemma build_instances_dispatches_survivors_witness :
  let env := Fixtures.cloud_with [] None (Ok Fixtures.three_hosts) ["u2"] [] in
  let s1 := Fixtures.server "u1" None in
  let s2 := Fixtures.server "u2" None in
  let s3 := Fixtures.server "u3" None in
  let out :=
    build_instances env [s1; s2; s3] VNone ∅ VNone VNone NetworksNone VNone []
  in
  outcome out = Ok tt ∧
  length (build_dispatches (trace out)) = 2%nat ∧
  (λ a, (bar_instance a, bar_host a)) <$> build_dispatches (trace out) =
    [(s1, "compute2"); (s3, "compute4")] ∧
  NoDup (bar_filter_properties_ref <$> build_dispatches (trace out)).
Proof.
  intros env s1 s2 s3 out. subst out.
  destruct (build_instances_dispatches_survivors env [s1; s2; s3] VNone ∅ ∅
              (batch_placement env
                 (build_request_spec env VNone [s1; s2; s3] None) ∅
                 [s1; s2; s3]).1
              VNone VNone NetworksNone VNone Fixtures.three_hosts [])
    as (Hout & Hcasts & _ & _ & Hdistinct & _).
  - reflexivity.
  - reflexivity.
  - repeat constructor.
  - split; [exact Hout|]. split; [|split; [|exact Hdistinct]].
    + rewrite Hcasts. reflexivity.
    + rewrite Hcasts. reflexivity.
Defined.

Lemma unshelve_instance_by_vm_state_witness :
  let env := Fixtures.cloud_with [] None (Ok Fixtures.three_hosts) [] ["img9"] in
  let shelved := Fixtures.server "u1" (Some vm_states.SHELVED) in
  let lost :=
    Fixtures.server_with "u2" (Some vm_states.SHELVED_OFFLOADED)
      {[ "shelved_image_id" := "img9" ]} in
  let offloaded :=
    Fixtures.server_with "u3" (Some vm_states.SHELVED_OFFLOADED)
      {[ "shelved_image_id" := "img1" ]} in
  let active := Fixtures.server "u4" (Some vm_states.ACTIVE) in
  trace (unshelve_instance env shelved []) =
    [ EvInstanceSave (set_task_state (Some task_states.POWERING_ON) shelved)
        (Some task_states.UNSHELVING);
      EvStartInstance (set_task_state (Some task_states.POWERING_ON) shelved) ] ∧
  outcome (unshelve_instance env lost []) =
    Raise (mkExn UnshelveException
             [("instance_id", "u2"); ("reason", image_gone_reason "img9")]) ∧
  outcome (unshelve_instance env offloaded []) = Ok tt ∧
  outcome (unshelve_instance env active []) = Ok tt.
Proof.
  intros env shelved lost offloaded active.
  split; [|split; [|split]].
  - destruct (unshelve_instance_by_vm_state env shelved []) as (H1 & _).
    destruct (H1 eq_refl) as (_ & _ & _ & Hrun).
    exact (f_equal trace Hrun).
  - destruct (unshelve_instance_by_vm_state env lost []) as (_ & H2 & _).
    destruct (H2 eq_refl "img9"
                (mkExn ImageNotFound [("image_id", "img9")]) eq_refl
                ltac:(discriminate) eq_refl eq_refl) as (_ & _ & _ & Hrun).
    rewrite Hrun. reflexivity.
  - destruct (unshelve_instance_by_vm_state env offloaded [])
      as (_ & _ & H3 & _).
    exact (proj1 (H3 eq_refl (VDict [("id", VStr "img1")])
                    (unshelve_placement env offloaded
                       (VDict [("id", VStr "img1")])).1
                    (Fixtures.host_state "compute2")
                    [Fixtures.host_state "compute3";
                     Fixtures.host_state "compute4"]
                    eq_refl eq_refl)).
  - destruct (unshelve_instance_by_vm_state env active []) as (_ & _ & _ & H4).
    destruct (H4 ltac:(discriminate) ltac:(discriminate))
      as (_ & _ & _ & Hrun).
    rewrite Hrun. reflexivity.
Defined.

Lemma unshelve_instance_no_valid_host_witness :
  let env :=
    Fixtures.cloud_with [] None (Raise Fixtures.no_host_failure) [] [] in
  let offloaded := Fixtures.server "u1" (Some vm_states.SHELVED_OFFLOADED) in
  let out := unshelve_instance env offloaded [] in
  outcome out = Ok tt ∧
  existsb is_unshelve_dispatch (trace out) = false.
Proof.
  intros env offloaded out.
  destruct (unshelve_instance_no_valid_host env offloaded VNone
              (unshelve_placement env offloaded VNone).1
              Fixtures.no_host_failure [])
    as (Hout & _ & _ & _ & Hcast).
  - reflexivity.
  - reflexivity.
  - reflexivity.
  - apply list_elem_of_here.
  - split; [exact Hout|exact Hcast].
Defined.

Lemma rebuild_instance_placement_witness :
  let failing :=
    Fixtures.cloud_with [] None (Raise Fixtures.policy_failure) [] [] in
  let working := Fixtures.cloud [] None in
  let i := Fixtures.server "u1" (Some vm_states.ACTIVE) in
  let rebuild env to_host :=
    rebuild_instance env i (VStr "image-a") (VStr "image-b") VNone VNone VNone
      (VList []) false false false to_host [] in
  outcome (rebuild failing None) = Raise Fixtures.policy_failure ∧
  existsb is_rebuild_dispatch (trace (rebuild failing None)) = false ∧
  outcome (rebuild working None) = Ok tt ∧
  outcome (rebuild working (Some "compute9")) = Ok tt.
Proof.
  intros failing working i rebuild.
  split; [|split; [|split]].
  - destruct (rebuild_instance_placement failing i (VStr "image-a")
                (VStr "image-b") VNone VNone VNone (VList []) false false false
                None []) as (_ & Hfail & _).
    exact (proj1 (Hfail eq_refl Fixtures.policy_failure eq_refl
                    ltac:(apply list_elem_of_further, list_elem_of_here))).
  - destruct (rebuild_instance_placement failing i (VStr "image-a")
                (VStr "image-b") VNone VNone VNone (VList []) false false false
                None []) as (_ & Hfail & _).
    exact (proj2 (proj2 (Hfail eq_refl Fixtures.policy_failure eq_refl
                    ltac:(apply list_elem_of_further, list_elem_of_here)))).
  - destruct (rebuild_instance_placement working i (VStr "image-a")
                (VStr "image-b") VNone VNone VNone (VList []) false false false
                None []) as (_ & _ & Hok).
    refine (proj1 (Hok (Some "compute2") _)).
    right. split; [reflexivity|].
    exists (Fixtures.host_state "compute2"),
      [Fixtures.host_state "compute3"; Fixtures.host_state "compute4"].
    split; reflexivity.
  - destruct (rebuild_instance_placement working i (VStr "image-a")
                (VStr "image-b") VNone VNone VNone (VList []) false false false
                (Some "compute9") []) as (_ & _ & Hok).
    refine (proj1 (Hok (Some "compute9") _)).
    left. split; reflexivity.
Defined.

(** ** Further properties of the compute-task entry points *)

Lemma occurrences_app p t1 t2 :
  occurrences p (t1 ++ t2) = (occurrences p t1 + occurrences p t2)%nat.
Proof. unfold occurrences. rewrite List.filter_app, length_app. reflexivity. Qed.

Lemma occurrences_remote p (calls : list RemoteCall) :
  (∀ c, p (EvRemote c) = false) → occurrences p (EvRemote <$> calls) = 0%nat.
Proof.
  intros Hp. unfold occurrences.
  induction calls as [|c calls IH]; simpl; [reflexivity|].
  rewrite Hp. exact IH.
Qed.

Lemma occurrences_none p tr :
  existsb p tr = false → occurrences p tr = 0%nat.
Proof.
  unfold occurrences. induction tr as [|ev tr IH]; simpl; [reflexivity|].
  intros H. apply orb_false_iff in H as [-> H]. exact (IH H).
Qed.

Lemma occurrences_cons p ev tr :
  occurrences p (ev :: tr) =
    ((if p ev then 1 else 0) + occurrences p tr)%nat.
Proof. unfold occurrences. simpl. destruct (p ev); reflexivity. Qed.

Lemma occurrences_nil p : occurrences p [] = 0%nat.
Proof. reflexivity. Qed.

Ltac count_calls :=
  repeat (rewrite ?occurrences_app, ?occurrences_cons, ?occurrences_nil);
  rewrite ?occurrences_remote by reflexivity;
  cbn [is_set_vm_state is_cold_task_execute is_live_task_execute
       is_migration_create is_migration_save is_scheduler_call is_image_get
       is_usage_notification is_rebuild_dispatch
       is_normalization
       is_unshelve_dispatch is_instance_save is_remote_dispatch
       Nat.add].

Section MigrateExtras.

Variable env : Env.

(** X1. [_cold_migrate] executes the task exactly once. It writes the
    instance state exactly once on every failure of the task and never
    when the task returns. What it raises for a NoValidHost of the task,
    or of a class derived from it, is a new NoValidHost; any other
    exception of the task is raised again as it is. *)
Theorem cold_migrate_state_written_once
    (instance : NovaInstance) (flavor : Flavor)
    (filter_properties : gmap string PyVal) (reservations : PyVal)
    (clean_shutdown : bool) (h : list (gmap string PyVal)) :
  let out := _cold_migrate env instance flavor filter_properties reservations
               clean_shutdown h in
  occurrences is_cold_task_execute (trace out) = 1%nat ∧
  match cold_task_raises env instance flavor filter_properties reservations
          clean_shutdown with
  | None =>
      outcome out = Ok tt ∧
      occurrences is_set_vm_state (trace out) = 0%nat
  | Some ex =>
      (if isinstance ex [NoValidHost]
       then ∃ reason,
              outcome out = Raise (mkExn NoValidHost [("reason", reason)])
       else outcome out = Raise ex) ∧
      occurrences is_set_vm_state (trace out) = 1%nat
  end.
Proof.
  intros out. subst out. unfold cold_task_raises, cold_request_spec.
  unfold _cold_migrate, cold_migrate_task_execute, _set_vm_state_and_notify,
    set_vm_state_and_notify.
  unfold_monad. simpl.
  destruct (cold_raises _) as [ex|]; simpl.
  - destruct (isinstance ex [NoValidHost]) eqn:Hno; simpl.
    + count_calls.
      split; [reflexivity|]. split; [|reflexivity].
      eexists. reflexivity.
    + destruct (isinstance ex [UnsupportedPolicyException]); simpl;
        count_calls;
        (split; [reflexivity|]; split; reflexivity).
  - count_calls. repeat split.
Qed.

(** X2. An exception of the cold-migration task that the NoValidHost
    clause does not catch reaches the caller as it is. Before that, the
    state update is the last call, with task_state None; the vm_state it
    writes falls back to ACTIVE for an UnsupportedPolicyException (or a
    class derived from it) only: for any other exception it is the
    instance's vm_state as it stands, [None] included. *)
Theorem cold_migrate_other_failure
    (instance : NovaInstance) (flavor : Flavor)
    (filter_properties : gmap string PyVal) (reservations : PyVal)
    (clean_shutdown : bool) (ex : Exn) (h : list (gmap string PyVal)) :
  cold_task_raises env instance flavor filter_properties reservations
    clean_shutdown = Some ex →
  isinstance ex [NoValidHost] = false →
  let out := _cold_migrate env instance flavor filter_properties reservations
               clean_shutdown h in
  let written :=
    if isinstance ex [UnsupportedPolicyException]
    then Some (prior_or_active (vm_state instance))
    else vm_state instance in
  outcome out = Raise ex ∧
  ∃ pre,
    trace out =
      pre ++ [ EvSetVmStateAndNotify (uuid instance) "compute_task"
                 "migrate_server" (mkUpdates written None None) ex
                 (cold_request_spec env instance flavor) ].
Proof.
  intros Hraise Hno out written. subst out written.
  unfold cold_task_raises, cold_request_spec in *.
  unfold _cold_migrate, cold_migrate_task_execute, _set_vm_state_and_notify,
    set_vm_state_and_notify.
  unfold_monad. simpl. rewrite Hraise. simpl. rewrite Hno. simpl.
  destruct (isinstance ex [UnsupportedPolicyException]) eqn:Hpol; simpl.
  - split; [reflexivity|]. rewrite app_nil_r.
    eexists (_ :: (EvRemote <$> _)). simpl. do 7 f_equal.
    unfold prior_or_active, truthy_str.
    destruct (vm_state instance) as [s|]; [|reflexivity].
    destruct (bool_decide (s = "")); reflexivity.
  - split; [reflexivity|]. rewrite app_nil_r.
    eexists (_ :: (EvRemote <$> _)). reflexivity.
Qed.

(** X3. [_live_migrate] creates the migration record exactly once. When the
    task returns, the call returns and the manager writes neither the
    record nor the instance state again. When the task raises, there is
    exactly one more write of each; the record saved is the object as the
    task left it (with the destination the task chose, for one), changed
    in its status only, and the status is ['error'] or ['failed']. *)
Theorem live_migrate_record_writes
    (instance : NovaInstance) (hint : SchedulerHint) (bm doc : bool)
    (h : list (gmap string PyVal)) :
  let out := _live_migrate env instance hint bm doc h in
  store out = h ∧
  occurrences is_migration_create (trace out) = 1%nat ∧
  occurrences is_live_task_execute (trace out) = 1%nat ∧
  match live_task_raises env instance hint bm doc with
  | None =>
      outcome out = Ok tt ∧
      occurrences is_migration_save (trace out) = 0%nat ∧
      occurrences is_set_vm_state (trace out) = 0%nat
  | Some ex =>
      (∃ e, outcome out = Raise e) ∧
      occurrences is_migration_save (trace out) = 1%nat ∧
      occurrences is_set_vm_state (trace out) = 1%nat ∧
      ∀ m, EvMigrationSave m ∈ trace out →
           ∃ s, m = set_status s (live_task_migration env instance hint bm doc) ∧
                (s = "error" ∨ s = "failed")
  end.
Proof.
  intros out. subst out. unfold live_task_raises, live_task_migration.
  unfold _live_migrate, live_migrate_task_execute, _set_vm_state,
    set_vm_state_and_notify.
  unfold_monad. simpl.
  destruct (run_raises _) as [ex|]; simpl.
  - destruct (isinstance ex live_migrate_precheck_classes); simpl;
      count_calls;
      (split; [reflexivity|]; split; [reflexivity|]; split; [reflexivity|];
       split; [eexists; reflexivity|]; split; [reflexivity|];
       split; [reflexivity|]);
      intros m Hin;
      repeat (apply elem_of_cons in Hin as [Hin|Hin]; [discriminate|]);
      rewrite app_nil_r in Hin;
      (apply elem_of_app in Hin as [Hin|Hin];
       [apply list_elem_of_fmap in Hin as (c & Hc & _); discriminate|]);
      repeat (apply elem_of_cons in Hin as [Hin|Hin];
              [try discriminate|]);
      try (injection Hin as ->; eauto);
      try inversion Hin.
  - count_calls. repeat split.
Qed.

End MigrateExtras.

Lemma cold_migrate_other_failure_witness :
  let env :=
    Fixtures.cloud [Fixtures.select]
      (Some (mkExn (OtherException "MessagingTimeout") [])) in
  let unknown := Fixtures.server "u1" None in
  outcome (_cold_migrate env unknown Fixtures.m1_large ∅ VNone true []) =
    Raise (mkExn (OtherException "MessagingTimeout") []) ∧
  ∃ pre,
    trace (_cold_migrate env unknown Fixtures.m1_large ∅ VNone true []) =
      pre ++ [ EvSetVmStateAndNotify "u1" "compute_task" "migrate_server"
                 (mkUpdates None None None)
                 (mkExn (OtherException "MessagingTimeout") [])
                 (cold_request_spec env unknown Fixtures.m1_large) ].
Proof.
  intros env unknown.
  apply (cold_migrate_other_failure env unknown Fixtures.m1_large ∅ VNone true
           (mkExn (OtherException "MessagingTimeout") []) []).
  - reflexivity.
  - reflexivity.
Defined.

Section RoutingExtras.

Variable env : Env.

(** X4. [migrate_server] converts each old-style input exactly once,
    before it routes the request, and routes with the results: an
    old-world instance dictionary goes through [_from_db_object] with the
    four expected attributes, a flavor dictionary is looked up by its
    ['id'], and the task runs on the instance object and the [Flavor] so
    obtained. What leaves the call is what leaves the task's path, seen
    through the decorator. *)
Theorem migrate_server_converts_legacy_inputs
    (d fd : list (string * PyVal)) (fid : PyVal) (f : Flavor)
    (hint : SchedulerHint) (bm doc : bool) (res : PyVal) (cs : bool)
    (h : list (gmap string PyVal)) :
  d ≠ [] →
  let i := from_db_object env d migrate_server_attrs in
  (∀ fp,
     assoc "id" fd = Some fid →
     flavor_get_by_id env fid = Ok f →
     hint_filter_properties hint = Some fp →
     migrate_server env (InstLegacy d) hint false false (VDict fd) bm doc res
       cs h =
       let '(r, h', t) :=
         EventReporter "cold_migrate" (uuid i)
           (_cold_migrate env i f fp res cs) h in
       (expected_outcome migrate_server_expected r, h',
        EvFromDbObject d migrate_server_attrs ::
        EvFlavorGetById fid :: t)) ∧
  (∀ none,
     truthy none = false →
     migrate_server env (InstLegacy d) hint true false none bm doc res cs h =
       let '(r, h', t) := _live_migrate env i hint bm doc h in
       (expected_outcome migrate_server_expected r, h',
        EvFromDbObject d migrate_server_attrs :: t)).
Proof.
  intros Hd i.
  assert (Hlen : bool_decide (length d = 0%nat) = false).
  { apply bool_decide_eq_false. destruct d; [contradiction|discriminate]. }
  split.
  - intros fp Hid Hlookup Hfp.
    assert (Hfd : bool_decide (length fd = 0%nat) = false).
    { apply bool_decide_eq_false. destruct fd; discriminate. }
    unfold migrate_server. rewrite run_expected_exceptions.
    simpl. rewrite Hlen, Hfd. simpl.
    unfold _from_db_object, getitem. rewrite Hid.
    erewrite run_bind by reflexivity.
    erewrite run_bind.
    2:{ erewrite run_bind by reflexivity.
        erewrite run_bind by reflexivity.
        rewrite Hlookup. reflexivity. }
    cbn [truthy negb andb app].
    unfold as_object. rewrite bind_ret_l.
    unfold EventReporter. rewrite Hfp. rewrite !bind_ret_l.
    unfold as_flavor. rewrite bind_ret_l.
    fold migrate_server_attrs. fold i.
    destruct (_cold_migrate env i f fp res cs h) as [[r h'] t].
    reflexivity.
  - intros none Hnone.
    unfold migrate_server. rewrite run_expected_exceptions.
    simpl. rewrite Hlen. simpl.
    unfold _from_db_object.
    erewrite run_bind by reflexivity.
    rewrite Hnone. simpl. rewrite bind_ret_l. rewrite Hnone. simpl.
    unfold as_object. rewrite bind_ret_l.
    fold migrate_server_attrs. fold i.
    destruct (_live_migrate env i hint bm doc h) as [[r h'] t].
    reflexivity.
Qed.

(** X5. A flavor dictionary that cannot be resolved stops [migrate_server]
    before any routing, whatever [live] and [rebuild] are, and whatever the
    instance argument is. Without an ['id'] the call raises KeyError; with
    an ['id'] that [Flavor.get_by_id] rejects, what leaves is the
    exception of the lookup, seen through the decorator. The conversion of
    an old-world instance dictionary, which comes first, and the lookup
    are the only calls: no task runs and no action event is started. *)
Theorem migrate_server_unresolved_flavor
    (a : InstanceArg) (fd : list (string * PyVal)) (hint : SchedulerHint)
    (live rebuild bm doc : bool) (res : PyVal) (cs : bool)
    (h : list (gmap string PyVal)) :
  fd ≠ [] →
  let out :=
    migrate_server env a hint live rebuild (VDict fd) bm doc res cs h
  in
  (assoc "id" fd = None →
   out = (Raise (mkExn KeyError [("key", "id")]), h, instance_conversion a)) ∧
  (∀ fid e,
     assoc "id" fd = Some fid →
     flavor_get_by_id env fid = Raise e →
     out = (Raise (as_expected migrate_server_expected e), h,
            instance_conversion a ++ [EvFlavorGetById fid])).
Proof.
  intros Hfd out. subst out.
  assert (Hlen : bool_decide (length fd = 0%nat) = false).
  { apply bool_decide_eq_false. destruct fd; [contradiction|discriminate]. }
  assert (Hconv : ∃ a',
    (if instance_truthy a && negb (is_nova_object a) then
       _from_db_object env a
         ["metadata"; "system_metadata"; "info_cache"; "security_groups"]
     else ret a) h = (Ok a', h, instance_conversion a)).
  { destruct a as [i|[|item d]]; simpl; eexists; reflexivity. }
  destruct Hconv as [a' Hconv].
  unfold migrate_server. rewrite !run_expected_exceptions.
  erewrite run_bind by (exact Hconv).
  simpl. rewrite Hlen. simpl. unfold getitem. split.
  - intros ->. erewrite run_bind_raise by reflexivity.
    rewrite app_nil_r. reflexivity.
  - intros fid e -> Hlookup.
    erewrite run_bind_raise.
    2:{ erewrite run_bind by reflexivity.
        erewrite run_bind by reflexivity.
        erewrite run_bind_raise; [reflexivity|].
        rewrite Hlookup. reflexivity. }
    reflexivity.
Qed.

(** X6. A resize request whose scheduler hint has no ['filter_properties']
    fails with KeyError inside the ['cold_migrate'] action event: the
    event is started and finished with that error, no task is built or
    executed, and nothing is written. *)
Theorem migrate_server_resize_without_filter_properties
    (i : NovaInstance) (f : Flavor) (hint : SchedulerHint) (bm doc : bool)
    (res : PyVal) (cs : bool) (h : list (gmap string PyVal)) :
  hint_filter_properties hint = None →
  let missing := mkExn KeyError [("key", "filter_properties")] in
  migrate_server env (InstObj i) hint false false (VFlavor f) bm doc res cs h =
    (Raise missing, h,
     [ EvEventStart "cold_migrate" (uuid i);
       EvEventFinish "cold_migrate" (uuid i) (Some missing) ]).
Proof.
  intros Hfp missing. unfold migrate_server.
  rewrite run_expected_exceptions. simpl.
  rewrite !bind_ret_l. simpl. unfold as_object. rewrite bind_ret_l.
  unfold EventReporter. rewrite Hfp.
  erewrite run_bind_raise by reflexivity. reflexivity.
Qed.

End RoutingExtras.

Lemma migrate_server_converts_legacy_inputs_witness :
  let env := Fixtures.cloud [Fixtures.select; Fixtures.prep_resize] None in
  let d := [("uuid", VStr "u1")] in
  let out :=
    migrate_server env (InstLegacy d) (mkHint None (Some ∅)) false false
      (VDict [("id", VInt 7)]) false false VNone true [] in
  out =
    let '(r, h', t) :=
      EventReporter "cold_migrate" "u1"
        (_cold_migrate env (Fixtures.server "u1" (Some vm_states.ACTIVE))
           Fixtures.m1_large ∅ VNone true) [] in
    (expected_outcome migrate_server_expected r, h',
     EvFromDbObject d migrate_server_attrs ::
     EvFlavorGetById (VInt 7) :: t).
Proof.
  intros env d out.
  destruct (migrate_server_converts_legacy_inputs env d [("id", VInt 7)]
              (VInt 7) Fixtures.m1_large (mkHint None (Some ∅)) false false
              VNone true []) as [Hcold _].
  - discriminate.
  - exact (Hcold ∅ eq_refl eq_refl eq_refl).
Defined.

Lemma migrate_server_unresolved_flavor_witness :
  let env := Fixtures.cloud [] None in
  let d := [("uuid", VStr "u1")] in
  migrate_server env (InstLegacy d) (mkHint None (Some ∅)) false false
    (VDict [("id", VInt 99)]) false false VNone true [] =
    (Raise (mkExn (OtherException "FlavorNotFound") []), [],
     [EvFromDbObject d migrate_server_attrs; EvFlavorGetById (VInt 99)]).
Proof.
  intros env d.
  destruct (migrate_server_unresolved_flavor env (InstLegacy d)
              [("id", VInt 99)] (mkHint None (Some ∅)) false false false false
              VNone true [])
    as [_ Hlookup].
  - discriminate.
  - exact (Hlookup (VInt 99) _ eq_refl eq_refl).
Defined.

Lemma migrate_server_resize_without_filter_properties_witness :
  let env := Fixtures.cloud [] None in
  let i := Fixtures.server "u1" (Some vm_states.ACTIVE) in
  outcome
    (migrate_server env (InstObj i) (mkHint (Some "compute2") None) false false
       (VFlavor Fixtures.m1_large) false false VNone true []) =
    Raise (mkExn KeyError [("key", "filter_properties")]).
Proof.
  intros env i.
  rewrite (migrate_server_resize_without_filter_properties env i
             Fixtures.m1_large (mkHint (Some "compute2") None) false false
             VNone true [] eq_refl).
  reflexivity.
Defined.

Section BuildExtras.

Variable env : Env.

Lemma survivors_length pairs :
  (length (survivors env pairs) ≤ length pairs)%nat.
Proof.
  unfold survivors. induction pairs as [|p pairs IH]; [reflexivity|].
  simpl in *. destruct (instance_refresh env p.1); simpl in *.
  - apply le_n_S, IH.
  - apply Nat.le_le_succ_r, IH.
Qed.

(** The store and the trace when the flavor step of [build_instances]
    goes through. *)
Lemma run_build_instances_flavor_store fp fp0 h :
  batch_filter_properties env fp = Ok fp0 →
  ∃ pre,
    build_instances_flavor env (length h) (h ++ [fp]) =
      (Ok (batch_ref fp (length h)),
       if has_legacy_instance_type fp then h ++ [fp; fp0] else h ++ [fp],
       pre) ∧
    (has_legacy_instance_type fp = false → fp0 = fp) ∧
    build_dispatches pre = [] ∧
    existsb is_set_vm_state pre = false ∧
    existsb is_scheduler_call pre = false.
Proof.
  intros Hfp.
  unfold build_instances_flavor, batch_filter_properties, batch_ref,
    has_legacy_instance_type in *.
  unfold bind at 1.
  rewrite (run_deref (length h) (h ++ [fp]) fp)
    by (apply list_lookup_middle; reflexivity).
  destruct (truthy (default VNone (fp !! "instance_type")) &&
            negb (is_flavor_object (default VNone (fp !! "instance_type")))).
  - destruct (default VNone (fp !! "instance_type")) as [| | | | |d|];
      try discriminate.
    unfold getitem.
    destruct (assoc "id" d) as [fid|]; [|discriminate].
    destruct (flavor_get_by_id env fid) as [f|e] eqn:Hlookup; [|discriminate].
    injection Hfp as <-.
    unfold_monad. simpl. rewrite Hlookup. simpl.
    unfold alloc. simpl.
    replace (length (h ++ [fp])) with (S (length h))
      by (rewrite length_app; simpl; lia).
    rewrite <- app_assoc. simpl.
    eexists. split; [reflexivity|]. repeat split. discriminate.
  - injection Hfp as <-. unfold ret. eexists. split; [reflexivity|].
    repeat split.
Qed.

(** [build_instances] up to the dispatch loop, when placement succeeds. *)
Lemma run_build_instances_placed instances image fp fp0 fpb ap inj rn sg
    hosts h :
  let rs := build_request_spec env image instances None in
  let r := batch_ref fp (length h) in
  batch_filter_properties env fp = Ok fp0 →
  batch_placement env rs fp0 instances = (fpb, Ok hosts) →
  ∃ h2 pre,
    h2 !! r = Some fpb ∧ length h2 = S r ∧
    h2 !! length h =
      Some (if has_legacy_instance_type fp then fp else fpb) ∧
    build_dispatches pre = [] ∧
    existsb is_set_vm_state pre = false ∧
    build_instances env instances image fp ap inj rn sg h =
      let '(res, h', t) :=
        for_each (zip instances hosts)
          (build_one env image rs r ap inj (normalized_networks rn) sg) h2 in
      (res, h', pre ++ t).
Proof.
  intros rs r Hfp Hplace.
  destruct (run_build_instances_flavor_store fp fp0 h Hfp)
    as (pre1 & Hrun1 & Hsame & Hd1 & Hs1 & _).
  fold r in Hrun1.
  set (h1 := if has_legacy_instance_type fp then h ++ [fp; fp0]
             else h ++ [fp]) in *.
  assert (Hr : h1 !! r = Some fp0 ∧ length h1 = S r ∧
               (has_legacy_instance_type fp = true → r ≠ length h) ∧
               h1 !! length h = Some fp).
  { subst h1 r. unfold batch_ref. fold (has_legacy_instance_type fp).
    destruct (has_legacy_instance_type fp).
    - rewrite length_app. simpl.
      split.
      { change (h ++ [fp; fp0]) with (h ++ [fp] ++ [fp0]).
        rewrite app_assoc. apply list_lookup_middle.
        rewrite length_app. simpl. lia. }
      split; [lia|]. split; [intros _; lia|].
      change (h ++ [fp; fp0]) with (h ++ fp :: [fp0]).
      apply list_lookup_middle. reflexivity.
    - rewrite (Hsame eq_refl), length_app. simpl.
      split; [apply list_lookup_middle; reflexivity|].
      split; [lia|]. split; [discriminate|].
      apply list_lookup_middle. reflexivity. }
  destruct Hr as (Hr & Hlen & Hne & Hkeep).
  destruct (run_build_instances_select env rs r h1 fp0 instances Hr)
    as (tr2 & Hrun2 & Hd2 & Hs2).
  rewrite Hplace in Hrun2. simpl in Hrun2.
  exists (<[r := fpb]> h1), (pre1 ++ tr2).
  split; [apply (lookup_insert_same h1 r fp0 fpb Hr)|].
  split; [rewrite length_insert; exact Hlen|].
  split.
  { destruct (has_legacy_instance_type fp) eqn:Hleg.
    - rewrite list_lookup_insert_ne by (apply Hne; reflexivity). exact Hkeep.
    - assert (r = length h) as ->.
      { subst r. unfold batch_ref. fold (has_legacy_instance_type fp).
        rewrite Hleg. reflexivity. }
      apply list_lookup_insert_eq. lia. }
  split; [rewrite build_dispatches_app, Hd1, Hd2; reflexivity|].
  split; [rewrite existsb_app, Hs1, Hs2; reflexivity|].
  unfold build_instances. fold rs. rewrite networks_normalized.
  erewrite run_bind by (apply run_alloc).
  erewrite run_bind by (exact Hrun1).
  erewrite run_bind.
  2:{ erewrite run_try_ok; [reflexivity|].
      erewrite run_bind by (exact Hrun2). reflexivity. }
  cbv beta iota.
  destruct (for_each _ _ _) as [[res h'] t]. simpl.
  rewrite app_nil_r, app_assoc. reflexivity.
Qed.

(** X7. After a successful placement, instances and hosts are paired by
    position: every [build_and_run_instance] cast is for the refreshed
    instance at some position of the batch and goes to the host, node and
    limits at the same position of the scheduler's answer. There are never
    more casts than hosts or than instances, so an instance beyond the
    hosts returned is left without a cast; and no instance state is
    written on this path. *)
Theorem build_instances_pairs_by_position
    (instances : list NovaInstance) (image : PyVal)
    (fp fp0 fpb : gmap string PyVal) (ap inj : PyVal)
    (rn : RequestedNetworks) (sg : PyVal) (hosts : list HostState)
    (h : list (gmap string PyVal)) :
  let rs := build_request_spec env image instances None in
  batch_filter_properties env fp = Ok fp0 →
  batch_placement env rs fp0 instances = (fpb, Ok hosts) →
  Forall (λ p, refreshes_or_gone env p.1) (zip instances hosts) →
  let out := build_instances env instances image fp ap inj rn sg h in
  let casts := build_dispatches (trace out) in
  occurrences is_set_vm_state (trace out) = 0%nat ∧
  (length casts ≤ length hosts)%nat ∧
  (length casts ≤ length instances)%nat ∧
  ∀ a, a ∈ casts →
       ∃ k i hs,
         instances !! k = Some i ∧ hosts !! k = Some hs ∧
         instance_refresh env i = Ok (bar_instance a) ∧
         bar_host a = hs_host hs ∧ bar_node a = hs_nodename hs ∧
         bar_limits a = hs_limits hs.
Proof.
  intros rs Hfp Hplace Hall out casts.
  destruct (run_build_instances_placed instances image fp fp0 fpb ap inj rn sg
              hosts h Hfp Hplace)
    as (h2 & pre & Hr & Hlen & _ & Hd & Hs & Hrun).
  fold rs in Hrun.
  destruct (run_build_loop env image rs _ ap inj (normalized_networks rn) sg
              fpb (zip instances hosts) h2 Hr Hall)
    as (tr & Hloop & Hcasts & Hquiet).
  rewrite Hloop in Hrun. subst casts out. rewrite Hrun.
  unfold trace. cbn [snd].
  rewrite build_dispatches_app, Hd, Hcasts. cbn [app].
  pose proof (survivors_length (zip instances hosts)) as Hsurv.
  rewrite length_zip_with in Hsurv.
  split; [|split; [|split]].
  - apply occurrences_none. rewrite existsb_app, Hs, Hquiet. reflexivity.
  - rewrite length_imap. lia.
  - rewrite length_imap. lia.
  - intros a Ha.
    apply elem_of_lookup_imap in Ha as (n & p & -> & Hp).
    apply list_elem_of_lookup_2, list_elem_of_omap in Hp
      as ([i hs] & Hin & Hrefresh).
    apply list_elem_of_lookup_1 in Hin as [k Hk].
    apply lookup_zip_with_Some in Hk as (i' & hs' & [= -> ->] & Hi & Hhs).
    simpl in Hrefresh.
    destruct (instance_refresh env i') as [i2|e] eqn:Href; [|discriminate].
    injection Hrefresh as <-.
    exists k, i', hs'. repeat split; assumption.
Qed.

(** The loop stops at the first instance whose [refresh] raises anything
    but not-found. *)
Lemma run_build_loop_abort image rs r ap inj rn sg fpb i hs e after before :
  ∀ h,
    h !! r = Some fpb →
    Forall (λ p, refreshes_or_gone env p.1) before →
    instance_refresh env i = Raise e →
    isinstance e [InstanceNotFound; InstanceInfoCacheNotFound] = false →
    ∃ h' tr,
      for_each (before ++ (i, hs) :: after)
        (build_one env image rs r ap inj rn sg) h = (Raise e, h', tr) ∧
      build_dispatches tr =
        imap (λ k p, build_and_run_for env image rs fpb ap inj rn sg
                       (length h + k) p)
          (survivors env before) ∧
      existsb is_set_vm_state tr = false.
Proof.
  induction before as [|[i0 hs0] before IH]; intros h Hr Hall Href Hother.
  - simpl.
    erewrite run_bind_raise.
    2:{ unfold build_one, refresh.
        erewrite run_bind_raise; [reflexivity|].
        erewrite run_try_raise.
        2:{ erewrite run_bind_raise; [reflexivity|].
            erewrite run_bind by reflexivity. rewrite Href. reflexivity. }
        rewrite Hother. reflexivity. }
    eexists _, _. split; [reflexivity|]. split; reflexivity.
  - apply Forall_cons in Hall as [Hi Hall].
    unfold refreshes_or_gone in Hi. simpl in Hi. simpl.
    unfold survivors. simpl. fold (survivors env before).
    destruct (instance_refresh env i0) as [i0'|e0] eqn:Href0.
    + destruct (run_build_one_there env image rs r ap inj rn sg i0 i0' hs0 h
                  fpb Href0 Hr) as (t1 & Hrun1 & Hd1 & Hs1).
      destruct (IH (h ++ [populate_filter_properties env fpb hs0])
                  (lookup_app_l_Some _ _ _ _ Hr) Hall Href Hother)
        as (h' & t2 & Hrun2 & Hd2 & Hs2).
      erewrite run_bind by (exact Hrun1). rewrite Hrun2.
      eexists _, _. split; [reflexivity|].
      rewrite build_dispatches_app, existsb_app, Hd1, Hd2, Hs1, Hs2. simpl.
      split; [|reflexivity]. rewrite Nat.add_0_r. f_equal.
      apply imap_ext. intros k p _. simpl. rewrite length_app. simpl.
      f_equal. lia.
    + destruct (IH h Hr Hall Href Hother) as (h' & t2 & Hrun2 & Hd2 & Hs2).
      erewrite run_bind
        by (exact (run_build_one_gone env image rs r ap inj rn sg i0 hs0 h e0
                     Href0 Hi)).
      rewrite Hrun2. eexists _, _. split; [reflexivity|].
      simpl. split; assumption.
Qed.

Lemma dispatch_instances image rs fpb ap inj rn sg l :
  ∀ n,
    bar_instance <$>
      imap (λ k p, build_and_run_for env image rs fpb ap inj rn sg (n + k) p) l
    = l.*1.
Proof.
  induction l as [|p l IH]; intros n; [reflexivity|].
  rewrite imap_cons, !fmap_cons. f_equal.
  rewrite <- (IH (S n)). f_equal. apply imap_ext. intros k q _. simpl.
  f_equal. lia.
Qed.

Lemma dispatch_hosts image rs fpb ap inj rn sg l :
  ∀ n,
    bar_host <$>
      imap (λ k p, build_and_run_for env image rs fpb ap inj rn sg (n + k) p) l
    = (λ p, hs_host p.2) <$> l.
Proof.
  induction l as [|p l IH]; intros n; [reflexivity|].
  rewrite imap_cons, !fmap_cons. f_equal.
  rewrite <- (IH (S n)). f_equal. apply imap_ext. intros k q _. simpl.
  f_equal. lia.
Qed.

(** X8. A [refresh] that fails with an exception the not-found clause does
    not catch (one that is neither InstanceNotFound nor
    InstanceInfoCacheNotFound nor of a class derived from them) is not
    tolerated: the exception leaves [build_instances] at that pair. The
    pairs before it have had their casts (those still there), the pairs
    after it get none, and no instance state is written. *)
Theorem build_instances_refresh_failure_aborts
    (instances : list NovaInstance) (image : PyVal)
    (fp fp0 fpb : gmap string PyVal) (ap inj : PyVal)
    (rn : RequestedNetworks) (sg : PyVal) (hosts : list HostState)
    (before after : list (NovaInstance * HostState))
    (i : NovaInstance) (hs : HostState) (e : Exn)
    (h : list (gmap string PyVal)) :
  let rs := build_request_spec env image instances None in
  batch_filter_properties env fp = Ok fp0 →
  batch_placement env rs fp0 instances = (fpb, Ok hosts) →
  zip instances hosts = before ++ (i, hs) :: after →
  Forall (λ p, refreshes_or_gone env p.1) before →
  instance_refresh env i = Raise e →
  isinstance e [InstanceNotFound; InstanceInfoCacheNotFound] = false →
  let out := build_instances env instances image fp ap inj rn sg h in
  outcome out = Raise e ∧
  (bar_instance <$> build_dispatches (trace out)) = (survivors env before).*1 ∧
  (bar_host <$> build_dispatches (trace out)) =
    (λ p, hs_host p.2) <$> survivors env before ∧
  occurrences is_set_vm_state (trace out) = 0%nat.
Proof.
  intros rs Hfp Hplace Hzip Hall Href Hother out.
  destruct (run_build_instances_placed instances image fp fp0 fpb ap inj rn sg
              hosts h Hfp Hplace)
    as (h2 & pre & Hr & Hlen & _ & Hd & Hs & Hrun).
  fold rs in Hrun. rewrite Hzip in Hrun.
  destruct (run_build_loop_abort image rs _ ap inj (normalized_networks rn) sg
              fpb i hs e after before h2 Hr Hall Href Hother)
    as (h' & tr & Hloop & Hcasts & Hquiet).
  rewrite Hloop in Hrun. subst out. rewrite Hrun.
  unfold outcome, trace. cbn [fst snd].
  rewrite build_dispatches_app, Hd, Hcasts. cbn [app].
  split; [reflexivity|].
  rewrite dispatch_instances, dispatch_hosts.
  split; [reflexivity|]. split; [reflexivity|].
  apply occurrences_none. rewrite existsb_app, Hs, Hquiet. reflexivity.
Qed.

(** The dispatch loop only ever adds objects at the end of the store. *)
Lemma build_one_store image rs r ap inj rn sg p h :
  ∃ ext, store (build_one env image rs r ap inj rn sg p h) = h ++ ext.
Proof.
  destruct p as [i hs].
  unfold build_one, refresh, deepcopy, populate_filter_properties_at.
  unfold_monad. unfold alloc, deref, assign. simpl.
  destruct (instance_refresh env i) as [i'|e]; simpl.
  - rewrite insert_app_r_alt, Nat.sub_diag by lia. simpl. eauto.
  - destruct (isinstance e _); simpl; exists []; rewrite app_nil_r;
      reflexivity.
Qed.

Lemma build_loop_store image rs r ap inj rn sg pairs :
  ∀ h, ∃ ext,
    store (for_each pairs (build_one env image rs r ap inj rn sg) h) = h ++ ext.
Proof.
  induction pairs as [|p pairs IH]; intros h.
  { exists []. rewrite app_nil_r. reflexivity. }
  destruct (build_one_store image rs r ap inj rn sg p h) as [ext1 H1].
  simpl. unfold bind.
  destruct (build_one env image rs r ap inj rn sg p h) as [[[[]|e] h1] t1];
    unfold store in H1; simpl in H1; subst h1.
  - destruct (IH (h ++ ext1)) as [ext2 H2].
    destruct (for_each pairs _ (h ++ ext1)) as [[res h2] t2].
    unfold store in *. simpl in *. subst h2.
    exists (ext1 ++ ext2). rewrite app_assoc. reflexivity.
  - exists ext1. reflexivity.
Qed.

(** [build_instances] when placement fails. *)
Lemma run_build_instances_unplaced instances image fp fp0 fpb ap inj rn sg
    exc h :
  let rs := build_request_spec env image instances None in
  batch_filter_properties env fp = Ok fp0 →
  batch_placement env rs fp0 instances = (fpb, Raise exc) →
  ∃ h2 pre,
    h2 !! length h =
      Some (if has_legacy_instance_type fp then fp else fpb) ∧
    build_instances env instances image fp ap inj rn sg h =
      (Ok tt, h2,
       pre ++
       ((λ i, EvSetVmStateAndNotify (uuid i) "compute_task" "build_instances"
                (mkUpdates (Some vm_states.ERROR) None None) exc rs)
          <$> instances)).
Proof.
  intros rs Hfp Hplace.
  destruct (run_build_instances_flavor_store fp fp0 h Hfp)
    as (pre1 & Hrun1 & Hsame & _).
  set (r := batch_ref fp (length h)) in *.
  set (h1 := if has_legacy_instance_type fp then h ++ [fp; fp0]
             else h ++ [fp]) in *.
  assert (Hr : h1 !! r = Some fp0 ∧
               (has_legacy_instance_type fp = true → r ≠ length h) ∧
               (has_legacy_instance_type fp = false → r = length h) ∧
               h1 !! length h = Some fp).
  { subst h1 r. unfold batch_ref. fold (has_legacy_instance_type fp).
    destruct (has_legacy_instance_type fp).
    - split.
      { change (h ++ [fp; fp0]) with (h ++ [fp] ++ [fp0]).
        rewrite app_assoc. apply list_lookup_middle.
        rewrite length_app. simpl. lia. }
      split; [intros _; lia|]. split; [discriminate|].
      change (h ++ [fp; fp0]) with (h ++ fp :: [fp0]).
      apply list_lookup_middle. reflexivity.
    - rewrite (Hsame eq_refl).
      split; [apply list_lookup_middle; reflexivity|].
      split; [discriminate|]. split; [reflexivity|].
      apply list_lookup_middle. reflexivity. }
  destruct Hr as (Hr & Hne & Heq & Hkeep).
  destruct (run_build_instances_select env rs r h1 fp0 instances Hr)
    as (tr2 & Hrun2 & _).
  rewrite Hplace in Hrun2. simpl in Hrun2.
  exists (<[r := fpb]> h1), (pre1 ++ tr2). split.
  { destruct (has_legacy_instance_type fp) eqn:Hleg.
    - rewrite list_lookup_insert_ne by (apply Hne; reflexivity). exact Hkeep.
    - rewrite (Heq eq_refl). apply list_lookup_insert_eq.
      eapply lookup_lt_Some. rewrite <- (Heq eq_refl). exact Hr. }
  unfold build_instances. fold rs.
  erewrite run_bind by (apply run_alloc).
  erewrite run_bind by (exact Hrun1).
  erewrite run_bind.
  2:{ erewrite run_try_raise.
      2:{ erewrite run_bind_raise by (exact Hrun2). reflexivity. }
      unfold _set_vm_state_and_notify, set_vm_state_and_notify.
      erewrite run_bind by (apply for_each_emit). reflexivity. }
  unfold ret. simpl. rewrite !app_nil_r, <- app_assoc. reflexivity.
Qed.

(** X9. Without an old-style ['instance_type'] no copy of the dictionary
    received as [filter_properties] is made: it is the one group setup and
    retry population change in place, and at the end of the call it is as
    they left it. The per-instance annotations never reach it, however the
    call ends. *)
Theorem build_instances_received_dictionary
    (instances : list NovaInstance) (image : PyVal)
    (fp : gmap string PyVal) (ap inj : PyVal)
    (rn : RequestedNetworks) (sg : PyVal) (h : list (gmap string PyVal)) :
  let rs := build_request_spec env image instances None in
  has_legacy_instance_type fp = false →
  let out := build_instances env instances image fp ap inj rn sg h in
  store out !! length h = Some (batch_placement env rs fp instances).1.
Proof.
  intros rs Hleg out. subst out.
  assert (Hfp : batch_filter_properties env fp = Ok fp).
  { unfold batch_filter_properties.
    unfold has_legacy_instance_type in Hleg. rewrite Hleg. reflexivity. }
  destruct (batch_placement env rs fp instances) as [fpb [hosts|exc]]
    eqn:Hplace.
  - destruct (run_build_instances_placed instances image fp fp fpb ap inj rn
                sg hosts h Hfp Hplace)
      as (h2 & pre & _ & _ & Hkeep & _ & _ & Hrun).
    fold rs in Hrun. rewrite Hleg in Hkeep.
    destruct (build_loop_store image rs (batch_ref fp (length h)) ap inj
                (normalized_networks rn) sg (zip instances hosts) h2)
      as [ext Hext].
    rewrite Hrun.
    destruct (for_each _ _ h2) as [[res h'] t].
    unfold store in *. simpl in *. subst h'.
    apply lookup_app_l_Some. exact Hkeep.
  - destruct (run_build_instances_unplaced instances image fp fp fpb ap inj rn
                sg exc h Hfp Hplace) as (h2 & pre & Hkeep & Hrun).
    rewrite Hrun, Hleg in *. exact Hkeep.
Qed.

(** X10. The flavor lookup of [build_instances] is outside its [try]
    block: when the old-style ['instance_type'] cannot be resolved, the
    exception leaves the call, and the flavor lookup is all that has
    happened: no scheduler call, no cast and no write of any instance's
    state, so the instances are not put into ERROR. *)
Theorem build_instances_unresolved_flavor
    (instances : list NovaInstance) (image : PyVal)
    (fp : gmap string PyVal) (ap inj : PyVal)
    (rn : RequestedNetworks) (sg : PyVal) (e : Exn)
    (h : list (gmap string PyVal)) :
  batch_filter_properties env fp = Raise e →
  let out := build_instances env instances image fp ap inj rn sg h in
  outcome out = Raise e ∧
  forallb is_flavor_lookup (trace out) = true.
Proof.
  intros Hfp out. subst out.
  assert (Hrun : ∃ h' t,
             build_instances_flavor env (length h) (h ++ [fp]) =
               (Raise e, h', t) ∧
             forallb is_flavor_lookup t = true).
  { unfold build_instances_flavor, batch_filter_properties in *.
    erewrite run_bind
      by (apply run_deref, list_lookup_middle; reflexivity).
    destruct (truthy (default VNone (fp !! "instance_type")) &&
              negb (is_flavor_object (default VNone (fp !! "instance_type"))));
      [|discriminate].
    unfold getitem.
    destruct (default VNone (fp !! "instance_type"));
      try (injection Hfp as <-; unfold_monad; simpl; eauto).
    destruct (assoc "id" _) as [fid|];
      [|injection Hfp as <-; unfold_monad; simpl; eauto].
    destruct (flavor_get_by_id env fid) as [f|e'] eqn:Hlookup;
      [discriminate|].
    injection Hfp as <-.
    unfold_monad. simpl. rewrite Hlookup. simpl. eauto. }
  destruct Hrun as (h' & t & Hrun & Ht).
  unfold build_instances.
  erewrite run_bind by (apply run_alloc).
  erewrite run_bind_raise by (exact Hrun).
  split; [reflexivity|]. exact Ht.
Qed.

End BuildExtras.

Lemma build_instances_pairs_by_position_witness :
  let env := Fixtures.cloud_with [] None (Ok MoreFixtures.two_hosts) ["u2"] [] in
  let batch := [Fixtures.server "u1" None; Fixtures.server "u2" None;
                Fixtures.server "u3" None] in
  let out := build_instances env batch VNone ∅ VNone VNone NetworksNone VNone [] in
  let casts := build_dispatches (trace out) in
  occurrences is_set_vm_state (trace out) = 0%nat ∧
  (length casts ≤ 2)%nat ∧
  (length casts ≤ 3)%nat ∧
  ∀ a, a ∈ casts →
       ∃ k i hs,
         batch !! k = Some i ∧ MoreFixtures.two_hosts !! k = Some hs ∧
         instance_refresh env i = Ok (bar_instance a) ∧
         bar_host a = hs_host hs ∧ bar_node a = hs_nodename hs ∧
         bar_limits a = hs_limits hs.
Proof.
  intros env batch.
  apply (build_instances_pairs_by_position env batch VNone ∅ ∅
           (batch_placement env (build_request_spec env VNone batch None) ∅
              batch).1
           VNone VNone NetworksNone VNone MoreFixtures.two_hosts []).
  - reflexivity.
  - reflexivity.
  - repeat constructor.
Defined.

Lemma build_instances_refresh_failure_aborts_witness :
  let env := MoreFixtures.cloud_db_down (Ok Fixtures.three_hosts) ["u2"] in
  let s1 := Fixtures.server "u1" None in
  let s2 := Fixtures.server "u2" None in
  let s3 := Fixtures.server "u3" None in
  let out :=
    build_instances env [s1; s2; s3] VNone ∅ VNone VNone NetworksNone VNone []
  in
  outcome out = Raise MoreFixtures.db_failure ∧
  (bar_instance <$> build_dispatches (trace out)) = [s1] ∧
  (bar_host <$> build_dispatches (trace out)) = ["compute2"] ∧
  occurrences is_set_vm_state (trace out) = 0%nat.
Proof.
  intros env s1 s2 s3.
  apply (build_instances_refresh_failure_aborts env [s1; s2; s3] VNone ∅ ∅
           (batch_placement env
              (build_request_spec env VNone [s1; s2; s3] None) ∅
              [s1; s2; s3]).1
           VNone VNone NetworksNone VNone Fixtures.three_hosts
           [(s1, Fixtures.host_state "compute2")]
           [(s3, Fixtures.host_state "compute4")]
           s2 (Fixtures.host_state "compute3") MoreFixtures.db_failure []).
  - reflexivity.
  - reflexivity.
  - reflexivity.
  - repeat constructor.
  - reflexivity.
  - reflexivity.
Defined.

Lemma build_instances_received_dictionary_witness :
  let env := Fixtures.cloud_with [] None (Ok Fixtures.three_hosts) ["u2"] [] in
  let batch := [Fixtures.server "u1" None; Fixtures.server "u2" None] in
  let fp : gmap string PyVal := {[ "instance_type" := VFlavor Fixtures.m1_large ]} in
  let out := build_instances env batch VNone fp VNone VNone NetworksNone VNone [] in
  store out !! 0%nat =
    Some (batch_placement env (build_request_spec env VNone batch None) fp
            batch).1.
Proof.
  intros env batch fp.
  apply (build_instances_received_dictionary env batch VNone fp VNone VNone
           NetworksNone VNone []).
  reflexivity.
Defined.

Lemma build_instances_unresolved_flavor_witness :
  let env := Fixtures.cloud [] None in
  let batch := [Fixtures.server "u1" None] in
  let fp := MoreFixtures.legacy_properties 9 in
  let out := build_instances env batch VNone fp VNone VNone NetworksNone VNone [] in
  outcome out = Raise (mkExn (OtherException "FlavorNotFound") []) ∧
  forallb is_flavor_lookup (trace out) = true.
Proof.
  intros env batch fp.
  apply (build_instances_unresolved_flavor env batch VNone fp VNone VNone
           NetworksNone VNone (mkExn (OtherException "FlavorNotFound") []) []).
  reflexivity.
Defined.

Section UnshelveExtras.

Variable env : Env.

Lemma run_unshelve_schedule_empty instance image h fp :
  unshelve_placement env instance image = (fp, Ok []) →
  ∃ h' tr,
    unshelve_schedule env instance image h =
      (Raise (mkExn IndexError []), h', tr) ∧
    existsb (λ ev, is_instance_save ev || is_unshelve_dispatch ev) tr = false.
Proof.
  unfold unshelve_placement, unshelve_schedule, EventReporter.
  intros Hplace.
  erewrite run_bind by (apply run_alloc).
  pose proof (run_populate_retry_at env (length h) (uuid instance) (h ++ [∅]) ∅
                (list_lookup_middle _ _ _ _ eq_refl)) as Hretry.
  destruct (populate_retry env ∅ (uuid instance)) as [fp1 [e1|]];
    simpl in Hretry; [discriminate|].
  erewrite run_bind by (exact Hretry).
  rewrite insert_app_r_alt, Nat.sub_diag by lia. simpl.
  pose proof (run_schedule_instances env image (length h) instance
                (h ++ [fp1]) fp1 (list_lookup_middle _ _ _ _ eq_refl))
    as Hsched.
  simpl in Hsched.
  destruct (setup_instance_group env _ fp1) as [fp2 [e2|]]; simpl in Hsched;
    [discriminate|].
  injection Hplace as -> Hsel. rewrite Hsel in Hsched.
  erewrite run_bind by (exact Hsched).
  erewrite run_bind_raise by reflexivity. simpl.
  eexists _, _. split; reflexivity.
Qed.

Lemma run_unshelve_schedule_fails instance image h ex :
  unshelve_schedule_failure env instance image = Some ex →
  ∃ h' tr,
    unshelve_schedule env instance image h = (Raise ex, h', tr) ∧
    existsb (λ ev, is_instance_save ev || is_unshelve_dispatch ev) tr = false.
Proof.
  unfold unshelve_schedule_failure.
  destruct (unshelve_placement env instance image) as [fp [[|hs rest]|e]]
    eqn:Hplace; simpl; intros Hex; try discriminate;
    injection Hex as <-.
  - exact (run_unshelve_schedule_empty instance image h fp Hplace).
  - exact (run_unshelve_schedule_raise env instance image h fp e Hplace).
Qed.

Lemma no_save_no_dispatch tr :
  existsb (λ ev, is_instance_save ev || is_unshelve_dispatch ev) tr = false →
  existsb is_unshelve_dispatch tr = false.
Proof.
  induction tr as [|ev tr IH]; [reflexivity|].
  simpl. intros Htr. apply orb_false_iff in Htr as [Hev Htr].
  apply orb_false_iff in Hev as [_ ->]. simpl. auto.
Qed.

(** X11. For an instance in SHELVED_OFFLOADED whose image step went
    through, a scheduling failure that the clause for NoValidHost and
    UnsupportedPolicyException does not catch (it is of neither class nor
    of one derived from them) leaves [unshelve_instance] as the same
    exception, after the instance has been saved with task_state cleared
    and the error logged. That includes the scheduler answering with no
    host at all: [hosts[0]] then raises IndexError inside the [try]
    block. The save is the only one and no [unshelve_instance] cast is
    made. *)
Theorem unshelve_instance_other_failure
    (instance : NovaInstance) (image : PyVal) (ex : Exn)
    (h : list (gmap string PyVal)) :
  vm_state instance = Some vm_states.SHELVED_OFFLOADED →
  shelved_image env instance = Ok image →
  unshelve_schedule_failure env instance image = Some ex →
  isinstance ex [NoValidHost; UnsupportedPolicyException] = false →
  let out := unshelve_instance env instance h in
  outcome out = Raise ex ∧
  (∃ pre,
     trace out =
       pre ++ [ EvInstanceSave (set_task_state None instance) None;
                EvLog "error" "Unshelve attempted but an error has occurred" ] ∧
     existsb (λ ev, is_instance_save ev || is_unshelve_dispatch ev) pre
       = false) ∧
  existsb is_unshelve_dispatch (trace out) = false.
Proof.
  intros Hvm Himg Hfail Hex out. subst out.
  unfold unshelve_instance.
  rewrite bool_decide_eq_false_2 by (rewrite Hvm; discriminate).
  rewrite bool_decide_eq_true_2 by exact Hvm.
  destruct (run_unshelve_image env instance image h Himg)
    as (pre & Hrun & Hpre).
  destruct (run_unshelve_schedule_fails instance image h ex Hfail)
    as (h' & tr & Hsched & Htr).
  erewrite run_bind by (exact Hrun).
  erewrite run_try_raise by (exact Hsched).
  rewrite Hex. unfold save_and_reraise_exception. unfold_monad.
  cbn [fst snd]. simpl.
  split; [reflexivity|]. split.
  - exists (pre ++ tr). rewrite <- app_assoc. split; [reflexivity|].
    rewrite existsb_app, Hpre, Htr. reflexivity.
  - rewrite !existsb_app. simpl.
    rewrite (no_save_no_dispatch pre Hpre), (no_save_no_dispatch tr Htr).
    reflexivity.
Qed.

(** X12. Only ImageNotFound, with the classes derived from it, is handled
    in the image step of [unshelve_instance]: any other failure of the
    image lookup leaves the call as it is, and the lookup is all that has happened. The instance
    is not saved, so it is not put into ERROR and its task_state is not
    cleared, and nothing is scheduled. *)
Theorem unshelve_instance_image_lookup_error
    (instance : NovaInstance) (image_id : string) (e : Exn)
    (h : list (gmap string PyVal)) :
  vm_state instance = Some vm_states.SHELVED_OFFLOADED →
  system_metadata instance !! "shelved_image_id" = Some image_id →
  image_id ≠ "" →
  image_get env image_id = Raise e →
  isinstance e [ImageNotFound] = false →
  unshelve_instance env instance h =
    (Raise e, h,
     [ EvEventStart "get_image_info" (uuid instance);
       EvImageGet image_id;
       EvEventFinish "get_image_info" (uuid instance) (Some e) ]).
Proof.
  intros Hvm Hmeta Hid Hget Hin.
  unfold unshelve_instance.
  rewrite bool_decide_eq_false_2 by (rewrite Hvm; discriminate).
  rewrite bool_decide_eq_true_2 by exact Hvm.
  rewrite Hmeta. simpl.
  rewrite bool_decide_eq_false_2 by exact Hid. simpl.
  erewrite run_bind_raise; [reflexivity|].
  unfold unshelve_get_image, EventReporter, safe_image_show. simpl.
  rewrite bool_decide_eq_false_2 by exact Hid. simpl.
  erewrite run_try_raise.
  2:{ erewrite run_bind by reflexivity. rewrite Hget. reflexivity. }
  rewrite Hin. reflexivity.
Qed.

(** X13. A volume-backed instance has no ['shelved_image_id'] (or an empty
    one): [unshelve_instance] then makes no image lookup at all, and what
    it schedules and casts, it does with image [None]. *)
Theorem unshelve_instance_without_image
    (instance : NovaInstance) (fp : gmap string PyVal) (hs : HostState)
    (rest : list HostState) (h : list (gmap string PyVal)) :
  vm_state instance = Some vm_states.SHELVED_OFFLOADED →
  truthy_str (system_metadata instance !! "shelved_image_id") = false →
  unshelve_placement env instance VNone = (fp, Ok (hs :: rest)) →
  let out := unshelve_instance env instance h in
  occurrences is_image_get (trace out) = 0%nat ∧
  store out = h ++ [populate_filter_properties env fp hs] ∧
  EvUnshelveInstance instance (hs_host hs) VNone
    (populate_filter_properties env fp hs) (hs_nodename hs) ∈ trace out.
Proof.
  intros Hvm Hid Hplace out. subst out.
  unfold unshelve_instance.
  rewrite bool_decide_eq_false_2 by (rewrite Hvm; discriminate).
  rewrite bool_decide_eq_true_2 by exact Hvm.
  rewrite Hid.
  erewrite run_bind by reflexivity.
  erewrite run_try_ok
    by (exact (run_unshelve_schedule_ok env instance VNone h fp hs rest
                 Hplace)).
  unfold trace, store. cbn [fst snd app].
  split; [reflexivity|]. split; [reflexivity|].
  do 5 apply list_elem_of_further. apply list_elem_of_here.
Qed.

End UnshelveExtras.

Lemma unshelve_instance_other_failure_witness :
  let env := Fixtures.cloud_with [] None (Ok []) [] [] in
  let offloaded :=
    Fixtures.server_with "u3" (Some vm_states.SHELVED_OFFLOADED)
      {[ "shelved_image_id" := "img1" ]} in
  let out := unshelve_instance env offloaded [] in
  outcome out = Raise (mkExn IndexError []) ∧
  (∃ pre,
     trace out =
       pre ++ [ EvInstanceSave (set_task_state None offloaded) None;
                EvLog "error" "Unshelve attempted but an error has occurred" ] ∧
     existsb (λ ev, is_instance_save ev || is_unshelve_dispatch ev) pre
       = false) ∧
  existsb is_unshelve_dispatch (trace out) = false.
Proof.
  intros env offloaded.
  apply (unshelve_instance_other_failure env offloaded
           (VDict [("id", VStr "img1")]) (mkExn IndexError []) []).
  - reflexivity.
  - reflexivity.
  - reflexivity.
  - reflexivity.
Defined.

Lemma unshelve_instance_image_lookup_error_witness :
  let env := MoreFixtures.cloud_images_down (Ok Fixtures.three_hosts) in
  let offloaded :=
    Fixtures.server_with "u3" (Some vm_states.SHELVED_OFFLOADED)
      {[ "shelved_image_id" := "img1" ]} in
  let e := mkExn (OtherException "GlanceConnectionFailed") [] in
  unshelve_instance env offloaded [] =
    (Raise e, [],
     [ EvEventStart "get_image_info" "u3";
       EvImageGet "img1";
       EvEventFinish "get_image_info" "u3" (Some e) ]).
Proof.
  intros env offloaded e.
  apply (unshelve_instance_image_lookup_error env offloaded "img1" e []).
  - reflexivity.
  - reflexivity.
  - discriminate.
  - reflexivity.
  - reflexivity.
Defined.

Lemma unshelve_instance_without_image_witness :
  let env := Fixtures.cloud [] None in
  let offloaded := Fixtures.server "u5" (Some vm_states.SHELVED_OFFLOADED) in
  let chosen := Fixtures.host_state "compute2" in
  let fp := (unshelve_placement env offloaded VNone).1 in
  let out := unshelve_instance env offloaded [] in
  occurrences is_image_get (trace out) = 0%nat ∧
  store out = [populate_filter_properties env fp chosen] ∧
  EvUnshelveInstance offloaded "compute2" VNone
    (populate_filter_properties env fp chosen) "compute2-node" ∈ trace out.
Proof.
  intros env offloaded chosen fp.
  apply (unshelve_instance_without_image env offloaded fp chosen
           [Fixtures.host_state "compute3"; Fixtures.host_state "compute4"] []).
  - reflexivity.
  - reflexivity.
  - reflexivity.
Defined.

Section RebuildExtras.

Variable env : Env.

(** X14. A rebuild with a host given goes straight to that host: the usage
    notification and the cast are all there is inside the action event. No
    filter properties are created, and the scheduler is not called. *)
Theorem rebuild_instance_given_host
    (instance : NovaInstance)
    (orig_image_ref image_ref injected_files new_pass orig_sys_metadata
       bdms : PyVal)
    (recreate on_shared_storage preserve_ephemeral : bool)
    (to_host : option string) (h : list (gmap string PyVal)) :
  truthy_str to_host = true →
  rebuild_instance env instance orig_image_ref image_ref injected_files
    new_pass orig_sys_metadata bdms recreate on_shared_storage
    preserve_ephemeral to_host h =
    (Ok tt, h,
     [ EvEventStart "rebuild_server" (uuid instance);
       EvNotifyAboutInstanceUsage instance "rebuild.scheduled";
       rebuild_cast instance orig_image_ref image_ref injected_files
         new_pass orig_sys_metadata bdms recreate on_shared_storage
         preserve_ephemeral to_host;
       EvEventFinish "rebuild_server" (uuid instance) None ]).
Proof.
  intros Hgiven.
  unfold rebuild_instance, EventReporter. rewrite Hgiven. reflexivity.
Qed.

(** X15. Only NoValidHost and UnsupportedPolicyException, with the classes
    derived from them, are handled in the scheduling step of
    [rebuild_instance]. Any other failure, and with
    it the IndexError of [hosts.pop(0)] when the scheduler returns no host,
    leaves the call as it is: the scheduler calls are all that has
    happened inside the action event, so there is no state update, no
    usage notification and no rebuild cast. *)
Theorem rebuild_instance_unhandled_failure
    (instance : NovaInstance)
    (orig_image_ref image_ref injected_files new_pass orig_sys_metadata
       bdms : PyVal)
    (recreate on_shared_storage preserve_ephemeral : bool)
    (to_host : option string) (ex : Exn) (h : list (gmap string PyVal)) :
  truthy_str to_host = false →
  rebuild_schedule_failure env instance image_ref = Some ex →
  isinstance ex [NoValidHost; UnsupportedPolicyException] = false →
  let out :=
    rebuild_instance env instance orig_image_ref image_ref injected_files
      new_pass orig_sys_metadata bdms recreate on_shared_storage
      preserve_ephemeral to_host h in
  outcome out = Raise ex ∧
  trace out =
    EvEventStart "rebuild_server" (uuid instance) ::
    rebuild_schedule_events env instance image_ref ++
    [EvEventFinish "rebuild_server" (uuid instance) (Some ex)] ∧
  existsb is_set_vm_state (trace out) = false ∧
  occurrences is_usage_notification (trace out) = 0%nat ∧
  existsb is_rebuild_dispatch (trace out) = false.
Proof.
  intros Hno Hfail Hex out.
  pose proof (run_rebuild_select_host env instance image_ref h) as Hsel.
  pose proof (rebuild_schedule_events_quiet env instance image_ref)
    as [Hquiet1 Hquiet2].
  assert (Hi : isinstance ex [NoValidHost] = false ∧
               isinstance ex [UnsupportedPolicyException] = false).
  { rewrite !isinstance_cons in *. unfold isinstance in *. simpl in *.
    rewrite !orb_false_r in *. apply orb_false_iff in Hex. exact Hex. }
  destruct Hi as [Hi1 Hi2].
  assert (Hraise :
    match (rebuild_placement env instance image_ref).2 with
    | Ok (hs :: _) => Ok (Some (hs_host hs))
    | Ok [] => Raise (mkExn IndexError [])
    | Raise e => Raise e
    end = Raise ex).
  { unfold rebuild_schedule_failure in Hfail.
    destruct ((rebuild_placement env instance image_ref).2) as [[|hs rest]|e];
      try discriminate; injection Hfail as <-; reflexivity. }
  rewrite Hraise in Hsel.
  assert (Hrun :
    out =
      (Raise ex, h ++ [(rebuild_placement env instance image_ref).1],
       EvEventStart "rebuild_server" (uuid instance) ::
       rebuild_schedule_events env instance image_ref ++
       [EvEventFinish "rebuild_server" (uuid instance) (Some ex)])).
  { subst out. unfold rebuild_instance, EventReporter.
    rewrite Hno. simpl negb. cbv iota.
    unfold instance_host.
    fold (rebuild_filter_properties instance).
    fold (rebuild_request_spec env instance image_ref).
    erewrite run_bind_raise.
    2:{ erewrite run_bind by (apply run_alloc).
        erewrite run_try_raise by (exact Hsel).
        rewrite Hi1, Hi2. reflexivity. }
    cbn [app]. rewrite app_nil_r. reflexivity. }
  rewrite Hrun. unfold outcome, trace. cbn [fst snd].
  split; [reflexivity|]. split; [reflexivity|].
  split; [|split].
  - cbn [existsb is_set_vm_state]. rewrite existsb_app, Hquiet1. reflexivity.
  - apply occurrences_none. cbn [existsb is_usage_notification].
    rewrite existsb_app. cbn [existsb is_usage_notification].
    rewrite orb_false_r. cbn [orb].
    unfold rebuild_schedule_events.
    destruct (setup_instance_group env _ _) as [fp1 [e|]]; reflexivity.
  - cbn [existsb is_rebuild_dispatch]. rewrite existsb_app, Hquiet2.
    reflexivity.
Qed.

End RebuildExtras.

Lemma rebuild_instance_given_host_witness :
  let env := Fixtures.cloud [] None in
  let instance := Fixtures.server "u1" (Some vm_states.ACTIVE) in
  rebuild_instance env instance (VStr "img1") (VStr "img2") VNone VNone VNone
    VNone false false false (Some "compute7") [] =
    (Ok tt, [],
     [ EvEventStart "rebuild_server" "u1";
       EvNotifyAboutInstanceUsage instance "rebuild.scheduled";
       rebuild_cast instance (VStr "img1") (VStr "img2") VNone VNone VNone
         VNone false false false (Some "compute7");
       EvEventFinish "rebuild_server" "u1" None ]).
Proof.
  intros env instance.
  apply (rebuild_instance_given_host env instance (VStr "img1") (VStr "img2")
           VNone VNone VNone VNone false false false (Some "compute7") []).
  reflexivity.
Defined.

Lemma rebuild_instance_unhandled_failure_witness :
  let env := Fixtures.cloud_with [] None (Ok []) [] [] in
  let instance := Fixtures.server "u1" (Some vm_states.ACTIVE) in
  let ex := mkExn IndexError [] in
  let out :=
    rebuild_instance env instance (VStr "img1") (VStr "img2") VNone VNone
      VNone VNone true false false None [] in
  outcome out = Raise ex ∧
  trace out =
    EvEventStart "rebuild_server" "u1" ::
    rebuild_schedule_events env instance (VStr "img2") ++
    [EvEventFinish "rebuild_server" "u1" (Some ex)] ∧
  existsb is_set_vm_state (trace out) = false ∧
  occurrences is_usage_notification (trace out) = 0%nat ∧
  existsb is_rebuild_dispatch (trace out) = false.
Proof.
  intros env instance ex.
  apply (rebuild_instance_unhandled_failure env instance (VStr "img1")
           (VStr "img2") VNone VNone VNone VNone true false false None ex []).
  - reflexivity.
  - reflexivity.
  - reflexivity.
Defined.

(** ** Properties of the database proxy *)

Section InstanceUpdate.

Variable backend : Backend.

Lemma proxy_bind_ret_l {A B} (a : A) (f : A → Proxy B) :
  proxy_bind (proxy_ret a) f = f a.
Proof. unfold proxy_bind, proxy_ret. destruct (f a). reflexivity. Qed.

Lemma proxy_bind_ret_r {A} (m : Proxy A) :
  proxy_bind m proxy_ret = m.
Proof.
  destruct m as [[a|e] t]; unfold proxy_bind, proxy_ret; simpl;
    rewrite ?app_nil_r; reflexivity.
Qed.

(** The loop gets past a prefix of good items, converting them. *)
Lemma instance_update_items_prefix instance_uuid before rest :
  forallb (update_item_ok backend) before = true →
  instance_update_items backend instance_uuid (before ++ rest) =
    (do! rest' := instance_update_items backend instance_uuid rest in
     proxy_ret ((parsed_item backend <$> before) ++ rest')).
Proof.
  induction before as [|[key value] before IH]; intros Hok.
  { simpl. rewrite proxy_bind_ret_r. reflexivity. }
  simpl in Hok. apply andb_true_iff in Hok as [Hitem Hok].
  unfold update_item_ok, update_allowed in Hitem.
  apply andb_true_iff in Hitem as [Hkey Hparse].
  cbn [app instance_update_items fst snd] in *.
  rewrite Hkey. cbn [negb]. rewrite (IH Hok).
  assert (Hval :
    (if bool_decide (key ∈ datetime_fields) && is_string value then
       match parse_strtime backend (string_of value) with
       | Ok stamp => proxy_ret (Datetime stamp)
       | Raise e => proxy_raise e
       end
     else proxy_ret value) =
    proxy_ret (parsed_item backend (key, value)).2).
  { unfold parsed_item, is_timestamp_string in *. cbn [fst snd] in *.
    destruct (bool_decide (key ∈ datetime_fields) && is_string value);
      [|reflexivity].
    destruct (parse_strtime backend (string_of value)) as [stamp|e];
      [reflexivity|discriminate]. }
  rewrite Hval, proxy_bind_ret_l, fmap_cons.
  destruct (instance_update_items backend instance_uuid rest)
    as [[rest'|e] t]; unfold proxy_bind, proxy_ret; simpl;
    rewrite ?app_nil_r; reflexivity.
Qed.

Lemma run_proxy_expected_exceptions {A} classes (body : Proxy A) :
  proxy_expected_exceptions classes body =
    (expected_outcome classes body.1, body.2).
Proof.
  destruct body as [[a|e] t]; simpl; [reflexivity|].
  unfold as_expected. destruct (isinstance e classes); reflexivity.
Qed.

(** X17. [instance_update] stops at the first key that is not in
    [allowed_updates]: the attempt is logged and the loop raises KeyError
    naming the key, whatever the other items are. KeyError is one of the
    classes of the decorator, so what leaves the method is an
    [ExpectedException]; the log entry is its only call, and no instance is
    built or saved. *)
Theorem instance_update_unknown_key
    (instance_uuid : string) (before after : list (string * Field))
    (key : string) (value : Field) :
  forallb (update_item_ok backend) before = true →
  key ∉ allowed_updates →
  let updates := before ++ (key, value) :: after in
  instance_update_items backend instance_uuid updates =
    (Raise (unexpected_keyword key), [update_rejected_log instance_uuid key]) ∧
  instance_update backend instance_uuid updates =
    (Raise (mkExn (OtherException "ExpectedException") []),
     [update_rejected_log instance_uuid key]).
Proof.
  intros Hbefore Hkey updates. subst updates.
  assert (Hloop :
    instance_update_items backend instance_uuid
      (before ++ (key, value) :: after) =
      (Raise (unexpected_keyword key),
       [update_rejected_log instance_uuid key])).
  { rewrite (instance_update_items_prefix _ _ _ Hbefore).
    cbn [instance_update_items].
    rewrite bool_decide_eq_false_2 by exact Hkey. reflexivity. }
  split; [exact Hloop|].
  unfold instance_update. rewrite run_proxy_expected_exceptions, Hloop.
  reflexivity.
Qed.

(** X18. A timestamp that does not parse stops [instance_update] in the
    same way: the loop raises the exception of [parse_strtime], which
    leaves the method seen through the decorator (a ValueError as an
    [ExpectedException]); nothing is logged and nothing is saved. Only
    strings under ['launched_at'], ['terminated_at'] and ['updated_at']
    are parsed. *)
Theorem instance_update_bad_timestamp
    (instance_uuid : string) (before after : list (string * Field))
    (key stamp : string) (e : Exn) :
  forallb (update_item_ok backend) before = true →
  key ∈ datetime_fields →
  parse_strtime backend stamp = Raise e →
  let updates := before ++ (key, Raw (VStr stamp)) :: after in
  instance_update_items backend instance_uuid updates = (Raise e, []) ∧
  instance_update backend instance_uuid updates =
    (Raise (as_expected instance_update_expected e), []).
Proof.
  intros Hbefore Hkey Hparse updates. subst updates.
  assert (Hallowed : key ∈ allowed_updates).
  { apply (bool_decide_unpack _).
    repeat (apply elem_of_cons in Hkey as [->|Hkey]; [vm_compute; exact I|]).
    inversion Hkey. }
  assert (Hloop :
    instance_update_items backend instance_uuid
      (before ++ (key, Raw (VStr stamp)) :: after) = (Raise e, [])).
  { rewrite (instance_update_items_prefix _ _ _ Hbefore).
    cbn [instance_update_items].
    rewrite bool_decide_eq_true_2 by exact Hallowed.
    rewrite bool_decide_eq_true_2 by exact Hkey.
    cbn [negb andb is_string string_of]. rewrite Hparse. reflexivity. }
  split; [exact Hloop|].
  unfold instance_update. rewrite run_proxy_expected_exceptions, Hloop.
  reflexivity.
Qed.

(** X19. When every key is allowed and every timestamp string parses,
    [instance_update] makes one call: the save of an instance built from
    the same keys, in which the timestamp strings have become datetimes
    and every other value is as it came. What the save answers is what
    the call answers, seen through the decorator: an InstanceNotFound of
    the save, say, leaves as an [ExpectedException]. *)
Theorem instance_update_saves_parsed
    (instance_uuid : string) (updates : list (string * Field)) :
  forallb (update_item_ok backend) updates = true →
  let saved := parsed_item backend <$> updates in
  instance_update backend instance_uuid updates =
    (expected_outcome instance_update_expected
       (instance_save backend instance_uuid saved),
     [PcInstanceSave instance_uuid saved]) ∧
  saved.*1 = updates.*1 ∧
  ∀ k item, updates !! k = Some item →
    is_timestamp_string item = false → saved !! k = Some item.
Proof.
  intros Hok saved.
  split; [|split].
  - assert (Hloop :
      instance_update_items backend instance_uuid updates =
        proxy_ret saved).
    { rewrite <- (app_nil_r updates) at 1.
      rewrite (instance_update_items_prefix _ _ _ Hok).
      cbn [instance_update_items]. rewrite proxy_bind_ret_l, app_nil_r.
      reflexivity. }
    unfold instance_update.
    rewrite run_proxy_expected_exceptions, Hloop, proxy_bind_ret_l.
    reflexivity.
  - subst saved. rewrite <- list_fmap_compose. apply list_fmap_ext.
    intros i [key value] _. reflexivity.
  - intros k [key value] Hk Hplain. subst saved.
    rewrite list_lookup_fmap, Hk. simpl.
    unfold parsed_item. rewrite Hplain. reflexivity.
Qed.

End InstanceUpdate.

Section ServiceGetAllBy.

Variable backend : Backend.

(** X20. [service_get_all_by] with a binary and neither topic nor host
    matches none of its branches: [result] is never assigned, the call
    fails with UnboundLocalError, and the database is not asked. *)
Theorem service_get_all_by_binary_alone (topic host binary : option string) :
  truthy_str topic = false →
  truthy_str host = false →
  truthy_str binary = true →
  service_get_all_by backend topic host binary =
    (Raise (mkExn (OtherException "UnboundLocalError") []), []).
Proof.
  intros Ht Hh Hb. unfold service_get_all_by.
  rewrite Ht, Hh, Hb. reflexivity.
Qed.

(** X21. When topic and host are both given, [binary] plays no part: the
    call is the same as without it. *)
Theorem service_get_all_by_topic_and_host_ignore_binary
    (topic host binary : option string) :
  truthy_str topic = true →
  truthy_str host = true →
  service_get_all_by backend topic host binary =
    service_get_all_by backend topic host None.
Proof.
  intros Ht Hh. unfold service_get_all_by.
  rewrite Ht, Hh. reflexivity.
Qed.

(** X22. For topic ['compute'] and a host, the service row of that host
    comes back as a one-element list, with the compute nodes added under
    ['compute_node']. The nodes are looked up by the ['host'] of the row,
    not by the [host] argument; the other entries of the row are
    untouched. *)
Theorem service_get_all_by_compute_host
    (host : string) (binary : option string)
    (row : list (string * PyVal)) (row_host nodes : PyVal) :
  host ≠ "" →
  db_service_get_by_compute_host backend host = Ok (VDict row) →
  assoc "host" row = Some row_host →
  compute_node_get_all_by_host backend row_host = Ok nodes →
  let out := service_get_all_by backend (Some "compute") (Some host) binary in
  let row' := dict_setitem "compute_node" nodes row in
  out =
    (Ok (to_primitive backend (VList [VDict row'])),
     [PcServiceGetByComputeHost host; PcComputeNodeGetAllByHost row_host]) ∧
  assoc "compute_node" row' = Some nodes ∧
  ∀ k, k ≠ "compute_node" → assoc k row' = assoc k row.
Proof.
  intros Hhost Hrow Hrh Hnodes out row'. subst out row'.
  split; [|split].
  - unfold service_get_all_by. cbn [truthy_str default].
    rewrite (bool_decide_eq_false_2 (host = "")) by exact Hhost.
    rewrite (bool_decide_eq_false_2 ("compute" = "")) by discriminate.
    cbn [negb orb andb].
    rewrite (bool_decide_eq_true_2 ("compute" = "compute")) by reflexivity.
    unfold call, id, proxy_bind, proxy_ret, row_getitem, row_setitem,
      dict_getitem.
    rewrite Hrow. simpl. rewrite Hrh. simpl.
    rewrite Hnodes. reflexivity.
  - clear. induction row as [|[k v] row IH]; [reflexivity|].
    cbn [dict_setitem].
    destruct (bool_decide ("compute_node" = k)) eqn:Hk; cbn [assoc].
    + rewrite bool_decide_eq_true_2 by reflexivity. reflexivity.
    + rewrite Hk. exact IH.
  - clear. intros k Hk. induction row as [|[k' v] row IH].
    + cbn [dict_setitem assoc].
      rewrite bool_decide_eq_false_2 by exact Hk. reflexivity.
    + cbn [dict_setitem].
      destruct (bool_decide ("compute_node" = k')) eqn:Hk'; cbn [assoc].
      * apply bool_decide_eq_true in Hk'. subst k'.
        rewrite !bool_decide_eq_false_2 by exact Hk. reflexivity.
      * rewrite IH. reflexivity.
Qed.

End ServiceGetAllBy.

Section BlockDeviceMapping.

Variable backend : Backend.

(** X23. [block_device_mapping_update_or_create] makes the write that
    [create] selects and tells the cells API exactly when that write went
    through: the call that returns has made the write and then one cells
    call, which carries the row the write returned, converted, and the
    [create] it was given; when the write raises, its exception leaves
    the call and the write is the only call. *)
Theorem block_device_mapping_cells_follow_write
    (values : list (string * PyVal)) (create : PyVal) :
  let out := block_device_mapping_update_or_create backend values create in
  let after (write : ProxyCall) (answer : result PyVal) : Proxy unit :=
    match answer with
    | Ok bdm =>
        (Ok tt,
         [write;
          PcBdmUpdateOrCreateAtTop (bdm_from_db_object backend bdm) create])
    | Raise e => (Raise e, [write])
    end in
  (create = VNone →
   out = after (PcBdmUpdateOrCreate values)
           (db_block_device_mapping_update_or_create backend values)) ∧
  (create = VBool true →
   out = after (PcBdmCreate values)
           (db_block_device_mapping_create backend values)) ∧
  (create ≠ VNone → create ≠ VBool true →
   ∀ bdm_id, assoc "id" values = Some bdm_id →
     out = after (PcBdmUpdate bdm_id values)
             (db_block_device_mapping_update backend bdm_id values)).
Proof.
  intros out after. subst out after.
  unfold block_device_mapping_update_or_create.
  split; [|split].
  - intros ->. unfold call.
    destruct (db_block_device_mapping_update_or_create backend values);
      reflexivity.
  - intros ->. unfold call.
    destruct (db_block_device_mapping_create backend values); reflexivity.
  - intros Hnone Htrue bdm_id Hid.
    assert (Hupdate :
      (do! bdm :=
         (do! bdm_id := dict_getitem values "id" in
          call (PcBdmUpdate bdm_id values)
            (db_block_device_mapping_update backend bdm_id values)) in
       tell (PcBdmUpdateOrCreateAtTop (bdm_from_db_object backend bdm)
               create)) =
      match db_block_device_mapping_update backend bdm_id values with
      | Ok bdm =>
          (Ok tt,
           [PcBdmUpdate bdm_id values;
            PcBdmUpdateOrCreateAtTop (bdm_from_db_object backend bdm) create])
      | Raise e => (Raise e, [PcBdmUpdate bdm_id values])
      end).
    { unfold dict_getitem. rewrite Hid, proxy_bind_ret_l. unfold call.
      destruct (db_block_device_mapping_update backend bdm_id values);
        reflexivity. }
    destruct create as [|[|]| | | | |]; try exact Hupdate; contradiction.
Qed.

(** X24. The write is chosen by identity with [None] and [True]: any
    other [create], [False] or not, is an update of the row
    [values['id']], and without an ['id'] in [values] that is a KeyError
    before anything is called. *)
Theorem block_device_mapping_update_needs_id
    (values : list (string * PyVal)) (create : PyVal) :
  create ≠ VNone →
  create ≠ VBool true →
  let out := block_device_mapping_update_or_create backend values create in
  match assoc "id" values with
  | Some bdm_id =>
      head (proxy_calls out) = Some (PcBdmUpdate bdm_id values)
  | None => out = (Raise (mkExn KeyError [("key", "id")]), [])
  end.
Proof.
  intros Hnone Htrue out. subst out.
  unfold block_device_mapping_update_or_create.
  assert (Hupdate :
    let out :=
      do! bdm :=
        (do! bdm_id := dict_getitem values "id" in
         call (PcBdmUpdate bdm_id values)
           (db_block_device_mapping_update backend bdm_id values)) in
      tell (PcBdmUpdateOrCreateAtTop (bdm_from_db_object backend bdm) create)
    in
    match assoc "id" values with
    | Some bdm_id =>
        head (proxy_calls out) = Some (PcBdmUpdate bdm_id values)
    | None => out = (Raise (mkExn KeyError [("key", "id")]), [])
    end).
  { unfold dict_getitem. destruct (assoc "id" values) as [bdm_id|].
    - rewrite proxy_bind_ret_l. unfold call.
      destruct (db_block_device_mapping_update backend bdm_id values);
        reflexivity.
    - reflexivity. }
  destruct create as [|[|]| | | | |]; try exact Hupdate; contradiction.
Qed.

End BlockDeviceMapping.

Section Ec2Ids.

Variable backend : Backend.

Lemma proxy_outcome_bind {A B} (m : Proxy A) (f : A → Proxy B) :
  proxy_outcome (proxy_bind m f) =
    match proxy_outcome m with
    | Ok a => proxy_outcome (f a)
    | Raise e => Raise e
    end.
Proof.
  destruct m as [[a|e] t]; unfold proxy_bind, proxy_outcome; simpl;
    [destruct (f a)|]; reflexivity.
Qed.

(** The keys the loop over the image types adds. *)
Lemma get_ec2_image_ids_keys instance image_types :
  ∀ acc ids,
    proxy_outcome (get_ec2_image_ids backend instance image_types acc)
      = Ok ids →
    ∀ k, is_Some (ids !! k) ↔
         is_Some (acc !! k) ∨
         ∃ t, t ∈ image_types ∧ k = t +:+ "-id" ∧
              default VNone (assoc (t +:+ "_id") instance) ≠ VNone.
Proof.
  induction image_types as [|t image_types IH]; intros acc ids Hout k.
  { injection Hout as <-. split; [intros H; left; exact H|].
    intros [H|(t & Ht & _)]; [exact H|inversion Ht]. }
  cbn [get_ec2_image_ids] in Hout. rewrite proxy_outcome_bind in Hout.
  destruct (default VNone (assoc (t +:+ "_id") instance)) eqn:Hid.
  { (* no image of this type *)
    cbn [proxy_outcome proxy_ret fst] in Hout.
    rewrite (IH _ _ Hout k). split.
    - intros [H|(t' & Ht' & Hk & Hne)]; [left; exact H|].
      right. exists t'. split; [apply list_elem_of_further, Ht'|].
      split; assumption.
    - intros [H|(t' & Ht' & Hk & Hne)]; [left; exact H|].
      apply elem_of_cons in Ht' as [->|Ht']; [congruence|].
      right. exists t'. split; [exact Ht'|]. split; assumption. }
  all: rewrite proxy_outcome_bind in Hout; unfold call in Hout;
    cbn [proxy_outcome fst] in Hout;
    destruct (glance_id_to_ec2_id backend _ _) as [ec2_id|e];
    [|discriminate];
    cbn [proxy_ret fst] in Hout;
    rewrite (IH _ _ Hout k), lookup_insert_is_Some; split;
    [ intros [[Hk|[_ H]]|(t' & Ht' & Hk & Hne)];
      [ right; exists t; split; [apply list_elem_of_here|];
        split; [symmetry; exact Hk|rewrite Hid; discriminate]
      | left; exact H
      | right; exists t'; split; [apply list_elem_of_further, Ht'|];
        split; assumption ]
    | intros [H|(t' & Ht' & Hk & Hne)];
      [ destruct (decide (t +:+ "-id" = k)) as [Heq|Hneq];
        [left; left; exact Heq|left; right; split; assumption]
      | apply elem_of_cons in Ht' as [->|Ht'];
        [ left; left; symmetry; exact Hk
        | right; exists t'; split; [exact Ht'|]; split; assumption ] ] ].
Qed.

(** X25. What [get_ec2_ids] returns has ['instance-id'] and ['ami-id'],
    and ['kernel-id'] or ['ramdisk-id'] exactly when the instance has a
    ['kernel_id'] or ['ramdisk_id'] that is not [None]; there is no other
    key. An id that is there but empty is still converted. *)
Theorem get_ec2_ids_keys
    (instance : list (string * PyVal)) (ids : gmap string PyVal) :
  proxy_outcome (get_ec2_ids backend instance) = Ok ids →
  ∀ k, is_Some (ids !! k) ↔
       k = "instance-id" ∨ k = "ami-id" ∨
       (k = "kernel-id" ∧
        default VNone (assoc "kernel_id" instance) ≠ VNone) ∨
       (k = "ramdisk-id" ∧
        default VNone (assoc "ramdisk_id" instance) ≠ VNone).
Proof.
  unfold get_ec2_ids, dict_getitem. intros Hout k.
  destruct (assoc "uuid" instance) as [instance_uuid|]; [|discriminate].
  rewrite proxy_bind_ret_l, proxy_outcome_bind in Hout.
  unfold call in Hout. cbn [proxy_outcome fst] in Hout.
  destruct (id_to_ec2_inst_id backend instance_uuid) as [inst_id|e];
    [|discriminate].
  destruct (assoc "image_ref" instance) as [image_ref|]; [|discriminate].
  rewrite proxy_bind_ret_l, proxy_outcome_bind in Hout.
  cbn [proxy_outcome fst] in Hout.
  destruct (glance_id_to_ec2_id backend image_ref None) as [ami_id|e];
    [|discriminate].
  rewrite (get_ec2_image_ids_keys _ _ _ _ Hout k).
  rewrite !lookup_insert_is_Some, lookup_empty.
  split.
  - intros [[Hk|[_ [Hk|[_ H]]]]|(t & Ht & Hk & Hne)].
    + right. left. symmetry. exact Hk.
    + left. symmetry. exact Hk.
    + destruct H as [? H]. discriminate H.
    + apply elem_of_cons in Ht as [->|Ht].
      { right. right. left. split; [exact Hk|exact Hne]. }
      apply list_elem_of_singleton in Ht as ->.
      right. right. right. split; [exact Hk|exact Hne].
  - intros [->|[->|[[-> Hne]|[-> Hne]]]].
    + left. right. split; [discriminate|]. left. reflexivity.
    + left. left. reflexivity.
    + right. exists "kernel". split; [apply list_elem_of_here|].
      split; [reflexivity|exact Hne].
    + right. exists "ramdisk".
      split; [apply list_elem_of_further, list_elem_of_here|].
      split; [reflexivity|exact Hne].
Qed.

End Ec2Ids.

Section ObjectAction.

Variable backend : Backend.

Lemma object_action_diff_reported oldobj objinst updates name :
  object_action_diff backend oldobj objinst updates name =
    match reported_change backend oldobj objinst name with
    | Some p => <[ name := p ]> updates
    | None => updates
    end.
Proof.
  unfold object_action_diff, reported_change.
  destruct (obj_attrs objinst !! name) as [new|]; [|reflexivity].
  destruct (match obj_attrs oldobj !! name with
            | Some old => py_ne backend old new
            | None => true
            end); reflexivity.
Qed.

(** The loop over the fields: an entry for every field with a change to
    report, and what was there for the others. *)
Lemma object_action_diff_fold oldobj objinst fields :
  ∀ updates name,
    foldl (object_action_diff backend oldobj objinst) updates fields !! name =
      if bool_decide (name ∈ fields) then
        match reported_change backend oldobj objinst name with
        | Some p => Some p
        | None => updates !! name
        end
      else updates !! name.
Proof.
  induction fields as [|f fields IH]; intros updates name.
  { rewrite bool_decide_eq_false_2 by apply not_elem_of_nil. reflexivity. }
  cbn [foldl]. rewrite IH, object_action_diff_reported.
  destruct (decide (name = f)) as [->|Hne].
  - rewrite (bool_decide_eq_true_2 (f ∈ f :: fields))
      by apply list_elem_of_here.
    destruct (reported_change backend oldobj objinst f) as [p|] eqn:Hp.
    + destruct (bool_decide (f ∈ fields)); [reflexivity|].
      apply lookup_insert_eq.
    + destruct (bool_decide (f ∈ fields)); reflexivity.
  - assert (Hsame : bool_decide (name ∈ f :: fields) =
                    bool_decide (name ∈ fields)).
    { apply bool_decide_ext. rewrite elem_of_cons. tauto. }
    rewrite Hsame.
    destruct (reported_change backend oldobj objinst f) as [p|];
      [|reflexivity].
    rewrite lookup_insert_ne by congruence. reflexivity.
Qed.

(** X26. The updates [object_action] sends back, when the method has
    returned: under ['obj_what_changed'] the names the object reports as
    changed, and for every other name an entry exactly when it is a field
    whose attribute is set after the call and was either not set before or
    compares unequal to what it was; the entry is the primitive of the
    value after the call. So a field the method has unset is not in the
    updates, and neither is anything that is not a field. *)
Theorem object_action_reports_changes
    (objinst after : NovaObject) (objmethod : string) (args : list PyVal)
    (result : PyVal) :
  obj_method backend objinst objmethod args = Some (Ok (after, result)) →
  ∃ updates,
    object_action backend objinst objmethod args =
      (Ok (updates, result), [PcObjectMethod objinst objmethod args]) ∧
    updates !! "obj_what_changed" =
      Some (VList (VStr <$> obj_changes after)) ∧
    ∀ name, name ≠ "obj_what_changed" →
      updates !! name =
        if bool_decide (name ∈ obj_fields after) then
          match obj_attrs after !! name with
          | None => None
          | Some new =>
              if match obj_attrs objinst !! name with
                 | None => true
                 | Some old => py_ne backend old new
                 end
              then Some (field_to_primitive backend name new)
              else None
          end
        else None.
Proof.
  intros Hcall. unfold object_action, _object_dispatch. rewrite Hcall.
  eexists. split; [reflexivity|]. split.
  - apply lookup_insert_eq.
  - intros name Hname.
    rewrite lookup_insert_ne by congruence.
    rewrite object_action_diff_fold, lookup_empty.
    unfold reported_change.
    destruct (bool_decide (name ∈ obj_fields after)); [|reflexivity].
    destruct (obj_attrs after !! name) as [new|]; [|reflexivity].
    destruct (match obj_attrs objinst !! name with
              | Some old => py_ne backend old new
              | None => true
              end); reflexivity.
Qed.

(** X27. Whatever goes wrong in the method, a missing method included,
    [object_action] fails with [ExpectedException]: the exception of the
    method itself never leaves the call, and no updates are computed. *)
Theorem object_action_wraps_failures
    (objinst : NovaObject) (objmethod : string) (args : list PyVal) :
  (∀ r, obj_method backend objinst objmethod args ≠ Some (Ok r)) →
  proxy_outcome (object_action backend objinst objmethod args) =
    Raise (mkExn (OtherException "ExpectedException") []).
Proof.
  intros Hfail. unfold object_action, _object_dispatch.
  destruct (obj_method backend objinst objmethod args) as [[r|e]|];
    [destruct (Hfail r); reflexivity| |]; reflexivity.
Qed.

End ObjectAction.

Lemma instance_update_unknown_key_witness :
  let updates :=
    [("vm_state", Raw (VStr "active"))] ++
    ("deleted", Raw (VBool true)) :: [("host", Raw (VStr "compute1"))] in
  instance_update_items MoreFixtures.backend "u1" updates =
    (Raise (unexpected_keyword "deleted"),
     [update_rejected_log "u1" "deleted"]) ∧
  instance_update MoreFixtures.backend "u1" updates =
    (Raise (mkExn (OtherException "ExpectedException") []),
     [update_rejected_log "u1" "deleted"]).
Proof.
  apply (instance_update_unknown_key MoreFixtures.backend "u1"
           [("vm_state", Raw (VStr "active"))]
           [("host", Raw (VStr "compute1"))] "deleted" (Raw (VBool true))).
  - reflexivity.
  - apply (bool_decide_unpack _). vm_compute. exact I.
Defined.

Lemma instance_update_bad_timestamp_witness :
  let updates :=
    [("vm_state", Raw (VStr "active"))] ++
    ("launched_at", Raw (VStr "yesterday")) :: [] in
  instance_update_items MoreFixtures.backend "u1" updates =
    (Raise (mkExn (OtherException "ValueError") []), []) ∧
  instance_update MoreFixtures.backend "u1" updates =
    (Raise (mkExn (OtherException "ExpectedException") []), []).
Proof.
  apply (instance_update_bad_timestamp MoreFixtures.backend "u1"
           [("vm_state", Raw (VStr "active"))] [] "launched_at" "yesterday"
           (mkExn (OtherException "ValueError") [])).
  - reflexivity.
  - apply (bool_decide_unpack _). vm_compute. exact I.
  - reflexivity.
Defined.

Lemma instance_update_saves_parsed_witness :
  let updates :=
    [("vm_state", Raw (VStr "active"));
     ("launched_at", Raw (VStr MoreFixtures.timestamp));
     ("terminated_at", Raw VNone);
     ("host", Raw (VStr MoreFixtures.timestamp))] in
  let saved := parsed_item MoreFixtures.backend <$> updates in
  instance_update MoreFixtures.backend "u1" updates =
    (expected_outcome instance_update_expected
       (instance_save MoreFixtures.backend "u1" saved),
     [PcInstanceSave "u1" saved]) ∧
  saved.*1 = updates.*1 ∧
  ∀ k item, updates !! k = Some item →
    is_timestamp_string item = false → saved !! k = Some item.
Proof.
  intros updates.
  apply (instance_update_saves_parsed MoreFixtures.backend "u1" updates).
  reflexivity.
Defined.

Lemma service_get_all_by_binary_alone_witness :
  service_get_all_by MoreFixtures.backend None (Some "") (Some "nova-compute") =
    (Raise (mkExn (OtherException "UnboundLocalError") []), []).
Proof.
  apply (service_get_all_by_binary_alone MoreFixtures.backend None (Some "")
           (Some "nova-compute")); reflexivity.
Defined.

Lemma service_get_all_by_topic_and_host_ignore_binary_witness :
  service_get_all_by MoreFixtures.backend (Some "network") (Some "compute1")
    (Some "nova-network") =
  service_get_all_by MoreFixtures.backend (Some "network") (Some "compute1")
    None.
Proof.
  apply (service_get_all_by_topic_and_host_ignore_binary
           MoreFixtures.backend (Some "network") (Some "compute1")
           (Some "nova-network")); reflexivity.
Defined.

Lemma service_get_all_by_compute_host_witness :
  let out :=
    service_get_all_by MoreFixtures.backend (Some "compute") (Some "compute1")
      None in
  let nodes := VList [VDict [("hypervisor_hostname", VStr "compute1")]] in
  let row' :=
    dict_setitem "compute_node" nodes (MoreFixtures.service_row "compute1") in
  out =
    (Ok (to_primitive MoreFixtures.backend (VList [VDict row'])),
     [PcServiceGetByComputeHost "compute1";
      PcComputeNodeGetAllByHost (VStr "compute1")]) ∧
  assoc "compute_node" row' = Some nodes ∧
  ∀ k, k ≠ "compute_node" →
       assoc k row' = assoc k (MoreFixtures.service_row "compute1").
Proof.
  intros out nodes row'.
  apply (service_get_all_by_compute_host MoreFixtures.backend "compute1" None
           (MoreFixtures.service_row "compute1") (VStr "compute1") nodes).
  - discriminate.
  - reflexivity.
  - reflexivity.
  - reflexivity.
Defined.

Lemma block_device_mapping_update_needs_id_witness :
  block_device_mapping_update_or_create MoreFixtures.backend
    [("device_name", VStr "/dev/vdb")] (VBool false) =
    (Raise (mkExn KeyError [("key", "id")]), []).
Proof.
  apply (block_device_mapping_update_needs_id MoreFixtures.backend
           [("device_name", VStr "/dev/vdb")] (VBool false)); discriminate.
Defined.

Lemma block_device_mapping_cells_follow_write_witness :
  let values := [("id", VInt 4); ("device_name", VStr "/dev/vdb")] in
  block_device_mapping_update_or_create MoreFixtures.backend values VNone =
    (Ok tt,
     [PcBdmUpdateOrCreate values;
      PcBdmUpdateOrCreateAtTop (VDict values) VNone]) ∧
  block_device_mapping_update_or_create MoreFixtures.backend values
    (VBool false) =
    (Ok tt,
     [PcBdmUpdate (VInt 4) values;
      PcBdmUpdateOrCreateAtTop (VDict values) (VBool false)]).
Proof.
  intros values. split.
  - apply (block_device_mapping_cells_follow_write MoreFixtures.backend
             values VNone). reflexivity.
  - apply (block_device_mapping_cells_follow_write MoreFixtures.backend
             values (VBool false)); [discriminate|discriminate|reflexivity].
Defined.

Lemma get_ec2_ids_keys_witness :
  let instance :=
    [("uuid", VStr "u1"); ("image_ref", VStr "img1");
     ("kernel_id", VStr ""); ("ramdisk_id", VNone)] in
  let ids : gmap string PyVal :=
    {[ "instance-id" := VStr "i-00000001"; "ami-id" := VStr "ami-00000001";
       "kernel-id" := VStr "aki-00000001" ]} in
  let expected k :=
    k = "instance-id" ∨ k = "ami-id" ∨
    (k = "kernel-id" ∧
     default VNone (assoc "kernel_id" instance) ≠ VNone) ∨
    (k = "ramdisk-id" ∧
     default VNone (assoc "ramdisk_id" instance) ≠ VNone) in
  (is_Some (ids !! "kernel-id") ↔ expected "kernel-id") ∧
  (is_Some (ids !! "ramdisk-id") ↔ expected "ramdisk-id").
Proof.
  intros instance ids expected.
  split; apply (get_ec2_ids_keys MoreFixtures.backend instance ids);
    vm_compute; reflexivity.
Defined.

Lemma object_action_reports_changes_witness :
  let objinst := MoreFixtures.building_instance in
  let after :=
    {| obj_fields := ["uuid"; "host"; "node"];
       obj_attrs := <[ "host" := VStr "compute9" ]> (obj_attrs objinst);
       obj_changes := [] |} in
  ∃ updates,
    object_action MoreFixtures.backend objinst "save" [] =
      (Ok (updates, VNone), [PcObjectMethod objinst "save" []]) ∧
    updates !! "obj_what_changed" =
      Some (VList (VStr <$> obj_changes after)) ∧
    ∀ name, name ≠ "obj_what_changed" →
      updates !! name =
        if bool_decide (name ∈ obj_fields after) then
          match obj_attrs after !! name with
          | None => None
          | Some new =>
              if match obj_attrs objinst !! name with
                 | None => true
                 | Some old => py_ne MoreFixtures.backend old new
                 end
              then Some (field_to_primitive MoreFixtures.backend name new)
              else None
          end
        else None.
Proof.
  intros objinst after.
  apply (object_action_reports_changes MoreFixtures.backend objinst after
           "save" [] VNone).
  reflexivity.
Defined.

Lemma object_action_wraps_failures_witness :
  proxy_outcome
    (object_action MoreFixtures.backend MoreFixtures.building_instance
       "destroy" []) =
    Raise (mkExn (OtherException "ExpectedException") []).
Proof.
  apply (object_action_wraps_failures MoreFixtures.backend
           MoreFixtures.building_instance "destroy" []).
  intros r. discriminate.
Defined.
